(** * GeoJSON importer of the map viewer (src/app.js)

    A shallow embedding of the GeoJSON ingestion path of [app.js]:
    [convertGeoJSONGeometry], [getSymbolForGeometry], [createPopupTemplate],
    [createGraphicFromGeoJSON], [updateBounds] (with the [expand] method it
    attaches to a box) and the data part of [loadGeoJSON].

    JavaScript numbers are IEEE-754 binary64 values; they are modelled by
    the Standard Library's [spec_float] with precision 53 and maximal
    exponent 1024, so arithmetic and comparisons round and order exactly as
    the engine does.  Exceptions are modelled by an error result. *)

From Stdlib Require Import ZArith List String Ascii Bool Lia Permutation.
From Stdlib Require Import Floats.SpecFloat.
From Stdlib Require DecimalString.
Import ListNotations.

Set Warnings "-register-all".

(** ** JavaScript numbers *)

Module JS.

Definition number := spec_float.

Definition prec : Z := 53.
Definition emax : Z := 1024.

Definition NaN : number := S754_nan.
Definition Infinity : number := S754_infinity false.
Definition NegInfinity : number := S754_infinity true.
Definition zero : number := S754_zero false.
Definition negzero : number := S754_zero true.

(** The number denoted by an integer literal. *)
Definition of_Z (z : Z) : number := binary_normalize prec emax z 0 false.

(** The literals [1], [2] and [1.2] (the double nearest to 1.2 is
    0x1.3333333333333p+0). *)
Definition one : number := S754_finite false 4503599627370496 (-52).
Definition two : number := S754_finite false 4503599627370496 (-51).
Definition lit_1_2 : number := S754_finite false 5404319552844595 (-52).

Definition add : number -> number -> number := SFadd prec emax.
Definition sub : number -> number -> number := SFsub prec emax.
Definition mul : number -> number -> number := SFmul prec emax.
Definition div : number -> number -> number := SFdiv prec emax.

(** [<], [<=] and [===] on numbers. *)
Definition ltb : number -> number -> bool := SFltb.
Definition leb : number -> number -> bool := SFleb.
Definition eqb : number -> number -> bool := SFeqb.

Definition is_nan (x : number) : bool :=
  match x with S754_nan => true | _ => false end.

Definition is_finite (x : number) : bool :=
  match x with S754_zero _ | S754_finite _ _ _ => true | _ => false end.

Definition is_poszero (x : number) : bool :=
  match x with S754_zero false => true | _ => false end.

Definition is_negzero (x : number) : bool :=
  match x with S754_zero true => true | _ => false end.

(** ** Values

    The values that reach the geometry code: what [JSON.parse] yields for a
    [coordinates] member made of numbers and nested arrays, and [undefined]
    for a member that is absent or an index out of range.  A [coordinates]
    member that is or holds [null], a string, a boolean or an object is not
    in the type: no statement of this file speaks of such a document. *)

Inductive value : Type :=
| Undefined
| Num (n : number)
| Arr (elems : list value).

(** ** Exceptions *)

Inductive exn : Type := TypeError.

Inductive result (A : Type) : Type :=
| Ok (a : A)
| Throw (e : exn).

Arguments Ok {A} a.
Arguments Throw {A} e.

Definition bind {A B} (r : result A) (k : A -> result B) : result B :=
  match r with
  | Ok a => k a
  | Throw e => Throw e
  end.

Fixpoint mapM {A B} (f : A -> result B) (l : list A) : result (list B) :=
  match l with
  | [] => Ok []
  | x :: l' =>
      bind (f x) (fun y => bind (mapM f l') (fun ys => Ok (y :: ys)))
  end.

(** [forEach] with the state its callback updates: the callback runs on
    the elements in order, an exception leaves the loop. *)
Fixpoint forEach {A S} (f : S -> A -> result S) (l : list A) (s : S)
  : result S :=
  match l with
  | [] => Ok s
  | x :: l' => bind (f s x) (forEach f l')
  end.

(** [v[i]]: reading an index of [undefined] throws, a number has no
    indexed property, an array yields [undefined] out of range. *)
Definition get (v : value) (i : nat) : result value :=
  match v with
  | Undefined => Throw TypeError
  | Num _ => Ok Undefined
  | Arr l => Ok (nth i l Undefined)
  end.

(** One level of [Array.prototype.flat]. *)
Definition flat_elems (l : list value) : list value :=
  flat_map (fun e => match e with Arr l' => l' | _ => [e] end) l.

(** [v.flat()]: only arrays have the method. *)
Definition flat (v : value) : result (list value) :=
  match v with
  | Arr l => Ok (flat_elems l)
  | _ => Throw TypeError
  end.

(** [ToNumber].  An array is converted through its string: the empty array
    and [[undefined]] give the empty string, hence [+0]; a one-element array
    gives the string of its element, which reads back as the element's
    number (and [-0] prints as ["0"]); two or more elements give a string
    with a comma, hence [NaN]. *)
Fixpoint ToNumber (v : value) : number :=
  match v with
  | Undefined => NaN
  | Num n => n
  | Arr [] => zero
  | Arr [e] =>
      match e with
      | Undefined => zero
      | Num n => if is_negzero n then zero else n
      | Arr _ => ToNumber e
      end
  | Arr (_ :: _ :: _) => NaN
  end.

(** [a <= b] for operands that are numbers or [undefined] (two arrays
    would be compared as strings). *)
Definition le (a b : value) : bool := leb (ToNumber a) (ToNumber b).

(** [Math.min(...args)] (ECMA-262, 21.3.2.25): the arguments are coerced
    first; the running value starts at [+Infinity]; a [NaN] argument gives
    [NaN]; [-0] counts as smaller than [+0]. *)
Definition min_step (lowest n : number) : number :=
  let lowest1 :=
    if is_negzero n && is_poszero lowest then negzero else lowest in
  if ltb n lowest1 then n else lowest1.

Fixpoint min_from (lowest : number) (coerced : list number) : number :=
  match coerced with
  | [] => lowest
  | n :: rest =>
      if is_nan n then NaN else min_from (min_step lowest n) rest
  end.

Definition Math_min (args : list value) : number :=
  min_from Infinity (map ToNumber args).

(** [Math.max(...args)] (ECMA-262, 21.3.2.24), symmetrically. *)
Definition max_step (highest n : number) : number :=
  let highest1 :=
    if is_poszero n && is_negzero highest then zero else highest in
  if ltb highest1 n then n else highest1.

Fixpoint max_from (highest : number) (coerced : list number) : number :=
  match coerced with
  | [] => highest
  | n :: rest =>
      if is_nan n then NaN else max_from (max_step highest n) rest
  end.

Definition Math_max (args : list value) : number :=
  max_from NegInfinity (map ToNumber args).

End JS.

Import JS.

Notation "x <- e ;; k" := (bind e (fun x => k))
  (at level 61, e at next level, right associativity).
Notation "' pat <- e ;; k" :=
  (bind e (fun x => match x with pat => k end))
  (at level 61, pat pattern, e at next level, right associativity).

Open Scope string_scope.

(** ** Data model *)

(** A GeoJSON geometry object: its [type] member and its [coordinates]
    member ([Undefined] when the member is absent, as in a
    GeometryCollection). *)
Module Geometry.
Record t : Type := Build { type : string; coordinates : value }.
End Geometry.

(** A value of a [properties] member. *)
Inductive scalar : Type :=
| SUndefined
| SNull
| SBool (b : bool)
| SNumber (n : number)
| SString (s : string).

(** A [properties] object, as the list [Object.entries] enumerates. *)
Definition Properties := list (string * scalar).

(** A GeoJSON Feature: [geometry] and [properties] are [None] when the
    member is [null] or absent. *)
Module Feature.
Record t : Type :=
  Build { geometry : option Geometry.t; properties : option Properties }.
End Feature.

(** The parsed document handed to [loadGeoJSON]. *)
Module Document.
Record t : Type :=
  Build { type : string;
          features : option (list Feature.t);
          geometry : option Geometry.t;
          properties : option Properties }.

(** The document read as a feature ([createGraphicFromGeoJSON] only reads
    [geometry] and [properties]). *)
Definition as_feature (d : t) : Feature.t :=
  Feature.Build (geometry d) (properties d).
End Document.

(** The geometry objects built by [convertGeoJSONGeometry], by their [type]
    member. *)
Inductive ArcGISGeometry : Type :=
| point (longitude latitude : value)
| polyline (paths : value)
| polygon (rings : value)
| multipoint (points : value).

(** The three symbol literals of [getSymbolForGeometry]. *)
Inductive Symbol : Type :=
| simple_marker
| simple_line
| simple_fill.

Record PopupTemplate : Type :=
  { title : scalar; content : string }.

(** The fields given to the [Graphic] constructor; [loadGeoJSON] reads
    [graphic.geometry] back as the object it passed in.  (The constructor
    is the map library's, not this repository's; what it makes of a
    geometry object that is not well formed is not modelled.) *)
Record Graphic : Type :=
  { geometry : ArcGISGeometry;
    symbol : option Symbol;
    attributes : Properties;
    popupTemplate : PopupTemplate }.

Record SpatialReference : Type := { wkid : Z }.

(** The box of [updateBounds]; its [expand] member is the function
    [expand] below. *)
Record Bounds : Type :=
  { xmin : value; ymin : value; xmax : value; ymax : value;
    spatialReference : SpatialReference }.

(** A result of [+]: a number, or a string when an operand was an array. *)
Inductive primitive : Type :=
| PNumber (n : number)
| PString (s : string).

(** The object returned by [expand]. *)
Record Extent : Type :=
  { ext_xmin : number; ext_ymin : number;
    ext_xmax : primitive; ext_ymax : primitive;
    ext_spatialReference : SpatialReference }.

(** ** Geometry conversion *)

Definition convertGeoJSONGeometry (geojsonGeom : Geometry.t)
  : result (option ArcGISGeometry) :=
  let coordinates := Geometry.coordinates geojsonGeom in
  let type := Geometry.type geojsonGeom in
  if type =? "Point" then
    lon <- get coordinates 0 ;;
    lat <- get coordinates 1 ;;
    Ok (Some (point lon lat))
  else if type =? "LineString" then
    Ok (Some (polyline (Arr [coordinates])))
  else if type =? "Polygon" then
    Ok (Some (polygon coordinates))
  else if type =? "MultiPoint" then
    Ok (Some (multipoint coordinates))
  else if type =? "MultiLineString" then
    Ok (Some (polyline coordinates))
  else if type =? "MultiPolygon" then
    rings <- flat coordinates ;;
    Ok (Some (polygon (Arr rings)))
  else
    Ok None.

Definition getSymbolForGeometry (geomType : string) : option Symbol :=
  if (geomType =? "Point") || (geomType =? "MultiPoint") then
    Some simple_marker
  else if (geomType =? "LineString") || (geomType =? "MultiLineString") then
    Some simple_line
  else if (geomType =? "Polygon") || (geomType =? "MultiPolygon") then
    Some simple_fill
  else None.

(** ** Bounds *)

(** The four locals [minX], [minY], [maxX], [maxY] of [updateBounds]: they
    are declared without a value and assigned in the branches for 'point',
    'polyline' and 'polygon'; there is no branch for 'multipoint'. *)
Definition geometry_extent (geometry : ArcGISGeometry)
  : result (value * value * value * value) :=
  match geometry with
  | point longitude latitude =>
      Ok (longitude, latitude, longitude, latitude)
  | polyline paths =>
      coords <- flat paths ;;
      xs <- mapM (fun c => get c 0) coords ;;
      ys <- mapM (fun c => get c 1) coords ;;
      Ok (Num (Math_min xs), Num (Math_min ys),
          Num (Math_max xs), Num (Math_max ys))
  | polygon rings =>
      coords <- flat rings ;;
      xs <- mapM (fun c => get c 0) coords ;;
      ys <- mapM (fun c => get c 1) coords ;;
      Ok (Num (Math_min xs), Num (Math_min ys),
          Num (Math_max xs), Num (Math_max ys))
  | multipoint _ =>
      Ok (Undefined, Undefined, Undefined, Undefined)
  end.

Definition wgs84 : SpatialReference := {| wkid := 4326 |}.

Definition updateBounds (bounds : option Bounds)
  (geometry : option ArcGISGeometry) : result (option Bounds) :=
  match geometry with
  | None => Ok bounds
  | Some geometry =>
      '(minX, minY, maxX, maxY) <- geometry_extent geometry ;;
      match bounds with
      | None =>
          Ok (Some {| xmin := minX; ymin := minY; xmax := maxX; ymax := maxY;
                      spatialReference := wgs84 |})
      | Some bounds =>
          Ok (Some {| xmin := Num (Math_min [xmin bounds; minX]);
                      ymin := Num (Math_min [ymin bounds; minY]);
                      xmax := Num (Math_max [xmax bounds; maxX]);
                      ymax := Num (Math_max [ymax bounds; maxY]);
                      spatialReference := spatialReference bounds |})
      end
  end.

(** ** The code that renders values as strings

    [Number::toString] (the shortest decimal that reads back as the number)
    is the engine's; the embedding takes it as a parameter. *)

Section Runtime.

Variable NumberToString : number -> string.

(** [ToString] on the values of a [properties] member. *)
Definition ScalarToString (v : scalar) : string :=
  match v with
  | SUndefined => "undefined"
  | SNull => "null"
  | SBool true => "true"
  | SBool false => "false"
  | SNumber n => NumberToString n
  | SString s => s
  end.

(** [ToString] on coordinate values; an array is joined with commas, an
    [undefined] element giving the empty string. *)
Fixpoint ToString (v : value) : string :=
  match v with
  | Undefined => "undefined"
  | Num n => NumberToString n
  | Arr l =>
      String.concat ","
        (map (fun e => match e with Undefined => "" | _ => ToString e end) l)
  end.

(** [a + b] for a number [b]: an array operand becomes a string and the
    sum a concatenation. *)
Definition plus (a : value) (b : number) : primitive :=
  match a with
  | Arr _ => PString (ToString a ++ NumberToString b)
  | _ => PNumber (add (ToNumber a) b)
  end.

(** The [expand] method of a box. *)
Definition expand (this : Bounds) (factor : number) : Extent :=
  let width := sub (ToNumber (xmax this)) (ToNumber (xmin this)) in
  let height := sub (ToNumber (ymax this)) (ToNumber (ymin this)) in
  let expandWidth := div (mul width (sub factor one)) two in
  let expandHeight := div (mul height (sub factor one)) two in
  {| ext_xmin := sub (ToNumber (xmin this)) expandWidth;
     ext_ymin := sub (ToNumber (ymin this)) expandHeight;
     ext_xmax := plus (xmax this) expandWidth;
     ext_ymax := plus (ymax this) expandHeight;
     ext_spatialReference := spatialReference this |}.

(** ** Popup template *)

(** [properties.key]: [undefined] when the object has no such key. *)
Fixpoint lookup (key : string) (properties : Properties) : scalar :=
  match properties with
  | [] => SUndefined
  | (k, v) :: rest => if k =? key then v else lookup key rest
  end.

(** [ToBoolean]. *)
Definition truthy (v : scalar) : bool :=
  match v with
  | SUndefined | SNull => false
  | SBool b => b
  | SNumber (S754_zero _) | SNumber S754_nan => false
  | SNumber _ => true
  | SString s => negb (s =? "")
  end.

(** [a || b]. *)
Definition or_else (a b : scalar) : scalar := if truthy a then a else b.

Definition entry_line (entry : string * scalar) : string :=
  "<b>" ++ fst entry ++ ":</b> " ++ ScalarToString (snd entry).

Definition createPopupTemplate (properties : option Properties)
  : PopupTemplate :=
  match properties with
  | None | Some [] =>
      {| title := SString "Feature"; content := "No properties available" |}
  | Some properties =>
      let content := String.concat "<br>" (map entry_line properties) in
      {| title := or_else (or_else (lookup "name" properties)
                                   (lookup "title" properties))
                          (SString "Feature");
         content := content |}
  end.

(** ** Graphics *)

Definition createGraphicFromGeoJSON (feature : Feature.t)
  : result (option Graphic) :=
  match Feature.geometry feature with
  | None => Throw TypeError
  | Some geojsonGeom =>
      geometry <- convertGeoJSONGeometry geojsonGeom ;;
      match geometry with
      | None => Ok None
      | Some geometry =>
          Ok (Some
            {| geometry := geometry;
               symbol := getSymbolForGeometry (Geometry.type geojsonGeom);
               attributes :=
                 match Feature.properties feature with
                 | Some properties => properties
                 | None => []
                 end;
               popupTemplate :=
                 createPopupTemplate (Feature.properties feature) |})
      end
  end.

(** ** Loading a document *)

(** What [loadGeoJSON] hands over: the graphics given to the layer, the
    accumulated bounds and the extent the view is sent to. *)
Record Loaded : Type :=
  { graphics : list Graphic;
    bounds : option Bounds;
    goTo : option Extent }.

(** The body run for one feature, on the locals [graphics] and [bounds]. *)
Definition addFeature (state : list Graphic * option Bounds)
  (feature : Feature.t) : result (list Graphic * option Bounds) :=
  let '(graphics, bounds) := state in
  graphic <- createGraphicFromGeoJSON feature ;;
  match graphic with
  | Some graphic =>
      bounds' <- updateBounds bounds (Some (geometry graphic)) ;;
      Ok ((graphics ++ [graphic])%list, bounds')
  | None => Ok (graphics, bounds)
  end.

Definition loadGeoJSON (geojsonData : Document.t) : result Loaded :=
  '(graphics, bounds) <-
    (if Document.type geojsonData =? "FeatureCollection" then
       match Document.features geojsonData with
       | None => Throw TypeError
       | Some features => forEach addFeature features ([], None)
       end
     else if Document.type geojsonData =? "Feature" then
       addFeature ([], None) (Document.as_feature geojsonData)
     else Ok ([], None)) ;;
  Ok {| graphics := graphics;
        bounds := bounds;
        goTo := option_map (fun b => expand b lit_1_2) bounds |}.

End Runtime.

(** ** An instance of [Number::toString]

    Exact on [NaN], the infinities, the zeros and the integers of magnitude
    up to 2^53, which the engine prints digit for digit; on any other
    number it gives the empty string.  The closed examples of this file
    use it on such numbers only. *)

Definition integer_of (n : number) : option Z :=
  match n with
  | S754_zero _ => Some 0%Z
  | S754_finite s m e =>
      if (0 <=? e)%Z then Some (cond_Zopp s (Zpos m * 2 ^ e))
      else if (Zpos m mod 2 ^ (- e) =? 0)%Z
           then Some (cond_Zopp s (Zpos m / 2 ^ (- e)))
           else None
  | _ => None
  end.

Definition IntegerToString (n : number) : string :=
  match n with
  | S754_nan => "NaN"
  | S754_infinity false => "Infinity"
  | S754_infinity true => "-Infinity"
  | _ =>
      match integer_of n with
      | Some z =>
          if (Z.abs z <=? 2 ^ 53)%Z
          then DecimalString.NilZero.string_of_int (Z.to_int z)
          else ""
      | None => ""
      end
  end.

(** * Notions used to state the properties *)

(** ** The order [Math.min] and [Math.max] follow

    [precedes x y]: [x] is below [y] numerically, or [x] is [-0] and [y] is
    [+0].  It is read off a lexicographic key. *)

Definition key (x : number) : Z * Z * Z :=
  match x with
  | S754_infinity true => (-2, 0, 0)
  | S754_finite true m e => (-1, - e, - Zpos m)
  | S754_zero true => (0, 0, 0)
  | S754_zero false => (1, 0, 0)
  | S754_finite false m e => (2, e, Zpos m)
  | S754_infinity false => (3, 0, 0)
  | S754_nan => (4, 0, 0)
  end%Z.

Definition precedes (x y : number) : Prop :=
  let '(c1, e1, m1) := key x in
  let '(c2, e2, m2) := key y in
  (c1 < c2 \/ (c1 = c2 /\ (e1 < e2 \/ (e1 = e2 /\ m1 < m2))))%Z.

Definition follows (x y : number) : Prop := precedes y x.

Definition numeric (x : number) : Prop := is_nan x = false.

(** [r] is an element of [l] that no element of [l] is strictly before. *)
Definition extremum (R : number -> number -> Prop) (r : number)
  (l : list number) : Prop :=
  In r l /\ forall x, In x l -> ~ R x r.

(** ** Folding [updateBounds] *)

(** [updateBounds] applied to the geometries in turn. *)
Definition foldBounds (geometries : list ArcGISGeometry)
  (start : option Bounds) : result (option Bounds) :=
  forEach (fun bounds g => updateBounds bounds (Some g)) geometries start.

(** The box [updateBounds] returns once the four locals are known. *)
Definition mergeBounds (bounds : option Bounds)
  (e : value * value * value * value) : Bounds :=
  let '(minX, minY, maxX, maxY) := e in
  match bounds with
  | None =>
      {| xmin := minX; ymin := minY; xmax := maxX; ymax := maxY;
         spatialReference := wgs84 |}
  | Some bounds =>
      {| xmin := Num (Math_min [xmin bounds; minX]);
         ymin := Num (Math_min [ymin bounds; minY]);
         xmax := Num (Math_max [xmax bounds; maxX]);
         ymax := Num (Math_max [ymax bounds; maxY]);
         spatialReference := spatialReference bounds |}
  end.

(** ** Sample data *)

(** The position [[x, y]] with integer coordinates. *)
Definition pos (x y : Z) : value := Arr [Num (of_Z x); Num (of_Z y)].

Definition sample_point : ArcGISGeometry :=
  point (Num (of_Z 1)) (Num (of_Z 2)).

Definition sample_polygon : ArcGISGeometry :=
  polygon (Arr [Arr [pos 0 0; pos 4 0; pos 4 5; pos 0 0]]).

Definition sample_polyline : ArcGISGeometry :=
  polyline (Arr [Arr [pos (-3) 7; pos 2 (-1)]]).

Definition sample_multipoint : ArcGISGeometry :=
  multipoint (Arr [pos 1 2; pos 3 4]).

(** ** Positions of a geometry *)

(** The elements of an array (none for another value). *)
Definition elems (v : value) : list value :=
  match v with
  | Arr l => l
  | _ => []
  end.

(** The [i]-th component of a position. *)
Definition item (v : value) (i : nat) : value :=
  match v with
  | Arr l => nth i l Undefined
  | _ => Undefined
  end.

(** The longitude and latitude of a position. *)
Definition lonlat (p : value) : value * value := (item p 0, item p 1).

Definition is_array (v : value) : bool :=
  match v with
  | Arr _ => true
  | _ => false
  end.

Definition supported_types : list string :=
  ["Point"; "LineString"; "Polygon"; "MultiPoint"; "MultiLineString";
   "MultiPolygon"].

Definition supported (type : string) : bool :=
  existsb (String.eqb type) supported_types.

(** The positions of a GeoJSON geometry in document order, by the nesting
    RFC 7946 gives each type. *)
Definition geojson_positions (g : Geometry.t) : list value :=
  let type := Geometry.type g in
  let c := Geometry.coordinates g in
  if type =? "Point" then [c]
  else if (type =? "LineString") || (type =? "MultiPoint") then elems c
  else if (type =? "Polygon") || (type =? "MultiLineString") then
    flat_map elems (elems c)
  else if type =? "MultiPolygon" then
    flat_map elems (flat_map elems (elems c))
  else [].

(** The positions of a converted geometry, in the order of its paths,
    rings or points. *)
Definition arcgis_positions (g : ArcGISGeometry) : list value :=
  match g with
  | point longitude latitude => [Arr [longitude; latitude]]
  | polyline paths => flat_map elems (elems paths)
  | polygon rings => flat_map elems (elems rings)
  | multipoint points => elems points
  end.

(** ** Processing a list of features *)

(** The elements that are present. *)
Definition somes {A} (l : list (option A)) : list A :=
  flat_map (fun o => match o with Some a => [a] | None => [] end) l.

(** Every feature of the list is handed to [createGraphicFromGeoJSON]; the
    graphics obtained are kept in order and [updateBounds] is folded over
    their geometries. *)
Definition importFeatures (NumberToString : number -> string)
  (features : list Feature.t) : result Loaded :=
  gs <- mapM (createGraphicFromGeoJSON NumberToString) features ;;
  b <- foldBounds (map geometry (somes gs)) None ;;
  Ok {| graphics := somes gs;
        bounds := b;
        goTo := option_map (fun b => expand NumberToString b lit_1_2) b |}.

Definition sample_collection_feature : Feature.t :=
  Feature.Build
    (Some (Geometry.Build "GeometryCollection" Undefined))
    (Some [("name", SString "mixed")]).

Definition sample_point_feature : Feature.t :=
  Feature.Build (Some (Geometry.Build "Point" (pos 1 2))) None.

Definition sample_polygon_feature : Feature.t :=
  Feature.Build
    (Some (Geometry.Build "Polygon"
             (Arr [Arr [pos 0 0; pos 4 0; pos 4 5; pos 0 0]])))
    (Some [("name", SString "A"); ("foo", SString "bar")]).

(** ** Boxes and positions *)

(** A position whose longitude and latitude are numbers other than [NaN]
    (what [JSON.parse] gives for a numeric position). *)
Definition numeric_position (p : value) : bool :=
  match p with
  | Arr (Num x :: Num y :: _) => negb (is_nan x) && negb (is_nan y)
  | _ => false
  end.

(** A value that [ToNumber] takes to a number other than [NaN]. *)
Definition numeric_value (v : value) : Prop := numeric (ToNumber v).

(** The box contains the position, by the comparisons of the language. *)
Definition contains (b : Bounds) (p : value) : bool :=
  le (xmin b) (item p 0) && le (item p 0) (xmax b) &&
  le (ymin b) (item p 1) && le (item p 1) (ymax b).

(** ** Size of an extent *)

Definition is_zero (n : number) : bool :=
  match n with
  | S754_zero _ => true
  | _ => false
  end.

(** [xmax - xmin] and [ymax - ymin] of an extent whose members are
    numbers. *)
Definition extent_width (e : Extent) : option number :=
  match ext_xmax e with
  | PNumber hi => Some (sub hi (ext_xmin e))
  | PString _ => None
  end.

Definition extent_height (e : Extent) : option number :=
  match ext_ymax e with
  | PNumber hi => Some (sub hi (ext_ymin e))
  | PString _ => None
  end.

(** Width and height are both above zero. *)
Definition positive_size (e : Extent) : bool :=
  match extent_width e, extent_height e with
  | Some w, Some h => ltb zero w && ltb zero h
  | _, _ => false
  end.

(** The box of the single point [(1, 2)]. *)
Definition sample_point_box : Bounds :=
  {| xmin := Num (of_Z 1); ymin := Num (of_Z 2);
     xmax := Num (of_Z 1); ymax := Num (of_Z 2);
     spatialReference := wgs84 |}.

(** ** Popup contents *)

(** [s.includes(search)]. *)
Definition includes (s search : string) : bool :=
  match String.index 0 search s with
  | Some _ => true
  | None => false
  end.

Definition has_key (key : string) (properties : Properties) : bool :=
  existsb (fun entry => fst entry =? key) properties.

Definition sample_properties : Properties :=
  [("name", SString "A"); ("foo", SString "bar")].

(** A converted point, polyline or polygon with numeric positions, at
    least one of them. *)
Definition numeric_path (path : value) : bool :=
  match path with
  | Arr positions => forallb numeric_position positions
  | _ => false
  end.

Definition numeric_paths (paths : value) : bool :=
  match paths with
  | Arr l =>
      forallb numeric_path l &&
      match flat_elems l with [] => false | _ :: _ => true end
  | _ => false
  end.

Definition numeric_geometry (g : ArcGISGeometry) : bool :=
  match g with
  | point (Num x) (Num y) => negb (is_nan x) && negb (is_nan y)
  | polyline paths => numeric_paths paths
  | polygon rings => numeric_paths rings
  | _ => false
  end.

(** The four members are numbers other than [NaN], and the upper ones are
    not before the lower ones. *)
Definition ordered_extent (e : value * value * value * value) : Prop :=
  let '(minX, minY, maxX, maxY) := e in
  numeric_value minX /\ numeric_value minY /\
  numeric_value maxX /\ numeric_value maxY /\
  ~ precedes (ToNumber maxX) (ToNumber minX) /\
  ~ precedes (ToNumber maxY) (ToNumber minY).

Definition box_extent (b : Bounds) : value * value * value * value :=
  (xmin b, ymin b, xmax b, ymax b).

(** ** Symbols and geometries *)

(** The symbol that fits a converted geometry: a marker for points, a line
    for polylines, a fill for polygons. *)
Definition symbol_for (g : ArcGISGeometry) : Symbol :=
  match g with
  | point _ _ | multipoint _ => simple_marker
  | polyline _ => simple_line
  | polygon _ => simple_fill
  end.

(** ** Bounding boxes *)

(** The position lies between the lower and the upper members, in the
    order [Math.min] and [Math.max] follow. *)
Definition covers (e : value * value * value * value) (p : value) : Prop :=
  let '(minX, minY, maxX, maxY) := e in
  ~ precedes (ToNumber (item p 0)) (ToNumber minX) /\
  ~ precedes (ToNumber maxX) (ToNumber (item p 0)) /\
  ~ precedes (ToNumber (item p 1)) (ToNumber minY) /\
  ~ precedes (ToNumber maxY) (ToNumber (item p 1)).

(** The four members are taken from positions of the list. *)
Definition attained (e : value * value * value * value)
  (positions : list value) : Prop :=
  let '(minX, minY, maxX, maxY) := e in
  (exists p, In p positions /\ minX = item p 0) /\
  (exists p, In p positions /\ minY = item p 1) /\
  (exists p, In p positions /\ maxX = item p 0) /\
  (exists p, In p positions /\ maxY = item p 1).

(** The extent is the bounding box of the positions. *)
Definition bounding (e : value * value * value * value)
  (positions : list value) : Prop :=
  ordered_extent e /\
  (forall p, In p positions -> covers e p) /\
  attained e positions.

(** All the positions of a list of converted geometries. *)
Definition all_positions (l : list ArcGISGeometry) : list value :=
  flat_map arcgis_positions l.

(** The box every member of which is [NaN]. *)
Definition nan_box : Bounds :=
  {| xmin := Num NaN; ymin := Num NaN; xmax := Num NaN; ymax := Num NaN;
     spatialReference := wgs84 |}.

(** ** Features and graphics *)

(** The feature has a geometry of one of the six supported types. *)
Definition supported_feature (f : Feature.t) : bool :=
  match Feature.geometry f with
  | Some g => supported (Geometry.type g)
  | None => false
  end.

(** [feature.properties || {}]. *)
Definition attributes_of (f : Feature.t) : Properties :=
  match Feature.properties f with
  | Some properties => properties
  | None => []
  end.

(** ** Numeric GeoJSON geometries *)

Definition numeric_polygon (poly : value) : bool :=
  match poly with
  | Arr rings => forallb numeric_path rings
  | _ => false
  end.

(** A Point, LineString, Polygon, MultiLineString or MultiPolygon nested as
    RFC 7946 has it, with numeric positions and at least one of them. *)
Definition numeric_geojson (g : Geometry.t) : bool :=
  let type := Geometry.type g in
  let c := Geometry.coordinates g in
  if type =? "Point" then numeric_position c
  else if type =? "LineString" then numeric_paths (Arr [c])
  else if (type =? "Polygon") || (type =? "MultiLineString") then
    numeric_paths c
  else if type =? "MultiPolygon" then
    match c with
    | Arr polys =>
        forallb numeric_polygon polys &&
        match flat_map elems (flat_map elems polys) with
        | [] => false
        | _ :: _ => true
        end
    | _ => false
    end
  else false.

Definition numeric_feature (f : Feature.t) : bool :=
  match Feature.geometry f with
  | Some g => numeric_geojson g
  | None => false
  end.

Definition sample_line_feature : Feature.t :=
  Feature.Build
    (Some (Geometry.Build "LineString" (Arr [pos (-3) 7; pos 2 (-1)])))
    None.

Definition sample_multipolygon_feature : Feature.t :=
  Feature.Build
    (Some (Geometry.Build "MultiPolygon"
             (Arr [Arr [Arr [pos 0 0; pos 4 0; pos 4 5; pos 0 0]];
                   Arr [Arr [pos 7 7; pos 8 7; pos 8 8; pos 7 7]]])))
    (Some [("name", SString "two")]).

(** * The page: layers, their registry and the messages

    The state the handlers of [app.js] read and write: the layers of the
    map, the [loadedLayers] map, the content of the layer list, the
    notification element with its pending timeouts, the file name display
    and the extents handed to [view.goTo]. *)

(** A [GraphicsLayer] object; [object] tells the objects apart. *)
Record GraphicsLayer : Type :=
  { object : nat;
    layer_title : string;
    layer_graphics : list Graphic }.

(** A value of [loadedLayers]: the object [{ layer, fileName }]. *)
Record LoadedLayer : Type :=
  { layer : GraphicsLayer; fileName : string }.

(** A [Map] with string keys, as the list of its entries in insertion
    order. *)
Definition Map (V : Type) : Type := list (string * V).

Fixpoint Map_get {V} (key : string) (m : Map V) : option V :=
  match m with
  | [] => None
  | (k, v) :: rest => if k =? key then Some v else Map_get key rest
  end.

(** [m.set(key, v)]: the value of a present key is replaced where it
    stands, a new key goes last. *)
Fixpoint Map_set {V} (key : string) (v : V) (m : Map V) : Map V :=
  match m with
  | [] => [(key, v)]
  | (k, x) :: rest =>
      if k =? key then (k, v) :: rest else (k, x) :: Map_set key v rest
  end.

Definition Map_delete {V} (key : string) (m : Map V) : Map V :=
  filter (fun entry => negb (fst entry =? key)) m.

(** A child appended to the layer list. *)
Record LayerItem : Type :=
  { item_className : string; item_innerHTML : string }.

(** The content of the layer list: the markup last assigned to
    [innerHTML], or the children appended after it was emptied. *)
Inductive LayerList : Type :=
| Markup (html : string)
| Items (items : list LayerItem).

Record Notification : Type :=
  { textContent : string; className : string }.

Record Page : Type :=
  { mapLayers : list GraphicsLayer;
    loadedLayers : Map LoadedLayer;
    layerListEl : LayerList;
    notification : Notification;
    timeouts : nat;
    fileNameDisplay : string;
    goToCalls : list Extent;
    nextObject : nat }.

(** The double quote and the line feed. *)
Definition dquote : string := String "034"%char EmptyString.
Definition newline : string := String "010"%char EmptyString.

(** ** Class lists *)

Definition is_space (c : ascii) : bool :=
  Ascii.eqb c "009"%char || Ascii.eqb c "010"%char ||
  Ascii.eqb c "012"%char || Ascii.eqb c "013"%char ||
  Ascii.eqb c " "%char.

(** The tokens of a class attribute: split on ASCII whitespace. *)
Fixpoint tokens_from (current : string) (s : string) : list string :=
  match s with
  | EmptyString =>
      match current with EmptyString => [] | _ => [current] end
  | String c rest =>
      if is_space c then
        match current with
        | EmptyString => tokens_from EmptyString rest
        | _ => current :: tokens_from EmptyString rest
        end
      else tokens_from (current ++ String c EmptyString) rest
  end.

(** The token set: each token once, at its first place. *)
Fixpoint ordered_set (seen : list string) (l : list string) : list string :=
  match l with
  | [] => []
  | t :: rest =>
      if existsb (String.eqb t) seen then ordered_set seen rest
      else t :: ordered_set (t :: seen) rest
  end.

Definition classList (className : string) : list string :=
  ordered_set [] (tokens_from EmptyString className).

(** [element.classList.remove(token)]: the attribute becomes the remaining
    tokens joined with one space. *)
Definition classList_remove (token : string) (className : string) : string :=
  String.concat " "
    (filter (fun t => negb (t =? token)) (classList className)).

Section Page.

Variable NumberToString : number -> string.

(** The message of a [TypeError], which is the engine's. *)
Variable TypeErrorMessage : string.

(** ** Notifications *)

Definition showNotification (message type : string) (st : Page) : Page :=
  {| mapLayers := mapLayers st;
     loadedLayers := loadedLayers st;
     layerListEl := layerListEl st;
     notification :=
       {| textContent := message;
          className := "notification " ++ type ++ " show" |};
     timeouts := S (timeouts st);
     fileNameDisplay := fileNameDisplay st;
     goToCalls := goToCalls st;
     nextObject := nextObject st |}.

(** A timeout set by [showNotification] runs. *)
Definition timeoutFires (st : Page) : Page :=
  match timeouts st with
  | O => st
  | S n =>
      {| mapLayers := mapLayers st;
         loadedLayers := loadedLayers st;
         layerListEl := layerListEl st;
         notification :=
           {| textContent := textContent (notification st);
              className :=
                classList_remove "show" (className (notification st)) |};
         timeouts := n;
         fileNameDisplay := fileNameDisplay st;
         goToCalls := goToCalls st;
         nextObject := nextObject st |}
  end.

(** ** The layer list *)

Definition no_layers_markup : string :=
  "<p style=" ++ dquote ++ "font-size: 0.8rem; color: #999;" ++ dquote ++
  ">No layers loaded</p>".

Definition layerItem (entry : string * LoadedLayer) : LayerItem :=
  let '(layerId, data) := entry in
  {| item_className := "layer-item";
     item_innerHTML :=
       newline ++ "      <span>" ++ fileName data ++ "</span>" ++
       newline ++ "      <button onclick=" ++ dquote ++
       "window.removeLayer('" ++ layerId ++ "')" ++ dquote ++
       ">Remove</button>" ++ newline ++ "    " |}.

Definition renderLayerList (m : Map LoadedLayer) : LayerList :=
  match m with
  | [] => Markup no_layers_markup
  | _ :: _ => Items (map layerItem m)
  end.

Definition updateLayerList (st : Page) : Page :=
  {| mapLayers := mapLayers st;
     loadedLayers := loadedLayers st;
     layerListEl := renderLayerList (loadedLayers st);
     notification := notification st;
     timeouts := timeouts st;
     fileNameDisplay := fileNameDisplay st;
     goToCalls := goToCalls st;
     nextObject := nextObject st |}.

(** ** Removing a layer *)

(** [view.map.remove(layer)]: the layer object leaves the map. *)
Fixpoint map_remove (l : GraphicsLayer) (layers : list GraphicsLayer)
  : list GraphicsLayer :=
  match layers with
  | [] => []
  | x :: rest =>
      if Nat.eqb (object x) (object l) then rest
      else x :: map_remove l rest
  end.

Definition removeLayer (layerId : string) (st : Page) : Page :=
  match Map_get layerId (loadedLayers st) with
  | Some data =>
      let st1 :=
        {| mapLayers := map_remove (layer data) (mapLayers st);
           loadedLayers := Map_delete layerId (loadedLayers st);
           layerListEl := layerListEl st;
           notification := notification st;
           timeouts := timeouts st;
           fileNameDisplay := fileNameDisplay st;
           goToCalls := goToCalls st;
           nextObject := nextObject st |} in
      showNotification ("Removed " ++ fileName data) "success"
        (updateLayerList st1)
  | None => st
  end.

(** ** Loading onto the page *)

(** [loadGeoJSON] with what it does to the page: the new layer gets the
    graphics and joins the map, it is registered under an identifier made
    from the clock, the list is redrawn and the view is sent to the
    expanded box if there is one.  An exception leaves the loop before any
    of this. *)
Definition loadGeoJSONOnPage (geojsonData : Document.t) (name : string)
  (now : number) (st : Page) : result Page :=
  r <- loadGeoJSON NumberToString geojsonData ;;
  let newLayer :=
    {| object := nextObject st;
       layer_title := name;
       layer_graphics := graphics r |} in
  let layerId := "layer-" ++ NumberToString now in
  let st1 :=
    {| mapLayers := (mapLayers st ++ [newLayer])%list;
       loadedLayers :=
         Map_set layerId {| layer := newLayer; fileName := name |}
                 (loadedLayers st);
       layerListEl := layerListEl st;
       notification := notification st;
       timeouts := timeouts st;
       fileNameDisplay := fileNameDisplay st;
       goToCalls :=
         match goTo r with
         | Some extent => (goToCalls st ++ [extent])%list
         | None => goToCalls st
         end;
       nextObject := S (nextObject st) |} in
  Ok (updateLayerList st1).

(** ** Uploading a file *)

(** What reading and parsing the file gives: an exception with its
    message, or the parsed document. *)
Inductive FileContent : Type :=
| Unreadable (message : string)
| Parsed (geojsonData : Document.t).

Definition withFileNameDisplay (text : string) (st : Page) : Page :=
  {| mapLayers := mapLayers st;
     loadedLayers := loadedLayers st;
     layerListEl := layerListEl st;
     notification := notification st;
     timeouts := timeouts st;
     fileNameDisplay := text;
     goToCalls := goToCalls st;
     nextObject := nextObject st |}.

(** The handler up to its first [await]. *)
Definition handleGeoJSONUpload_selected (file : option string) (st : Page)
  : Page :=
  match file with
  | None => st
  | Some name => withFileNameDisplay ("Selected: " ++ name) st
  end.

Definition uploadFailed (message : string) (st : Page) : Page :=
  withFileNameDisplay ""
    (showNotification ("Error loading file: " ++ message) "error" st).

(** The handler once the text of the file is there: the [try] block up to
    the call of [loadGeoJSON], and the [catch] block for what it throws
    (the body of [loadGeoJSON] has no [await]: it runs in one piece, and a
    rejection reaches the [catch] block before any other handler runs). *)
Definition handleGeoJSONUpload_read (name : string) (content : FileContent)
  (now : number) (st : Page) : Page :=
  match content with
  | Unreadable message => uploadFailed message st
  | Parsed geojsonData =>
      match loadGeoJSONOnPage geojsonData name now st with
      | Ok st' => st'
      | Throw TypeError => uploadFailed TypeErrorMessage st
      end
  end.

(** The handler after [await loadGeoJSON(...)]. *)
Definition handleGeoJSONUpload_loaded (name : string) (st : Page) : Page :=
  showNotification ("Successfully loaded " ++ name) "success" st.

(** ** Events *)

Inductive event : Type :=
| FileSelected (file : option string)
| FileRead (name : string) (content : FileContent) (now : number)
| FileLoaded (name : string)
| RemoveClicked (layerId : string)
| TimeoutFired.

Definition step (st : Page) (e : event) : Page :=
  match e with
  | FileSelected file => handleGeoJSONUpload_selected file st
  | FileRead name content now => handleGeoJSONUpload_read name content now st
  | FileLoaded name => handleGeoJSONUpload_loaded name st
  | RemoveClicked layerId => removeLayer layerId st
  | TimeoutFired => timeoutFires st
  end.

Definition run (events : list event) (st : Page) : Page :=
  fold_left step events st.

End Page.

(** ** Well-formed pages *)

(** The layer objects of the map are distinct and older than the next
    object; the registered layers are distinct objects on the map, under
    distinct keys. *)
Definition well_formed (st : Page) : Prop :=
  NoDup (map object (mapLayers st)) /\
  Forall (fun l => (object l < nextObject st)%nat) (mapLayers st) /\
  NoDup (map fst (loadedLayers st)) /\
  NoDup (map (fun entry => object (layer (snd entry))) (loadedLayers st)) /\
  Forall (fun entry => In (layer (snd entry)) (mapLayers st))
         (loadedLayers st).

(** The layer list shows the registry as [updateLayerList] draws it. *)
Definition list_in_sync (st : Page) : Prop :=
  layerListEl st = renderLayerList (loadedLayers st).

(** A layer that is on the map and that no entry of the registry holds. *)
Definition orphan (l : GraphicsLayer) (st : Page) : Prop :=
  In l (mapLayers st) /\
  (object l < nextObject st)%nat /\
  Forall (fun entry => object (layer (snd entry)) <> object l)
         (loadedLayers st).

(** A page without layers, for the examples. *)
Definition sample_page : Page :=
  {| mapLayers := [];
     loadedLayers := [];
     layerListEl := Markup no_layers_markup;
     notification := {| textContent := EmptyString;
                        className := "notification" |};
     timeouts := 0;
     fileNameDisplay := EmptyString;
     goToCalls := [];
     nextObject := 0 |}.

Definition sample_document : Document.t :=
  Document.Build "FeatureCollection"
    (Some [sample_point_feature; sample_polygon_feature]) None None.

(** * The map element: basemap and location *)

(** The properties of the map element the two select handlers write. *)
Record MapElement : Type :=
  { basemap : string; center : string; zoom : number }.

(** [s.split(',')]: the pieces between the commas, the empty ones too. *)
Fixpoint split_from (current : string) (s : string) : list string :=
  match s with
  | EmptyString => [current]
  | String c rest =>
      if Ascii.eqb c ","%char then current :: split_from EmptyString rest
      else split_from (current ++ String c EmptyString) rest
  end.

Definition split_comma (s : string) : list string :=
  split_from EmptyString s.

(** A piece of the destructured array as a template or [parseInt] reads
    it: a missing piece is [undefined]. *)
Definition piece (parts : list string) (i : nat) : string :=
  match nth_error parts i with
  | Some s => s
  | None => "undefined"
  end.

Definition handleBasemapChange (value : string) (mapEl : MapElement)
  : MapElement :=
  {| basemap := value; center := center mapEl; zoom := zoom mapEl |}.

Section Location.

(** [parseInt] on strings is the engine's. *)
Variable parseInt : string -> number.

Definition handleLocationChange (value : string) (mapEl : MapElement)
  : MapElement :=
  if value =? "" then mapEl
  else
    let parts := split_comma value in
    {| basemap := basemap mapEl;
       center := piece parts 0 ++ ", " ++ piece parts 1;
       zoom := parseInt (piece parts 2) |}.

End Location.

(** No comma occurs in the string. *)
Fixpoint no_comma (s : string) : bool :=
  match s with
  | EmptyString => true
  | String c rest => negb (Ascii.eqb c ","%char) && no_comma rest
  end.

(** * Properties *)

(** ** The order [Math.min] and [Math.max] follow *)

Ltac number_cases x :=
  let s := fresh "s" in
  let m := fresh "m" in
  let e := fresh "e" in
  destruct x as [s | s | | s m e]; try destruct s.

Lemma precedes_irrefl (x : number) : ~ precedes x x.
Proof. number_cases x; unfold precedes; cbn; lia. Qed.

Lemma precedes_trans (x y z : number) :
  precedes x y -> precedes y z -> precedes x z.
Proof.
  number_cases x; number_cases y; number_cases z;
    unfold precedes; cbn; lia.
Qed.

Lemma precedes_total (x y : number) :
  is_nan x = false -> is_nan y = false ->
  precedes x y \/ x = y \/ precedes y x.
Proof.
  number_cases x; number_cases y; intros Hx Hy; try discriminate;
    unfold precedes; cbn;
    try (left; lia); try (right; right; lia); try (right; left; reflexivity).
  - destruct (Z.lt_total e e0) as [H | [H | H]];
      [right; right; lia | | left; lia].
    destruct (Pos.lt_total m m0) as [H' | [H' | H']];
      [right; right; lia | | left; lia].
    right; left; congruence.
  - destruct (Z.lt_total e e0) as [H | [H | H]];
      [left; lia | | right; right; lia].
    destruct (Pos.lt_total m m0) as [H' | [H' | H']];
      [left; lia | | right; right; lia].
    right; left; congruence.
Qed.

Lemma precedes_asym (x y : number) : precedes x y -> ~ precedes y x.
Proof.
  intros H H'. apply (precedes_irrefl x). exact (precedes_trans x y x H H').
Qed.

Ltac compare_cases :=
  repeat match goal with
  | |- context [Z.compare ?a ?b] => destruct (Z.compare_spec a b)
  | |- context [Pos.compare_cont Eq ?a ?b] =>
      change (Pos.compare_cont Eq a b) with (Pos.compare a b);
      destruct (Pos.compare_spec a b)
  end.

Lemma min_step_spec (lowest n : number) :
  is_nan lowest = false -> is_nan n = false ->
  (precedes n lowest /\ min_step lowest n = n) \/
  (~ precedes n lowest /\ min_step lowest n = lowest).
Proof.
  number_cases lowest; number_cases n; intros Hl Hn; try discriminate;
    unfold min_step, precedes, ltb, SFltb; cbn; compare_cases; cbn;
    solve [left; split; [lia | reflexivity]
          | right; split; [lia | reflexivity]].
Qed.

Lemma max_step_spec (highest n : number) :
  is_nan highest = false -> is_nan n = false ->
  (precedes highest n /\ max_step highest n = n) \/
  (~ precedes highest n /\ max_step highest n = highest).
Proof.
  number_cases highest; number_cases n; intros Hl Hn; try discriminate;
    unfold max_step, precedes, ltb, SFltb; cbn; compare_cases; cbn;
    solve [left; split; [lia | reflexivity]
          | right; split; [lia | reflexivity]].
Qed.

Lemma leb_of_not_precedes (x y : number) :
  is_nan x = false -> is_nan y = false ->
  ~ precedes y x -> leb x y = true.
Proof.
  number_cases x; number_cases y; intros Hx Hy H; try discriminate;
    unfold precedes, leb, SFleb in *; cbn in *; compare_cases; cbn;
    solve [reflexivity | exfalso; apply H; lia].
Qed.

(** ** Extrema of a list of numbers

    [Math.min] and [Math.max] are the same loop over two mirrored orders;
    their properties are proved once, for a strict order [R] that is total
    on the numbers other than [NaN], a step that keeps the [R]-smaller of
    two numbers and the loop [from] built on it. *)

Section Extremum.

Variable R : number -> number -> Prop.
Hypothesis R_irrefl : forall x, ~ R x x.
Hypothesis R_trans : forall x y z, R x y -> R y z -> R x z.
Hypothesis R_total :
  forall x y, numeric x -> numeric y -> R x y \/ x = y \/ R y x.

Variable step : number -> number -> number.
Hypothesis step_spec :
  forall acc n, numeric acc -> numeric n ->
    (R n acc /\ step acc n = n) \/ (~ R n acc /\ step acc n = acc).

Variable from : number -> list number -> number.
Hypothesis from_nil : forall acc, from acc [] = acc.
Hypothesis from_cons :
  forall acc n rest,
    from acc (n :: rest) = if is_nan n then NaN else from (step acc n) rest.

Lemma not_R_trans (x y z : number) :
  numeric y -> numeric z -> ~ R x y -> ~ R y z -> ~ R x z.
Proof.
  intros Hy Hz Hxy Hyz Hxz.
  destruct (R_total y z Hy Hz) as [H | [H | H]].
  - exact (Hyz H).
  - subst z. exact (Hxy Hxz).
  - exact (Hxy (R_trans _ _ _ Hxz H)).
Qed.

Lemma extremum_unique (l : list number) (r r' : number) :
  Forall numeric l -> extremum R r l -> extremum R r' l -> r = r'.
Proof.
  intros Hl [Hin Hr] [Hin' Hr'].
  rewrite Forall_forall in Hl.
  destruct (R_total r r' (Hl _ Hin) (Hl _ Hin')) as [H | [H | H]].
  - exfalso. exact (Hr' _ Hin H).
  - exact H.
  - exfalso. exact (Hr _ Hin' H).
Qed.

Lemma extremum_incl (l l' : list number) (r : number) :
  incl l l' -> incl l' l -> extremum R r l -> extremum R r l'.
Proof.
  intros H H' [Hin Hr]. split.
  - apply H, Hin.
  - intros x Hx. apply Hr, H', Hx.
Qed.

Lemma step_numeric (acc n : number) :
  numeric acc -> numeric n -> numeric (step acc n).
Proof.
  intros Ha Hn.
  destruct (step_spec acc n Ha Hn) as [[_ E] | [_ E]]; rewrite E; assumption.
Qed.

Lemma from_extremum (l : list number) :
  forall acc, numeric acc -> Forall numeric l ->
    extremum R (from acc l) (acc :: l).
Proof.
  induction l as [| n rest IH]; intros acc Ha Hl.
  - rewrite from_nil. split.
    + left; reflexivity.
    + intros x [<- | []]. apply R_irrefl.
  - inversion Hl as [| ? ? Hn Hrest]; subst.
    rewrite from_cons. unfold numeric in Hn. rewrite Hn.
    pose proof (step_numeric acc n Ha Hn) as Hs.
    destruct (IH (step acc n) Hs Hrest) as [Hin Hr].
    assert (Hnum : numeric (from (step acc n) rest)).
    { destruct Hin as [<- | Hin]; [exact Hs |].
      rewrite Forall_forall in Hrest. exact (Hrest _ Hin). }
    assert (Hstep : ~ R acc (step acc n) /\ ~ R n (step acc n)).
    { destruct (step_spec acc n Ha Hn) as [[HR E] | [HR E]]; rewrite E.
      - split; [| apply R_irrefl].
        intros H. exact (R_irrefl _ (R_trans _ _ _ H HR)).
      - split; [apply R_irrefl | exact HR]. }
    split.
    + destruct Hin as [E | Hin].
      * rewrite <- E.
        destruct (step_spec acc n Ha Hn) as [[_ E'] | [_ E']]; rewrite E';
          [right; left | left]; reflexivity.
      * right; right; exact Hin.
    + intros x [<- | [<- | Hx]].
      * apply (not_R_trans _ (step acc n)); try assumption.
        -- exact (proj1 Hstep).
        -- exact (Hr _ (or_introl eq_refl)).
      * apply (not_R_trans _ (step acc n)); try assumption.
        -- exact (proj2 Hstep).
        -- exact (Hr _ (or_introl eq_refl)).
      * apply Hr. right; exact Hx.
Qed.

Lemma from_numeric (l : list number) (acc : number) :
  numeric acc -> Forall numeric l -> numeric (from acc l).
Proof.
  intros Ha Hl.
  destruct (from_extremum l acc Ha Hl) as [[<- | Hin] _]; [exact Ha |].
  rewrite Forall_forall in Hl. exact (Hl _ Hin).
Qed.

(** The binary operation [from top [a; b]], as [updateBounds] calls it. *)
Variable top : number.
Hypothesis top_numeric : numeric top.

Lemma from_pair_nan_l (a b : number) : is_nan a = true -> from top [a; b] = NaN.
Proof. intros H. rewrite from_cons, H. reflexivity. Qed.

Lemma from_pair_nan_r (a b : number) : is_nan b = true -> from top [a; b] = NaN.
Proof.
  intros H. rewrite from_cons. destruct (is_nan a); [reflexivity |].
  rewrite from_cons, H. reflexivity.
Qed.

Lemma from_pair_comm (a b : number) : from top [a; b] = from top [b; a].
Proof.
  destruct (is_nan a) eqn:Ha.
  { rewrite (from_pair_nan_l a b Ha), (from_pair_nan_r b a Ha). reflexivity. }
  destruct (is_nan b) eqn:Hb.
  { rewrite (from_pair_nan_r a b Hb), (from_pair_nan_l b a Hb). reflexivity. }
  apply (extremum_unique [top; a; b]).
  - repeat constructor; assumption.
  - apply from_extremum; [assumption | repeat constructor; assumption].
  - apply (extremum_incl [top; b; a]).
    + intros x [<- | [<- | [<- | []]]]; cbn; auto.
    + intros x [<- | [<- | [<- | []]]]; cbn; auto.
    + apply from_extremum; [assumption | repeat constructor; assumption].
Qed.

Lemma from_pair_extremum3 (a b c : number) :
  numeric a -> numeric b -> numeric c ->
  extremum R (from top [from top [a; b]; c]) [top; a; b; c].
Proof.
  intros Ha Hb Hc.
  assert (Hab : Forall numeric [a; b]) by (repeat constructor; assumption).
  pose proof (from_numeric [a; b] top top_numeric Hab) as Hn.
  destruct (from_extremum [a; b] top top_numeric Hab) as [Hin Hr].
  assert (Hl : Forall numeric [from top [a; b]; c])
    by (repeat constructor; assumption).
  pose proof (from_numeric _ top top_numeric Hl) as Hn'.
  destruct (from_extremum _ top top_numeric Hl) as [Hin' Hr'].
  split.
  - destruct Hin' as [E | [E | [E | []]]]; rewrite <- E.
    + left; reflexivity.
    + destruct Hin as [E' | [E' | [E' | []]]]; rewrite <- E'; cbn; auto.
    + cbn; auto.
  - intros x Hx.
    assert (Hx' : In x [top; a; b] \/ x = c).
    { destruct Hx as [<- | [<- | [<- | [<- | []]]]]; cbn; auto. }
    destruct Hx' as [Hx' | ->].
    + apply (not_R_trans _ (from top [a; b])); try assumption.
      * apply Hr, Hx'.
      * apply Hr'. right; left; reflexivity.
    + apply Hr'. right; right; left; reflexivity.
Qed.

Lemma from_pair_right_comm (a b c : number) :
  from top [from top [a; b]; c] = from top [from top [a; c]; b].
Proof.
  destruct (is_nan a) eqn:Ha.
  { rewrite (from_pair_nan_l a b Ha), (from_pair_nan_l a c Ha).
    rewrite !from_pair_nan_l; reflexivity. }
  destruct (is_nan b) eqn:Hb.
  { rewrite (from_pair_nan_r a b Hb), (from_pair_nan_r _ b Hb).
    rewrite from_pair_nan_l; reflexivity. }
  destruct (is_nan c) eqn:Hc.
  { rewrite (from_pair_nan_r a c Hc), (from_pair_nan_r _ c Hc).
    rewrite from_pair_nan_l; reflexivity. }
  apply (extremum_unique [top; a; b; c]).
  - repeat constructor; assumption.
  - apply from_pair_extremum3; assumption.
  - apply (extremum_incl [top; a; c; b]).
    + intros x [<- | [<- | [<- | [<- | []]]]]; cbn; auto.
    + intros x [<- | [<- | [<- | [<- | []]]]]; cbn; auto.
    + apply from_pair_extremum3; assumption.
Qed.

End Extremum.

(** ** [Math.min] and [Math.max] of two arguments *)

Lemma follows_total (x y : number) :
  numeric x -> numeric y -> follows x y \/ x = y \/ follows y x.
Proof.
  intros Hx Hy. unfold follows.
  destruct (precedes_total x y Hx Hy) as [H | [H | H]]; auto.
Qed.

Lemma Math_min_pair_comm (u v : value) : Math_min [u; v] = Math_min [v; u].
Proof.
  unfold Math_min; cbn [map].
  apply (from_pair_comm precedes) with (step := min_step);
    try reflexivity.
  - apply precedes_irrefl.
  - apply precedes_trans.
  - apply precedes_total.
  - apply min_step_spec.
Qed.

Lemma Math_min_pair_right_comm (u v w : value) :
  Math_min [Num (Math_min [u; v]); w] = Math_min [Num (Math_min [u; w]); v].
Proof.
  unfold Math_min; cbn [map ToNumber].
  apply (from_pair_right_comm precedes) with (step := min_step);
    try reflexivity.
  - apply precedes_irrefl.
  - apply precedes_trans.
  - apply precedes_total.
  - apply min_step_spec.
Qed.

Lemma Math_max_pair_comm (u v : value) : Math_max [u; v] = Math_max [v; u].
Proof.
  unfold Math_max; cbn [map].
  apply (from_pair_comm follows) with (step := max_step);
    try reflexivity.
  - intros x. apply precedes_irrefl.
  - intros x y z H H'. exact (precedes_trans z y x H' H).
  - apply follows_total.
  - apply max_step_spec.
Qed.

Lemma Math_max_pair_right_comm (u v w : value) :
  Math_max [Num (Math_max [u; v]); w] = Math_max [Num (Math_max [u; w]); v].
Proof.
  unfold Math_max; cbn [map ToNumber].
  apply (from_pair_right_comm follows) with (step := max_step);
    try reflexivity.
  - intros x. apply precedes_irrefl.
  - intros x y z H H'. exact (precedes_trans z y x H' H).
  - apply follows_total.
  - apply max_step_spec.
Qed.

(** ** Folding [updateBounds] *)

Lemma updateBounds_merge (bounds : option Bounds) (g : ArcGISGeometry) :
  updateBounds bounds (Some g) =
  e <- geometry_extent g ;; Ok (Some (mergeBounds bounds e)).
Proof.
  unfold updateBounds. destruct (geometry_extent g) as [[[[a b] c] d] |];
    cbn; [destruct bounds |]; reflexivity.
Qed.

Lemma mergeBounds_swap (start : option Bounds)
  (e1 e2 : value * value * value * value) :
  mergeBounds (Some (mergeBounds start e1)) e2 =
  mergeBounds (Some (mergeBounds start e2)) e1.
Proof.
  destruct e1 as [[[a1 b1] c1] d1], e2 as [[[a2 b2] c2] d2].
  destruct start as [b |]; unfold mergeBounds;
    cbn [xmin ymin xmax ymax spatialReference].
  - rewrite (Math_min_pair_right_comm (xmin b) a1 a2).
    rewrite (Math_min_pair_right_comm (ymin b) b1 b2).
    rewrite (Math_max_pair_right_comm (xmax b) c1 c2).
    rewrite (Math_max_pair_right_comm (ymax b) d1 d2).
    reflexivity.
  - rewrite (Math_min_pair_comm a1 a2), (Math_min_pair_comm b1 b2).
    rewrite (Math_max_pair_comm c1 c2), (Math_max_pair_comm d1 d2).
    reflexivity.
Qed.

Lemma updateBounds_swap (start : option Bounds) (g1 g2 : ArcGISGeometry) :
  (b <- updateBounds start (Some g1) ;; updateBounds b (Some g2)) =
  (b <- updateBounds start (Some g2) ;; updateBounds b (Some g1)).
Proof.
  rewrite (updateBounds_merge start g1), (updateBounds_merge start g2).
  destruct (geometry_extent g1) as [e1 | []] eqn:E1,
           (geometry_extent g2) as [e2 | []] eqn:E2; cbn [bind];
    rewrite ?updateBounds_merge, ?E1, ?E2; cbn [bind]; try reflexivity.
  rewrite mergeBounds_swap. reflexivity.
Qed.

Lemma bind_ext {A B} (r : result A) (k k' : A -> result B) :
  (forall a, k a = k' a) -> bind r k = bind r k'.
Proof. intros H. destruct r; cbn; auto. Qed.

Lemma bind_assoc {A B C} (r : result A) (k : A -> result B)
  (k' : B -> result C) :
  bind (bind r k) k' = bind r (fun a => bind (k a) k').
Proof. destruct r; reflexivity. Qed.

Lemma foldBounds_permutation_from (l l' : list ArcGISGeometry) :
  Permutation l l' -> forall start, foldBounds l start = foldBounds l' start.
Proof.
  unfold foldBounds.
  induction 1 as [| x l l' _ IH | x y l | l l' l'' _ IH _ IH']; intros start.
  - reflexivity.
  - cbn [forEach]. apply bind_ext. exact IH.
  - cbn [forEach].
    set (rest := forEach _ l).
    transitivity
      (bind (b <- updateBounds start (Some y) ;; updateBounds b (Some x))
            rest).
    { rewrite bind_assoc. reflexivity. }
    rewrite (updateBounds_swap start y x), bind_assoc. reflexivity.
  - rewrite IH. apply IH'.
Qed.

(** ** Order of accumulation *)

(** C8: folding [updateBounds] from no box over the same geometries in any
    order gives the same result: the same box, member for member (or the
    same exception when a geometry makes [updateBounds] throw). *)
Theorem foldBounds_order_independent (l l' : list ArcGISGeometry) :
  Permutation l l' -> foldBounds l None = foldBounds l' None.
Proof.
  intros H. apply foldBounds_permutation_from, H.
Qed.

Lemma foldBounds_order_independent_witness :
  Permutation [sample_point; sample_polygon; sample_polyline]
              [sample_polyline; sample_point; sample_polygon] /\
  foldBounds [sample_point; sample_polygon; sample_polyline] None =
  foldBounds [sample_polyline; sample_point; sample_polygon] None.
Proof.
  assert (P : Permutation [sample_point; sample_polygon; sample_polyline]
                          [sample_polyline; sample_point; sample_polygon]).
  { apply Permutation_sym.
    apply (Permutation_cons_app [sample_point; sample_polygon] []
                                sample_polyline).
    apply Permutation_refl. }
  split; [exact P | exact (foldBounds_order_independent _ _ P)].
Defined.

(** ** Geometry conversion *)

Lemma supported_cases (type : string) :
  supported type = true ->
  type = "Point" \/ type = "LineString" \/ type = "Polygon" \/
  type = "MultiPoint" \/ type = "MultiLineString" \/ type = "MultiPolygon".
Proof.
  unfold supported, supported_types. cbn [existsb].
  rewrite !orb_true_iff, !String.eqb_eq. intuition discriminate.
Qed.

Lemma flat_map_elems_flat_elems (l : list value) :
  flat_map elems (flat_elems l) = flat_map elems (flat_map elems l).
Proof.
  unfold flat_elems.
  induction l as [| e l IH]; [reflexivity |].
  cbn [flat_map]. rewrite !flat_map_app, IH.
  destruct e; reflexivity.
Qed.

(** C1: a geometry of a supported type whose [coordinates] is an array is
    converted, and the converted geometry holds the same positions in the
    same order: as many of them, with the same longitude and latitude each;
    for every type but Point the position arrays themselves are kept. *)
Theorem convertGeoJSONGeometry_preserves_positions (g : Geometry.t) :
  supported (Geometry.type g) = true ->
  is_array (Geometry.coordinates g) = true ->
  exists g',
    convertGeoJSONGeometry g = Ok (Some g') /\
    List.length (arcgis_positions g') = List.length (geojson_positions g) /\
    map lonlat (arcgis_positions g') = map lonlat (geojson_positions g) /\
    (Geometry.type g <> "Point" ->
     arcgis_positions g' = geojson_positions g).
Proof.
  destruct g as [type c]. cbn [Geometry.type Geometry.coordinates].
  intros Hs Hc. destruct c as [| n | l]; try discriminate.
  assert (positions :
    forall g',
      arcgis_positions g' = geojson_positions (Geometry.Build type (Arr l)) ->
      List.length (arcgis_positions g') =
        List.length (geojson_positions (Geometry.Build type (Arr l))) /\
      map lonlat (arcgis_positions g') =
        map lonlat (geojson_positions (Geometry.Build type (Arr l))) /\
      (type <> "Point" ->
       arcgis_positions g' = geojson_positions (Geometry.Build type (Arr l)))).
  { intros g' E. rewrite E. auto. }
  destruct (supported_cases type Hs) as [-> | [-> | [-> | [-> | [-> | ->]]]]].
  - eexists. split; [reflexivity |]. cbn.
    repeat split. intros H. congruence.
  - eexists. split; [reflexivity |]. apply positions.
    cbn. apply app_nil_r.
  - eexists. split; [reflexivity |]. apply positions. reflexivity.
  - eexists. split; [reflexivity |]. apply positions. reflexivity.
  - eexists. split; [reflexivity |]. apply positions. reflexivity.
  - eexists. split; [reflexivity |]. apply positions.
    cbn. apply flat_map_elems_flat_elems.
Qed.

Lemma convertGeoJSONGeometry_preserves_positions_witness :
  exists g',
    convertGeoJSONGeometry
      (Geometry.Build "MultiPolygon"
         (Arr [Arr [Arr [pos 0 0; pos 4 0; pos 4 5; pos 0 0]];
               Arr [Arr [pos 7 7; pos 8 7; pos 8 8; pos 7 7];
                    Arr [pos 1 1; pos 2 1; pos 2 2; pos 1 1]]]))
    = Ok (Some g') /\
    List.length (arcgis_positions g') = 12%nat.
Proof.
  destruct (convertGeoJSONGeometry_preserves_positions
              (Geometry.Build "MultiPolygon"
                 (Arr [Arr [Arr [pos 0 0; pos 4 0; pos 4 5; pos 0 0]];
                       Arr [Arr [pos 7 7; pos 8 7; pos 8 8; pos 7 7];
                            Arr [pos 1 1; pos 2 1; pos 2 2; pos 1 1]]]))
              eq_refl eq_refl) as [g' [E [L _]]].
  exists g'. split; [exact E | exact L].
Defined.

(** C7: the rings of a converted MultiPolygon are the rings of its
    polygons, concatenated in order. *)
Theorem convertGeoJSONGeometry_MultiPolygon (polygons : list (list value)) :
  convertGeoJSONGeometry
    (Geometry.Build "MultiPolygon" (Arr (map Arr polygons)))
  = Ok (Some (polygon (Arr (List.concat polygons)))).
Proof.
  cbn. unfold flat_elems. rewrite flat_map_concat_map, map_map.
  cbn. rewrite map_id. reflexivity.
Qed.

(** ** Loading a document *)

Section Loading.

Variable NumberToString : number -> string.

Lemma forEach_app {A S} (f : S -> A -> result S) (l l' : list A) (s : S) :
  forEach f (l ++ l') s = bind (forEach f l s) (forEach f l').
Proof.
  revert s. induction l as [| x l IH]; intros s; [reflexivity |].
  cbn [forEach app]. rewrite bind_assoc. apply bind_ext. exact IH.
Qed.

Lemma forEach_addFeature (features : list Feature.t) :
  forall (graphics0 : list Graphic) (bounds0 : option Bounds),
    forEach (addFeature NumberToString) features (graphics0, bounds0) =
    gs <- mapM (createGraphicFromGeoJSON NumberToString) features ;;
    b <- foldBounds (map geometry (somes gs)) bounds0 ;;
    Ok ((graphics0 ++ somes gs)%list, b).
Proof.
  induction features as [| f fs IH]; intros graphics0 bounds0.
  - cbn. rewrite app_nil_r. reflexivity.
  - cbn [forEach mapM]. unfold addFeature at 1.
    destruct (createGraphicFromGeoJSON NumberToString f)
      as [[g |] | []]; cbn [bind].
    + destruct (updateBounds bounds0 (Some (geometry g)))
        as [b' | []] eqn:E; cbn [bind].
      * rewrite IH, bind_assoc. apply bind_ext. intros gs.
        cbn [bind somes flat_map app map]. fold (somes gs).
        unfold foldBounds at 2. cbn [forEach]. rewrite E. cbn [bind].
        fold (foldBounds (map geometry (somes gs)) b').
        apply bind_ext. intros b. rewrite <- app_assoc. reflexivity.
      * destruct (mapM (createGraphicFromGeoJSON NumberToString) fs)
          as [gs | []]; cbn [bind]; [| reflexivity].
        cbn [somes flat_map app map]. unfold foldBounds. cbn [forEach].
        rewrite E. reflexivity.
    + rewrite IH, bind_assoc. reflexivity.
    + reflexivity.
Qed.

Lemma loadGeoJSON_FeatureCollection (features : list Feature.t)
  (g : option Geometry.t) (p : option Properties) :
  loadGeoJSON NumberToString
    (Document.Build "FeatureCollection" (Some features) g p) =
  importFeatures NumberToString features.
Proof.
  unfold loadGeoJSON, importFeatures.
  cbn [Document.type Document.features String.eqb Ascii.eqb Bool.eqb].
  rewrite forEach_addFeature, !bind_assoc. apply bind_ext. intros gs.
  rewrite bind_assoc. apply bind_ext. intros b. reflexivity.
Qed.

End Loading.

(** C9: [loadGeoJSON] dispatches on the top-level [type]: for
    "FeatureCollection" every element of [features] is processed, for
    "Feature" the document itself is processed as the only feature, and for
    any other type no graphic is produced and no box is computed. *)
Theorem loadGeoJSON_dispatch (NumberToString : number -> string)
  (d : Document.t) :
  (Document.type d = "FeatureCollection" ->
   forall features, Document.features d = Some features ->
     loadGeoJSON NumberToString d = importFeatures NumberToString features) /\
  (Document.type d = "Feature" ->
   loadGeoJSON NumberToString d =
   importFeatures NumberToString [Document.as_feature d]) /\
  (Document.type d <> "FeatureCollection" ->
   Document.type d <> "Feature" ->
   loadGeoJSON NumberToString d =
   Ok {| graphics := []; bounds := None; goTo := None |}).
Proof.
  destruct d as [type fs g p]. cbn [Document.type Document.features].
  repeat split.
  - intros -> features ->. apply loadGeoJSON_FeatureCollection.
  - intros ->.
    rewrite <- (loadGeoJSON_FeatureCollection NumberToString
                  [Document.as_feature (Document.Build "Feature" fs g p)]
                  g p).
    unfold loadGeoJSON.
    cbn [Document.type Document.features String.eqb Ascii.eqb Bool.eqb
         forEach].
    rewrite !bind_assoc. apply bind_ext. intros [gs b]. reflexivity.
  - intros H1 H2. unfold loadGeoJSON. cbn [Document.type].
    apply String.eqb_neq in H1, H2. rewrite H1, H2. reflexivity.
Qed.

Lemma loadGeoJSON_dispatch_witness :
  loadGeoJSON IntegerToString
    (Document.Build "FeatureCollection"
       (Some [sample_point_feature; sample_polygon_feature]) None None) =
  importFeatures IntegerToString
    [sample_point_feature; sample_polygon_feature] /\
  loadGeoJSON IntegerToString
    (Document.Build "Feature" None
       (Feature.geometry sample_point_feature) None) =
  importFeatures IntegerToString [sample_point_feature] /\
  loadGeoJSON IntegerToString (Document.Build "Topology" None None None) =
  Ok {| graphics := []; bounds := None; goTo := None |}.
Proof.
  split; [| split].
  - apply (proj1 (loadGeoJSON_dispatch IntegerToString
                    (Document.Build "FeatureCollection"
                       (Some [sample_point_feature; sample_polygon_feature])
                       None None))); reflexivity.
  - apply (proj1 (proj2 (loadGeoJSON_dispatch IntegerToString
                           (Document.Build "Feature" None
                              (Feature.geometry sample_point_feature)
                              None)))); reflexivity.
  - apply (proj2 (proj2 (loadGeoJSON_dispatch IntegerToString
                           (Document.Build "Topology" None None None))));
      discriminate.
Defined.

(** ** Unsupported geometry types *)

Lemma unsupported_cases (type : string) :
  supported type = false ->
  (type =? "Point") = false /\ (type =? "LineString") = false /\
  (type =? "Polygon") = false /\ (type =? "MultiPoint") = false /\
  (type =? "MultiLineString") = false /\ (type =? "MultiPolygon") = false.
Proof.
  unfold supported, supported_types. cbn [existsb].
  rewrite !orb_false_iff. tauto.
Qed.

Lemma convertGeoJSONGeometry_unsupported (g : Geometry.t) :
  supported (Geometry.type g) = false ->
  convertGeoJSONGeometry g = Ok None.
Proof.
  intros H. unfold convertGeoJSONGeometry.
  destruct (unsupported_cases _ H) as (-> & -> & -> & -> & -> & ->).
  reflexivity.
Qed.

(** C6: a geometry whose type is none of the six supported ones converts to
    [null] and a feature carrying it yields no graphic; a collection that
    has such a feature loads as the import of its other features: every
    feature before and after it is handed to [createGraphicFromGeoJSON],
    the graphics obtained are kept in order and the box is folded over
    them. *)
Theorem unsupported_geometry_skipped (NumberToString : number -> string)
  (g : Geometry.t) (p : option Properties) :
  supported (Geometry.type g) = false ->
  convertGeoJSONGeometry g = Ok None /\
  createGraphicFromGeoJSON NumberToString (Feature.Build (Some g) p)
    = Ok None /\
  forall (before after : list Feature.t)
         (dg : option Geometry.t) (dp : option Properties),
    loadGeoJSON NumberToString
      (Document.Build "FeatureCollection"
         (Some (before ++ Feature.Build (Some g) p :: after)%list) dg dp) =
    importFeatures NumberToString (before ++ after).
Proof.
  intros H. pose proof (convertGeoJSONGeometry_unsupported g H) as E.
  assert (E' : createGraphicFromGeoJSON NumberToString
                 (Feature.Build (Some g) p) = Ok None).
  { unfold createGraphicFromGeoJSON. cbn [Feature.geometry].
    rewrite E. reflexivity. }
  repeat split; try assumption.
  intros before after dg dp.
  rewrite <- (loadGeoJSON_FeatureCollection NumberToString
                (before ++ after) dg dp).
  unfold loadGeoJSON.
  cbn [Document.type Document.features String.eqb Ascii.eqb Bool.eqb].
  rewrite !forEach_app. f_equal. apply bind_ext. intros [gs b].
  cbn [forEach]. unfold addFeature at 1. rewrite E'. reflexivity.
Qed.

Lemma unsupported_geometry_skipped_witness :
  convertGeoJSONGeometry (Geometry.Build "GeometryCollection" Undefined)
    = Ok None /\
  loadGeoJSON IntegerToString
    (Document.Build "FeatureCollection"
       (Some [sample_point_feature; sample_collection_feature;
              sample_polygon_feature]) None None) =
  importFeatures IntegerToString
    [sample_point_feature; sample_polygon_feature] /\
  exists r,
    importFeatures IntegerToString
      [sample_point_feature; sample_polygon_feature] = Ok r /\
    map attributes (graphics r) = [[]; sample_properties].
Proof.
  destruct (unsupported_geometry_skipped IntegerToString
              (Geometry.Build "GeometryCollection" Undefined)
              (Some [("name", SString "mixed")]) eq_refl) as [E [_ L]].
  split; [exact E |]. split.
  - exact (L [sample_point_feature] [sample_polygon_feature] None None).
  - eexists. split; reflexivity.
Defined.

(** ** Bounds of numeric geometries *)

Lemma not_precedes_trans (x y z : number) :
  numeric y -> numeric z ->
  ~ precedes x y -> ~ precedes y z -> ~ precedes x z.
Proof.
  apply (not_R_trans precedes precedes_trans precedes_total).
Qed.

Lemma Math_min_extremum (args : list value) :
  Forall numeric_value args ->
  extremum precedes (Math_min args) (Infinity :: map ToNumber args).
Proof.
  intros H. unfold Math_min.
  apply (from_extremum precedes) with (step := min_step);
    try reflexivity.
  - apply precedes_irrefl.
  - apply precedes_trans.
  - apply precedes_total.
  - apply min_step_spec.
  - apply Forall_map. exact H.
Qed.

Lemma Math_max_extremum (args : list value) :
  Forall numeric_value args ->
  extremum follows (Math_max args) (NegInfinity :: map ToNumber args).
Proof.
  intros H. unfold Math_max.
  apply (from_extremum follows) with (step := max_step);
    try reflexivity.
  - intros x. apply precedes_irrefl.
  - intros x y z Hxy Hyz. exact (precedes_trans z y x Hyz Hxy).
  - apply follows_total.
  - apply max_step_spec.
  - apply Forall_map. exact H.
Qed.

Lemma extremum_numeric (R : number -> number -> Prop) (r top : number)
  (args : list value) :
  numeric top -> Forall numeric_value args ->
  extremum R r (top :: map ToNumber args) -> numeric r.
Proof.
  intros Ht Ha [[<- | Hin] _]; [exact Ht |].
  apply in_map_iff in Hin. destruct Hin as [v [<- Hv]].
  rewrite Forall_forall in Ha. exact (Ha v Hv).
Qed.

Lemma Math_min_numeric (args : list value) :
  Forall numeric_value args -> numeric (Math_min args).
Proof.
  intros H. apply (extremum_numeric precedes _ Infinity args);
    [reflexivity | exact H | apply Math_min_extremum, H].
Qed.

Lemma Math_max_numeric (args : list value) :
  Forall numeric_value args -> numeric (Math_max args).
Proof.
  intros H. apply (extremum_numeric follows _ NegInfinity args);
    [reflexivity | exact H | apply Math_max_extremum, H].
Qed.

Lemma Math_min_lower (args : list value) (v : value) :
  Forall numeric_value args -> In v args ->
  ~ precedes (ToNumber v) (Math_min args).
Proof.
  intros H Hv. destruct (Math_min_extremum args H) as [_ Hr].
  apply Hr. right. apply in_map, Hv.
Qed.

Lemma Math_max_upper (args : list value) (v : value) :
  Forall numeric_value args -> In v args ->
  ~ precedes (Math_max args) (ToNumber v).
Proof.
  intros H Hv. destruct (Math_max_extremum args H) as [_ Hr].
  apply (Hr (ToNumber v)). right. apply in_map, Hv.
Qed.

Lemma numeric_position_inv (p : value) :
  numeric_position p = true ->
  exists x y rest,
    p = Arr (Num x :: Num y :: rest) /\ numeric x /\ numeric y.
Proof.
  destruct p as [| n | [| [| x |] [| [| y |] rest]]]; try discriminate.
  cbn. rewrite andb_true_iff, !negb_true_iff. intros [Hx Hy].
  exists x, y, rest. auto.
Qed.

Lemma forallb_numeric_positions (rings : list (list value)) :
  forallb (forallb numeric_position) rings = true ->
  Forall (fun c => numeric_position c = true) (List.concat rings).
Proof.
  intros H. apply Forall_concat. rewrite forallb_forall in H.
  apply Forall_forall. intros ring Hr. apply Forall_forall.
  specialize (H ring Hr). rewrite forallb_forall in H. exact H.
Qed.

Lemma flat_elems_arrays (rings : list (list value)) :
  flat_elems (map Arr rings) = List.concat rings.
Proof.
  unfold flat_elems. rewrite flat_map_concat_map, map_map.
  cbn. rewrite map_id. reflexivity.
Qed.

Lemma mapM_get (coords : list value) (i : nat) :
  Forall (fun c => numeric_position c = true) coords ->
  mapM (fun c => get c i) coords = Ok (map (fun c => item c i) coords).
Proof.
  induction 1 as [| c coords Hc _ IH]; [reflexivity |].
  cbn [mapM map]. rewrite IH.
  destruct (numeric_position_inv c Hc) as (x & y & rest & -> & _).
  reflexivity.
Qed.

Lemma items_numeric (coords : list value) (i : nat) :
  (i < 2)%nat ->
  Forall (fun c => numeric_position c = true) coords ->
  Forall numeric_value (map (fun c => item c i) coords).
Proof.
  intros Hi H. apply Forall_map. apply Forall_impl with (2 := H).
  intros c Hc. destruct (numeric_position_inv c Hc)
    as (x & y & rest & -> & Hx & Hy).
  destruct i as [| [| i]]; [exact Hx | exact Hy | lia].
Qed.

Lemma geometry_extent_polygon (rings : list (list value)) :
  Forall (fun c => numeric_position c = true) (List.concat rings) ->
  geometry_extent (polygon (Arr (map Arr rings))) =
  Ok (Num (Math_min (map (fun c => item c 0) (List.concat rings))),
      Num (Math_min (map (fun c => item c 1) (List.concat rings))),
      Num (Math_max (map (fun c => item c 0) (List.concat rings))),
      Num (Math_max (map (fun c => item c 1) (List.concat rings)))).
Proof.
  intros H. unfold geometry_extent, flat. rewrite flat_elems_arrays.
  cbn [bind]. rewrite !mapM_get by exact H. reflexivity.
Qed.

Lemma foldBounds_pair (g1 g2 : ArcGISGeometry)
  (e1 e2 : value * value * value * value) :
  geometry_extent g1 = Ok e1 -> geometry_extent g2 = Ok e2 ->
  foldBounds [g1; g2] None =
  Ok (Some (mergeBounds (Some (mergeBounds None e1)) e2)).
Proof.
  intros E1 E2. unfold foldBounds. cbn [forEach].
  rewrite !updateBounds_merge, E1. cbn [bind].
  rewrite updateBounds_merge, E2. reflexivity.
Qed.

(** The box accumulated from a point and the extent of numeric vertices
    contains the point and the vertices. *)
Lemma merged_box_contains (x y : number) (rest : list value)
  (coords : list value) :
  numeric x -> numeric y ->
  Forall (fun c => numeric_position c = true) coords ->
  let b :=
    mergeBounds (Some (mergeBounds None (Num x, Num y, Num x, Num y)))
      (Num (Math_min (map (fun c => item c 0) coords)),
       Num (Math_min (map (fun c => item c 1) coords)),
       Num (Math_max (map (fun c => item c 0) coords)),
       Num (Math_max (map (fun c => item c 1) coords))) in
  contains b (Arr (Num x :: Num y :: rest)) = true /\
  Forall (fun v => contains b v = true) coords.
Proof.
  intros Hx Hy Hc b.
  pose proof (items_numeric coords 0 ltac:(lia) Hc) as HX.
  pose proof (items_numeric coords 1 ltac:(lia) Hc) as HY.
  set (X := map (fun c => item c 0) coords) in *.
  set (Y := map (fun c => item c 1) coords) in *.
  assert (PX : Forall numeric_value [Num x; Num (Math_min X)]).
  { repeat constructor; [exact Hx | apply Math_min_numeric, HX]. }
  assert (PY : Forall numeric_value [Num y; Num (Math_min Y)]).
  { repeat constructor; [exact Hy | apply Math_min_numeric, HY]. }
  assert (QX : Forall numeric_value [Num x; Num (Math_max X)]).
  { repeat constructor; [exact Hx | apply Math_max_numeric, HX]. }
  assert (QY : Forall numeric_value [Num y; Num (Math_max Y)]).
  { repeat constructor; [exact Hy | apply Math_max_numeric, HY]. }
  split.
  - unfold contains, le, b, mergeBounds.
    cbn [xmin ymin xmax ymax item nth ToNumber].
    rewrite !andb_true_iff. repeat split.
    + apply leb_of_not_precedes;
        [apply Math_min_numeric, PX | exact Hx |].
      apply (Math_min_lower _ (Num x) PX). left; reflexivity.
    + apply leb_of_not_precedes;
        [exact Hx | apply Math_max_numeric, QX |].
      apply (Math_max_upper _ (Num x) QX). left; reflexivity.
    + apply leb_of_not_precedes;
        [apply Math_min_numeric, PY | exact Hy |].
      apply (Math_min_lower _ (Num y) PY). left; reflexivity.
    + apply leb_of_not_precedes;
        [exact Hy | apply Math_max_numeric, QY |].
      apply (Math_max_upper _ (Num y) QY). left; reflexivity.
  - apply Forall_forall. intros v Hv.
    assert (Hvn : numeric_position v = true).
    { rewrite Forall_forall in Hc. exact (Hc v Hv). }
    destruct (numeric_position_inv v Hvn)
      as (vx & vy & vrest & -> & Hvx & Hvy).
    assert (InX : In (Num vx) X).
    { unfold X. apply in_map_iff. eexists. split; [| exact Hv]. reflexivity. }
    assert (InY : In (Num vy) Y).
    { unfold Y. apply in_map_iff. eexists. split; [| exact Hv]. reflexivity. }
    unfold contains, le, b, mergeBounds.
    cbn [xmin ymin xmax ymax item nth ToNumber].
    rewrite !andb_true_iff. repeat split.
    + apply leb_of_not_precedes;
        [apply Math_min_numeric, PX | exact Hvx |].
      apply (not_precedes_trans _ (Math_min X));
        [apply Math_min_numeric, HX | apply Math_min_numeric, PX | |].
      * exact (Math_min_lower X (Num vx) HX InX).
      * apply (Math_min_lower _ (Num (Math_min X)) PX).
        right; left; reflexivity.
    + apply leb_of_not_precedes;
        [exact Hvx | apply Math_max_numeric, QX |].
      apply (not_precedes_trans _ (Math_max X));
        [apply Math_max_numeric, HX | exact Hvx | |].
      * apply (Math_max_upper _ (Num (Math_max X)) QX).
        right; left; reflexivity.
      * exact (Math_max_upper X (Num vx) HX InX).
    + apply leb_of_not_precedes;
        [apply Math_min_numeric, PY | exact Hvy |].
      apply (not_precedes_trans _ (Math_min Y));
        [apply Math_min_numeric, HY | apply Math_min_numeric, PY | |].
      * exact (Math_min_lower Y (Num vy) HY InY).
      * apply (Math_min_lower _ (Num (Math_min Y)) PY).
        right; left; reflexivity.
    + apply leb_of_not_precedes;
        [exact Hvy | apply Math_max_numeric, QY |].
      apply (not_precedes_trans _ (Math_max Y));
        [apply Math_max_numeric, HY | exact Hvy | |].
      * apply (Math_max_upper _ (Num (Math_max Y)) QY).
        right; left; reflexivity.
      * exact (Math_max_upper Y (Num vy) HY InY).
Qed.

Lemma createGraphic_Point (NumberToString : number -> string)
  (x y : value) (rest : list value) (p : option Properties) :
  createGraphicFromGeoJSON NumberToString
    (Feature.Build (Some (Geometry.Build "Point" (Arr (x :: y :: rest)))) p) =
  Ok (Some {| geometry := point x y;
              symbol := Some simple_marker;
              attributes := match p with Some l => l | None => [] end;
              popupTemplate := createPopupTemplate NumberToString p |}).
Proof. reflexivity. Qed.

Lemma createGraphic_Polygon (NumberToString : number -> string)
  (c : value) (p : option Properties) :
  createGraphicFromGeoJSON NumberToString
    (Feature.Build (Some (Geometry.Build "Polygon" c)) p) =
  Ok (Some {| geometry := polygon c;
              symbol := Some simple_fill;
              attributes := match p with Some l => l | None => [] end;
              popupTemplate := createPopupTemplate NumberToString p |}).
Proof. reflexivity. Qed.

(** C2: loading a FeatureCollection made of one Point feature and one
    Polygon feature with numeric coordinates, in either order, gives two
    graphics and a box that contains the point and every vertex of the
    polygon. *)
Theorem import_point_and_polygon (NumberToString : number -> string)
  (pt : value) (rings : list (list value)) (p1 p2 : option Properties)
  (features : list Feature.t)
  (dg : option Geometry.t) (dp : option Properties) :
  numeric_position pt = true ->
  forallb (forallb numeric_position) rings = true ->
  Permutation features
    [Feature.Build (Some (Geometry.Build "Point" pt)) p1;
     Feature.Build (Some (Geometry.Build "Polygon" (Arr (map Arr rings))))
       p2] ->
  exists r b,
    loadGeoJSON NumberToString
      (Document.Build "FeatureCollection" (Some features) dg dp) = Ok r /\
    List.length (graphics r) = 2%nat /\
    bounds r = Some b /\
    contains b pt = true /\
    Forall (fun v => contains b v = true) (List.concat rings).
Proof.
  intros Hpt Hrings HP.
  destruct (numeric_position_inv pt Hpt) as (x & y & rest & -> & Hx & Hy).
  pose proof (forallb_numeric_positions rings Hrings) as Hc.
  destruct (merged_box_contains x y rest (List.concat rings) Hx Hy Hc)
    as [Cpt Cv].
  pose proof (foldBounds_pair (point (Num x) (Num y))
                (polygon (Arr (map Arr rings))) _ _ eq_refl
                (geometry_extent_polygon rings Hc)) as Hfold.
  rewrite loadGeoJSON_FeatureCollection. unfold importFeatures.
  apply Permutation_sym, Permutation_length_2_inv in HP.
  destruct HP as [-> | ->]; cbn [mapM];
    rewrite createGraphic_Point, createGraphic_Polygon;
    cbn [bind somes flat_map app map geometry].
  - rewrite Hfold. cbn [bind].
    eexists. eexists. repeat split; [exact Cpt | exact Cv].
  - rewrite (foldBounds_permutation_from _ _
               (perm_swap (point (Num x) (Num y))
                          (polygon (Arr (map Arr rings))) []) None).
    rewrite Hfold. cbn [bind].
    eexists. eexists. repeat split; [exact Cpt | exact Cv].
Qed.

Lemma import_point_and_polygon_witness :
  exists r b,
    loadGeoJSON IntegerToString
      (Document.Build "FeatureCollection"
         (Some [sample_polygon_feature; sample_point_feature]) None None)
      = Ok r /\
    List.length (graphics r) = 2%nat /\
    bounds r = Some b /\
    contains b (pos 1 2) = true /\
    Forall (fun v => contains b v = true) [pos 0 0; pos 4 0; pos 4 5; pos 0 0].
Proof.
  apply (import_point_and_polygon IntegerToString (pos 1 2)
           [[pos 0 0; pos 4 0; pos 4 5; pos 0 0]] None
           (Some [("name", SString "A"); ("foo", SString "bar")])
           [sample_polygon_feature; sample_point_feature] None None).
  - reflexivity.
  - reflexivity.
  - apply perm_swap.
Defined.

(** ** The invariant of the box, away from the multipoint case *)

Lemma numeric_paths_inv (paths : value) :
  numeric_paths paths = true ->
  exists l c coords,
    paths = Arr l /\ flat_elems l = c :: coords /\
    Forall (fun c => numeric_position c = true) (c :: coords).
Proof.
  destruct paths as [| n | l]; try discriminate.
  cbn [numeric_paths]. rewrite andb_true_iff. intros [Hl Hne].
  assert (H : Forall (fun c => numeric_position c = true) (flat_elems l)).
  { clear Hne. unfold flat_elems.
    induction l as [| path l IH]; [constructor |].
    cbn [forallb] in Hl. apply andb_true_iff in Hl. destruct Hl as [Hp Hl].
    cbn [flat_map]. apply Forall_app. split; [| exact (IH Hl)].
    destruct path as [| n | ps]; try discriminate.
    apply Forall_forall. cbn [numeric_path] in Hp.
    rewrite forallb_forall in Hp. exact Hp. }
  destruct (flat_elems l) as [| c coords] eqn:E; [discriminate |].
  exists l, c, coords. auto.
Qed.

Lemma extent_of_positions_ordered (c : value) (coords : list value) :
  Forall (fun c => numeric_position c = true) (c :: coords) ->
  ordered_extent
    (Num (Math_min (map (fun c => item c 0) (c :: coords))),
     Num (Math_min (map (fun c => item c 1) (c :: coords))),
     Num (Math_max (map (fun c => item c 0) (c :: coords))),
     Num (Math_max (map (fun c => item c 1) (c :: coords)))).
Proof.
  intros H.
  pose proof (items_numeric _ 0 ltac:(lia) H) as HX.
  pose proof (items_numeric _ 1 ltac:(lia) H) as HY.
  unfold ordered_extent, numeric_value. cbn [ToNumber].
  repeat split;
    try (apply Math_min_numeric; assumption);
    try (apply Math_max_numeric; assumption).
  - apply (not_precedes_trans _ (ToNumber (item c 0)));
      [inversion HX; assumption | apply Math_min_numeric, HX | |].
    + apply (Math_max_upper _ (item c 0) HX). left; reflexivity.
    + apply (Math_min_lower _ (item c 0) HX). left; reflexivity.
  - apply (not_precedes_trans _ (ToNumber (item c 1)));
      [inversion HY; assumption | apply Math_min_numeric, HY | |].
    + apply (Math_max_upper _ (item c 1) HY). left; reflexivity.
    + apply (Math_min_lower _ (item c 1) HY). left; reflexivity.
Qed.

Lemma geometry_extent_ordered (g : ArcGISGeometry) :
  numeric_geometry g = true ->
  exists e, geometry_extent g = Ok e /\ ordered_extent e.
Proof.
  destruct g as [lon lat | paths | rings | points]; cbn [numeric_geometry].
  - destruct lon as [| x |]; try discriminate.
    destruct lat as [| y |]; try discriminate.
    rewrite andb_true_iff, !negb_true_iff. intros [Hx Hy].
    eexists. split; [reflexivity |].
    unfold ordered_extent, numeric_value. cbn [ToNumber].
    repeat split; try assumption; apply precedes_irrefl.
  - intros H. destruct (numeric_paths_inv paths H)
      as (l & c & coords & -> & E & Hc).
    eexists. split; [| exact (extent_of_positions_ordered c coords Hc)].
    unfold geometry_extent, flat. rewrite E. cbn [bind].
    rewrite !mapM_get by exact Hc. reflexivity.
  - intros H. destruct (numeric_paths_inv rings H)
      as (l & c & coords & -> & E & Hc).
    eexists. split; [| exact (extent_of_positions_ordered c coords Hc)].
    unfold geometry_extent, flat. rewrite E. cbn [bind].
    rewrite !mapM_get by exact Hc. reflexivity.
  - discriminate.
Qed.

Lemma mergeBounds_ordered (start : option Bounds)
  (e : value * value * value * value) :
  match start with
  | Some b => ordered_extent (box_extent b)
  | None => True
  end ->
  ordered_extent e ->
  ordered_extent (box_extent (mergeBounds start e)).
Proof.
  destruct e as [[[minX minY] maxX] maxY].
  destruct start as [b |]; [| intros _ H; exact H].
  unfold box_extent, mergeBounds, ordered_extent, numeric_value.
  cbn [xmin ymin xmax ymax ToNumber].
  intros (Hx0 & Hy0 & Hx1 & Hy1 & Hx & Hy) (Ex0 & Ey0 & Ex1 & Ey1 & Ex & Ey).
  assert (PX : Forall numeric_value [xmin b; minX])
    by (repeat constructor; assumption).
  assert (PY : Forall numeric_value [ymin b; minY])
    by (repeat constructor; assumption).
  assert (QX : Forall numeric_value [xmax b; maxX])
    by (repeat constructor; assumption).
  assert (QY : Forall numeric_value [ymax b; maxY])
    by (repeat constructor; assumption).
  repeat split;
    try (apply Math_min_numeric; assumption);
    try (apply Math_max_numeric; assumption).
  - apply (not_precedes_trans _ (ToNumber (xmax b)));
      [assumption | apply Math_min_numeric, PX | |].
    + apply (Math_max_upper _ (xmax b) QX). left; reflexivity.
    + apply (not_precedes_trans _ (ToNumber (xmin b)));
        [assumption | apply Math_min_numeric, PX | assumption |].
      apply (Math_min_lower _ (xmin b) PX). left; reflexivity.
  - apply (not_precedes_trans _ (ToNumber (ymax b)));
      [assumption | apply Math_min_numeric, PY | |].
    + apply (Math_max_upper _ (ymax b) QY). left; reflexivity.
    + apply (not_precedes_trans _ (ToNumber (ymin b)));
        [assumption | apply Math_min_numeric, PY | assumption |].
      apply (Math_min_lower _ (ymin b) PY). left; reflexivity.
Qed.

Lemma foldBounds_ordered_from (l : list ArcGISGeometry) :
  forallb numeric_geometry l = true ->
  forall start,
    match start with
    | Some b => ordered_extent (box_extent b)
    | None => l <> []
    end ->
    exists b, foldBounds l start = Ok (Some b) /\
              ordered_extent (box_extent b).
Proof.
  unfold foldBounds.
  induction l as [| g l IH]; intros Hl start Hs.
  - destruct start as [b |]; [| congruence]. exists b. auto.
  - cbn [forallb] in Hl. apply andb_true_iff in Hl. destruct Hl as [Hg Hl].
    destruct (geometry_extent_ordered g Hg) as [e [E He]].
    cbn [forEach]. rewrite updateBounds_merge, E. cbn [bind].
    apply (IH Hl (Some (mergeBounds start e))).
    apply mergeBounds_ordered; [| exact He].
    destruct start; [exact Hs | exact I].
Qed.

(** Away from the missing case, the invariant holds: folding over at
    least one numeric point, polyline or polygon that has a position gives
    a box with [xmin <= xmax] and [ymin <= ymax]. *)
Lemma foldBounds_ordered (l : list ArcGISGeometry) :
  l <> [] -> forallb numeric_geometry l = true ->
  exists b, foldBounds l None = Ok (Some b) /\
            le (xmin b) (xmax b) = true /\ le (ymin b) (ymax b) = true.
Proof.
  intros Hne Hl.
  destruct (foldBounds_ordered_from l Hl None Hne)
    as [b [E (Hx0 & Hy0 & Hx1 & Hy1 & Hx & Hy)]].
  exists b. split; [exact E |].
  split; apply leb_of_not_precedes; assumption.
Qed.

(** ** The multipoint case of [updateBounds] *)

(** C3: on the geometry converted from a MultiPoint, [updateBounds] leaves
    its four locals [undefined]; the box it builds has no number in it and
    [xmin <= xmax] is false, where the claim expects the extrema 1 and 3 of
    the longitudes. *)
Theorem updateBounds_multipoint_undefined :
  convertGeoJSONGeometry
    (Geometry.Build "MultiPoint" (Arr [pos 1 2; pos 3 4]))
  = Ok (Some sample_multipoint) /\
  foldBounds [sample_multipoint] None =
  Ok (Some {| xmin := Undefined; ymin := Undefined;
              xmax := Undefined; ymax := Undefined;
              spatialReference := wgs84 |}) /\
  le Undefined Undefined = false /\
  foldBounds [sample_point; sample_multipoint] None =
  Ok (Some {| xmin := Num NaN; ymin := Num NaN;
              xmax := Num NaN; ymax := Num NaN;
              spatialReference := wgs84 |}) /\
  exists r,
    loadGeoJSON IntegerToString
      (Document.Build "FeatureCollection"
         (Some [Feature.Build
                  (Some (Geometry.Build "MultiPoint"
                           (Arr [pos 1 2; pos 3 4]))) None])
         None None) = Ok r /\
    bounds r = Some {| xmin := Undefined; ymin := Undefined;
                       xmax := Undefined; ymax := Undefined;
                       spatialReference := wgs84 |}.
Proof.
  repeat split. eexists. split; reflexivity.
Qed.

(** ** Expanding the box of a single point *)

Lemma sub_diag (x : number) : is_finite x = true -> sub x x = zero.
Proof.
  destruct x as [[] | [] | | s m e]; try discriminate; try reflexivity.
  intros _. unfold sub, SFsub. rewrite Z.sub_diag. reflexivity.
Qed.

Lemma expand_amount_zero :
  div (mul zero (sub lit_1_2 one)) two = zero.
Proof. reflexivity. Qed.

Lemma sub_zero_r (x : number) : is_finite x = true -> sub x zero = x.
Proof. destruct x as [[] | [] | | s m e]; try discriminate; reflexivity. Qed.

Lemma add_zero_r (x : number) :
  is_finite x = true ->
  eqb (add x zero) x = true /\ sub (add x zero) x = zero.
Proof.
  destruct x as [[] | [] | | s m e]; try discriminate; intros _;
    try (split; reflexivity).
  change (add (S754_finite s m e) zero) with (S754_finite s m e).
  split; [| apply sub_diag; reflexivity].
  unfold eqb, SFeqb, SFcompare.
  rewrite Z.compare_refl.
  change (Pos.compare_cont Eq m m) with (Pos.compare m m).
  rewrite Pos.compare_refl. destruct s; reflexivity.
Qed.

(** C4 as the code has it: on the box of a single point with finite
    coordinates, [expand(1.2)] adds nothing; the extent has its lower and
    its upper corner at the point, so its width and its height are zero. *)
Theorem expand_point_box (NumberToString : number -> string)
  (x y : number) :
  is_finite x = true -> is_finite y = true ->
  exists b hx hy,
    updateBounds None (Some (point (Num x) (Num y))) = Ok (Some b) /\
    ext_xmin (expand NumberToString b lit_1_2) = x /\
    ext_ymin (expand NumberToString b lit_1_2) = y /\
    ext_xmax (expand NumberToString b lit_1_2) = PNumber hx /\
    ext_ymax (expand NumberToString b lit_1_2) = PNumber hy /\
    eqb hx x = true /\ eqb hy y = true /\
    extent_width (expand NumberToString b lit_1_2) = Some zero /\
    extent_height (expand NumberToString b lit_1_2) = Some zero /\
    positive_size (expand NumberToString b lit_1_2) = false.
Proof.
  intros Hx Hy.
  destruct (add_zero_r x Hx) as [Ex Wx], (add_zero_r y Hy) as [Ey Wy].
  exists (mergeBounds None (Num x, Num y, Num x, Num y)),
         (add x zero), (add y zero).
  unfold positive_size, extent_width, extent_height, expand, plus.
  cbn [mergeBounds xmin ymin xmax ymax ToNumber
       ext_xmin ext_ymin ext_xmax ext_ymax].
  rewrite !sub_diag, !expand_amount_zero, !sub_zero_r, Wx, Wy
    by assumption.
  repeat split; assumption.
Qed.

Lemma expand_point_box_witness :
  exists b hx hy,
    updateBounds None (Some sample_point) = Ok (Some b) /\
    ext_xmin (expand IntegerToString b lit_1_2) = of_Z 1 /\
    ext_ymin (expand IntegerToString b lit_1_2) = of_Z 2 /\
    ext_xmax (expand IntegerToString b lit_1_2) = PNumber hx /\
    ext_ymax (expand IntegerToString b lit_1_2) = PNumber hy /\
    eqb hx (of_Z 1) = true /\ eqb hy (of_Z 2) = true /\
    extent_width (expand IntegerToString b lit_1_2) = Some zero /\
    extent_height (expand IntegerToString b lit_1_2) = Some zero /\
    positive_size (expand IntegerToString b lit_1_2) = false.
Proof.
  apply (expand_point_box IntegerToString (of_Z 1) (of_Z 2));
    reflexivity.
Defined.

(** C4 as stated fails: the box of the point [(1, 2)] expanded by 1.2 has
    no positive width or height. *)
Lemma expand_point_box_not_positive :
  updateBounds None (Some sample_point) = Ok (Some sample_point_box) /\
  expand IntegerToString sample_point_box lit_1_2 =
    {| ext_xmin := of_Z 1; ext_ymin := of_Z 2;
       ext_xmax := PNumber (of_Z 1); ext_ymax := PNumber (of_Z 2);
       ext_spatialReference := wgs84 |} /\
  positive_size (expand IntegerToString sample_point_box lit_1_2) = false.
Proof. repeat split. Qed.

(** ** Popup template *)

Lemma lookup_absent (key : string) (properties : Properties) :
  has_key key properties = false -> lookup key properties = SUndefined.
Proof.
  induction properties as [| [k v] rest IH]; [reflexivity |].
  cbn. destruct (k =? key); [discriminate | exact IH].
Qed.

(** C5 as the code has it: without properties, or with none, the template
    is the placeholder; otherwise the title is the value of [name] when
    that value is truthy, else the value of [title] when truthy, else
    "Feature", and the content is one piece [<b>key:</b> value] for each
    property, in the order of the object, joined with [<br>].  For
    [{name: "A", foo: "bar"}] the title is "A" and the content has the
    text [<b>foo:</b> bar]. *)
Theorem createPopupTemplate_spec (NumberToString : number -> string)
  (properties : option Properties) :
  match properties with
  | None | Some [] =>
      createPopupTemplate NumberToString properties =
      {| title := SString "Feature"; content := "No properties available" |}
  | Some entries =>
      title (createPopupTemplate NumberToString properties) =
        (if truthy (lookup "name" entries) then lookup "name" entries
         else if truthy (lookup "title" entries) then lookup "title" entries
         else SString "Feature") /\
      content (createPopupTemplate NumberToString properties) =
        String.concat "<br>"
          (map (fun entry =>
                  "<b>" ++ fst entry ++ ":</b> " ++
                  ScalarToString NumberToString (snd entry))
               entries)
  end /\
  title (createPopupTemplate NumberToString (Some sample_properties))
    = SString "A" /\
  includes
    (content (createPopupTemplate NumberToString (Some sample_properties)))
    "<b>foo:</b> bar" = true.
Proof.
  split; [| split; reflexivity].
  destruct properties as [[| entry entries] |]; try reflexivity.
  split; [| reflexivity].
  cbn [createPopupTemplate title]. unfold or_else.
  destruct (truthy (lookup "name" (entry :: entries))) eqn:E1; cbv iota.
  - rewrite E1. reflexivity.
  - destruct (truthy (lookup "title" (entry :: entries))) eqn:E2;
      reflexivity.
Qed.

(** C5 as stated fails: the content of the template of
    [{name: "A", foo: "bar"}] is markup in which the text [foo: bar] does
    not occur, and a [name] that is present but empty is not the title. *)
Lemma createPopupTemplate_markup :
  content (createPopupTemplate IntegerToString (Some sample_properties))
    = "<b>name:</b> A<br><b>foo:</b> bar" /\
  includes
    (content (createPopupTemplate IntegerToString (Some sample_properties)))
    "foo: bar" = false /\
  title (createPopupTemplate IntegerToString
           (Some [("name", SString ""); ("foo", SString "bar")]))
    = SString "Feature".
Proof. repeat split. Qed.

(** C10: when [name] is bound to a falsy value (the empty string, a zero,
    [false], [null]) and there is no [title], the title is "Feature": the
    chain tests the values, not the presence of the keys. *)
Theorem createPopupTemplate_falsy_name (NumberToString : number -> string)
  (properties : Properties) :
  has_key "name" properties = true ->
  truthy (lookup "name" properties) = false ->
  has_key "title" properties = false ->
  title (createPopupTemplate NumberToString (Some properties))
    = SString "Feature".
Proof.
  intros Hname Hfalsy Htitle.
  destruct properties as [| entry rest]; [discriminate |].
  cbn [createPopupTemplate title]. unfold or_else.
  rewrite Hfalsy, (lookup_absent "title" _ Htitle). reflexivity.
Qed.

Lemma createPopupTemplate_falsy_name_witness :
  title (createPopupTemplate IntegerToString
           (Some [("id", SNumber (of_Z 7)); ("name", SNumber (of_Z 0))]))
    = SString "Feature" /\
  title (createPopupTemplate IntegerToString
           (Some [("name", SString "")])) = SString "Feature" /\
  title (createPopupTemplate IntegerToString
           (Some [("name", SBool false)])) = SString "Feature" /\
  title (createPopupTemplate IntegerToString
           (Some [("name", SNull)])) = SString "Feature".
Proof.
  split; [| split; [| split]];
    apply (createPopupTemplate_falsy_name IntegerToString); reflexivity.
Defined.

(** * Further properties of the importer *)

(** ** When the conversion throws *)

(** X1: [convertGeoJSONGeometry] can only throw on a Point or a
    MultiPolygon.  A MultiPolygon throws exactly when its [coordinates] is
    not an array; a Point throws when its [coordinates] member is absent
    and does not when it is an array or a number. *)
Theorem convertGeoJSONGeometry_throws (g : Geometry.t) :
  (convertGeoJSONGeometry g = Throw TypeError ->
   Geometry.type g = "Point" \/ Geometry.type g = "MultiPolygon") /\
  (Geometry.type g = "MultiPolygon" ->
   (convertGeoJSONGeometry g = Throw TypeError <->
    is_array (Geometry.coordinates g) = false)) /\
  (Geometry.type g = "Point" ->
   Geometry.coordinates g = Undefined ->
   convertGeoJSONGeometry g = Throw TypeError) /\
  (Geometry.type g = "Point" ->
   is_array (Geometry.coordinates g) = true \/
   (exists n, Geometry.coordinates g = Num n) ->
   convertGeoJSONGeometry g <> Throw TypeError).
Proof.
  destruct g as [type c]. unfold convertGeoJSONGeometry.
  cbn [Geometry.type Geometry.coordinates].
  repeat split.
  - destruct (String.eqb_spec type "Point") as [-> | H1]; [auto |].
    destruct (String.eqb_spec type "LineString"); [discriminate |].
    destruct (String.eqb_spec type "Polygon"); [discriminate |].
    destruct (String.eqb_spec type "MultiPoint"); [discriminate |].
    destruct (String.eqb_spec type "MultiLineString"); [discriminate |].
    destruct (String.eqb_spec type "MultiPolygon"); [auto | discriminate].
  - subst type. destruct c; cbn; [reflexivity | reflexivity | discriminate].
  - subst type. destruct c; cbn; [reflexivity | reflexivity | discriminate].
  - intros -> ->. reflexivity.
  - intros -> [Ha | [n ->]]; [destruct c; try discriminate |]; discriminate.
Qed.

Lemma convertGeoJSONGeometry_throws_witness :
  convertGeoJSONGeometry (Geometry.Build "MultiPolygon" (Num (of_Z 3)))
    = Throw TypeError /\
  convertGeoJSONGeometry (Geometry.Build "Point" Undefined)
    = Throw TypeError /\
  convertGeoJSONGeometry (Geometry.Build "Point" (Num (of_Z 3)))
    <> Throw TypeError.
Proof.
  split; [| split].
  - apply (proj1 (proj2 (convertGeoJSONGeometry_throws
                           (Geometry.Build "MultiPolygon" (Num (of_Z 3)))))
                  eq_refl).
    reflexivity.
  - apply (proj1 (proj2 (proj2 (convertGeoJSONGeometry_throws
                                  (Geometry.Build "Point" Undefined)))));
      reflexivity.
  - apply (proj2 (proj2 (proj2 (convertGeoJSONGeometry_throws
                                  (Geometry.Build "Point" (Num (of_Z 3)))))));
      [reflexivity | right; eexists; reflexivity].
Defined.

(** ** Single-part multi geometries *)

(** X2: a MultiLineString holding one line converts to the geometry of
    that LineString, and a MultiPolygon holding one polygon (an array of
    rings) to the geometry of that Polygon. *)
Theorem convertGeoJSONGeometry_single_part (c : value) :
  convertGeoJSONGeometry (Geometry.Build "MultiLineString" (Arr [c])) =
  convertGeoJSONGeometry (Geometry.Build "LineString" c) /\
  (is_array c = true ->
   convertGeoJSONGeometry (Geometry.Build "MultiPolygon" (Arr [c])) =
   convertGeoJSONGeometry (Geometry.Build "Polygon" c)).
Proof.
  split; [reflexivity |].
  destruct c as [| n | rings]; try discriminate. intros _.
  cbn. rewrite app_nil_r. reflexivity.
Qed.

Lemma convertGeoJSONGeometry_single_part_witness :
  convertGeoJSONGeometry
    (Geometry.Build "MultiPolygon"
       (Arr [Arr [Arr [pos 0 0; pos 4 0; pos 4 5; pos 0 0]]])) =
  convertGeoJSONGeometry
    (Geometry.Build "Polygon" (Arr [Arr [pos 0 0; pos 4 0; pos 4 5; pos 0 0]])).
Proof.
  apply (proj2 (convertGeoJSONGeometry_single_part
                  (Arr [Arr [pos 0 0; pos 4 0; pos 4 5; pos 0 0]]))).
  reflexivity.
Defined.

(** ** Symbols *)

(** X3: for the type of a geometry the conversion accepts,
    [getSymbolForGeometry] gives the symbol that fits the converted
    geometry; for a type the conversion answers with [null], it gives no
    symbol either. *)
Theorem getSymbolForGeometry_agrees (g : Geometry.t) :
  match convertGeoJSONGeometry g with
  | Ok (Some g') =>
      getSymbolForGeometry (Geometry.type g) = Some (symbol_for g')
  | Ok None => getSymbolForGeometry (Geometry.type g) = None
  | Throw _ => getSymbolForGeometry (Geometry.type g) <> None
  end.
Proof.
  destruct g as [type c].
  unfold convertGeoJSONGeometry, getSymbolForGeometry.
  cbn [Geometry.type Geometry.coordinates].
  destruct (String.eqb_spec type "Point") as [-> | H1].
  { destruct c; cbn; try reflexivity; discriminate. }
  destruct (String.eqb_spec type "LineString") as [-> | H2];
    [reflexivity |].
  destruct (String.eqb_spec type "Polygon") as [-> | H3];
    [reflexivity |].
  destruct (String.eqb_spec type "MultiPoint") as [-> | H4];
    [reflexivity |].
  destruct (String.eqb_spec type "MultiLineString") as [-> | H5];
    [reflexivity |].
  destruct (String.eqb_spec type "MultiPolygon") as [-> | H6].
  { destruct c; cbn; try reflexivity; discriminate. }
  reflexivity.
Qed.

(** ** Popup templates *)

(** X4: the title of a popup template is never falsy: it is a truthy
    [name], a truthy [title] or the word "Feature". *)
Theorem createPopupTemplate_title_truthy (NumberToString : number -> string)
  (properties : option Properties) :
  truthy (title (createPopupTemplate NumberToString properties)) = true.
Proof.
  destruct properties as [[| entry entries] |]; try reflexivity.
  cbn [createPopupTemplate title]. unfold or_else.
  destruct (truthy (lookup "name" (entry :: entries))) eqn:E1; cbv iota.
  - rewrite E1. exact E1.
  - destruct (truthy (lookup "title" (entry :: entries))) eqn:E2;
      [exact E2 | reflexivity].
Qed.

Lemma append_assoc (a b c : string) : (a ++ b) ++ c = a ++ b ++ c.
Proof. induction a as [| ch a IH]; cbn; [| rewrite IH]; reflexivity. Qed.

Lemma append_empty_r (a : string) : a ++ "" = a.
Proof. induction a as [| ch a IH]; cbn; [| rewrite IH]; reflexivity. Qed.

Lemma substring_prefix (s b : string) :
  substring 0 (String.length s) (s ++ b) = s.
Proof.
  induction s as [| ch s IH]; cbn.
  - destruct b; reflexivity.
  - rewrite IH. reflexivity.
Qed.

Lemma includes_middle (a s b : string) : includes (a ++ s ++ b) s = true.
Proof.
  unfold includes.
  assert (P : forall t, t = s ++ b -> index 0 s t <> None).
  { intros t ->. destruct (s ++ b) as [| ch rest] eqn:E.
    - destruct s; [cbn; discriminate | discriminate].
    - cbn [index]. rewrite <- E.
      rewrite (proj2 (prefix_correct s (s ++ b)) (substring_prefix s b)).
      discriminate. }
  induction a as [| ch a IH].
  - cbn [append]. specialize (P _ eq_refl).
    destruct (index 0 s (s ++ b)); [reflexivity | contradiction].
  - cbn [append index].
    destruct (prefix s (String ch (a ++ s ++ b))); [reflexivity |].
    destruct (index 0 s (a ++ s ++ b)); [reflexivity | discriminate].
Qed.

Lemma concat_middle (sep x : string) (l : list string) :
  In x l -> exists a b, String.concat sep l = a ++ x ++ b.
Proof.
  induction l as [| y l IH]; [contradiction |].
  intros [-> | H].
  - exists "". destruct l as [| z l].
    + exists "". cbn. rewrite append_empty_r. reflexivity.
    + exists (sep ++ String.concat sep (z :: l)). reflexivity.
  - destruct (IH H) as (a & b & E).
    destruct l as [| z l]; [contradiction |].
    exists (y ++ sep ++ a), b.
    change (String.concat sep (y :: z :: l))
      with (y ++ sep ++ String.concat sep (z :: l)).
    rewrite E, !append_assoc. reflexivity.
Qed.

(** X5: the content of the template of a properties object has, for every
    entry of the object, the piece [<b>key:</b> value] of that entry. *)
Theorem createPopupTemplate_content_has_entries
  (NumberToString : number -> string)
  (properties : Properties) (key : string) (v : scalar) :
  In (key, v) properties ->
  includes (content (createPopupTemplate NumberToString (Some properties)))
           ("<b>" ++ key ++ ":</b> " ++ ScalarToString NumberToString v)
  = true.
Proof.
  intros H.
  destruct properties as [| entry entries]; [contradiction |].
  cbn [createPopupTemplate content].
  destruct (concat_middle "<br>" (entry_line NumberToString (key, v))
              (map (entry_line NumberToString) (entry :: entries)))
    as (a & b & E).
  { apply in_map, H. }
  rewrite E. apply includes_middle.
Qed.

Lemma createPopupTemplate_content_has_entries_witness :
  includes
    (content (createPopupTemplate IntegerToString
                (Some [("id", SNumber (of_Z 7)); ("open", SBool true);
                       ("note", SNull)])))
    "<b>open:</b> true" = true.
Proof.
  apply (createPopupTemplate_content_has_entries IntegerToString
           [("id", SNumber (of_Z 7)); ("open", SBool true); ("note", SNull)]
           "open" (SBool true)).
  right; left; reflexivity.
Defined.

(** ** The accumulated box is the bounding box *)

Lemma precedes_Infinity (x : number) :
  numeric x -> x <> Infinity -> precedes x Infinity.
Proof.
  unfold numeric, Infinity.
  number_cases x; intros Hx Hne; try discriminate; try congruence;
    unfold precedes; cbn; lia.
Qed.

Lemma precedes_NegInfinity (x : number) :
  numeric x -> x <> NegInfinity -> precedes NegInfinity x.
Proof.
  unfold numeric, NegInfinity.
  number_cases x; intros Hx Hne; try discriminate; try congruence;
    unfold precedes; cbn; lia.
Qed.

Lemma number_eq_dec (x y : number) : {x = y} + {x <> y}.
Proof.
  decide equality; try apply Z.eq_dec; try apply Pos.eq_dec;
    apply Bool.bool_dec.
Qed.

Lemma Math_min_attained (v : value) (args : list value) :
  Forall numeric_value (v :: args) ->
  In (Math_min (v :: args)) (map ToNumber (v :: args)).
Proof.
  intros H. destruct (Math_min_extremum _ H) as [[E | Hin] Hr];
    [| exact Hin].
  left. destruct (number_eq_dec (ToNumber v) Infinity) as [E' | Hne];
    [congruence |].
  exfalso. apply (Hr (ToNumber v)); [right; left; reflexivity |].
  rewrite <- E. apply precedes_Infinity; [| exact Hne].
  inversion H; assumption.
Qed.

Lemma Math_max_attained (v : value) (args : list value) :
  Forall numeric_value (v :: args) ->
  In (Math_max (v :: args)) (map ToNumber (v :: args)).
Proof.
  intros H. destruct (Math_max_extremum _ H) as [[E | Hin] Hr];
    [| exact Hin].
  left. destruct (number_eq_dec (ToNumber v) NegInfinity) as [E' | Hne];
    [congruence |].
  exfalso. apply (Hr (ToNumber v)); [right; left; reflexivity |].
  rewrite <- E. unfold follows. apply precedes_NegInfinity; [| exact Hne].
  inversion H; assumption.
Qed.

Lemma numeric_position_items (p : value) :
  numeric_position p = true ->
  exists x y, item p 0 = Num x /\ item p 1 = Num y /\
              numeric x /\ numeric y.
Proof.
  intros H. destruct (numeric_position_inv p H)
    as (x & y & rest & -> & Hx & Hy).
  exists x, y. auto.
Qed.

(** The extent computed from a non-empty list of numeric positions is
    their bounding box. *)
Lemma extent_of_positions_bounding (c : value) (coords : list value) :
  Forall (fun c => numeric_position c = true) (c :: coords) ->
  bounding
    (Num (Math_min (map (fun c => item c 0) (c :: coords))),
     Num (Math_min (map (fun c => item c 1) (c :: coords))),
     Num (Math_max (map (fun c => item c 0) (c :: coords))),
     Num (Math_max (map (fun c => item c 1) (c :: coords))))
    (c :: coords).
Proof.
  intros H.
  pose proof (items_numeric _ 0 ltac:(lia) H) as HX.
  pose proof (items_numeric _ 1 ltac:(lia) H) as HY.
  assert (pick : forall (i : nat) (r : number),
             (i < 2)%nat ->
             In r (map ToNumber (map (fun c => item c i) (c :: coords))) ->
             exists p, In p (c :: coords) /\ Num r = item p i).
  { intros i r Hi Hin. rewrite map_map in Hin.
    apply in_map_iff in Hin. destruct Hin as [p [<- Hp]].
    exists p. split; [exact Hp |].
    rewrite Forall_forall in H.
    destruct (numeric_position_items p (H p Hp)) as (x & y & E0 & E1 & _).
    destruct i as [| [| i]]; [rewrite E0 | rewrite E1 | lia]; reflexivity. }
  split; [exact (extent_of_positions_ordered c coords H) |].
  split.
  - intros p Hp. unfold covers. cbn [ToNumber].
    assert (In0 : In (item p 0) (map (fun c => item c 0) (c :: coords)))
      by (apply in_map_iff; eauto).
    assert (In1 : In (item p 1) (map (fun c => item c 1) (c :: coords)))
      by (apply in_map_iff; eauto).
    repeat split.
    + exact (Math_min_lower _ _ HX In0).
    + exact (Math_max_upper _ _ HX In0).
    + exact (Math_min_lower _ _ HY In1).
    + exact (Math_max_upper _ _ HY In1).
  - unfold attained. repeat split.
    + apply (pick 0%nat); [lia | exact (Math_min_attained _ _ HX)].
    + apply (pick 1%nat); [lia | exact (Math_min_attained _ _ HY)].
    + apply (pick 0%nat); [lia | exact (Math_max_attained _ _ HX)].
    + apply (pick 1%nat); [lia | exact (Math_max_attained _ _ HY)].
Qed.

Lemma flat_elems_numeric_paths (l : list value) :
  forallb numeric_path l = true -> flat_elems l = flat_map elems l.
Proof.
  unfold flat_elems. induction l as [| path l IH]; [reflexivity |].
  cbn [forallb flat_map]. rewrite andb_true_iff. intros [Hp Hl].
  rewrite (IH Hl). destruct path; try discriminate. reflexivity.
Qed.

Lemma geometry_bounding (g : ArcGISGeometry) :
  numeric_geometry g = true ->
  exists e,
    geometry_extent g = Ok e /\
    bounding e (arcgis_positions g) /\
    Forall (fun p => numeric_position p = true) (arcgis_positions g).
Proof.
  assert (paths_case : forall paths,
    numeric_paths paths = true ->
    exists e,
      (coords <- flat paths ;;
       xs <- mapM (fun c => get c 0) coords ;;
       ys <- mapM (fun c => get c 1) coords ;;
       Ok (Num (Math_min xs), Num (Math_min ys),
           Num (Math_max xs), Num (Math_max ys))) = Ok e /\
      bounding e (flat_map elems (elems paths)) /\
      Forall (fun p => numeric_position p = true)
             (flat_map elems (elems paths))).
  { intros paths H.
    destruct (numeric_paths_inv paths H) as (l & c & coords & -> & E & Hc).
    assert (Hl : forallb numeric_path l = true).
    { cbn [numeric_paths] in H. apply andb_true_iff in H. tauto. }
    cbn [elems]. rewrite <- (flat_elems_numeric_paths l Hl), E.
    eexists. split; [| split; [apply extent_of_positions_bounding |]];
      try exact Hc.
    unfold flat. rewrite E. cbn [bind].
    rewrite !mapM_get by exact Hc. reflexivity. }
  destruct g as [lon lat | paths | rings | points]; cbn [numeric_geometry].
  - destruct lon as [| x |]; try discriminate.
    destruct lat as [| y |]; try discriminate.
    rewrite andb_true_iff, !negb_true_iff. intros [Hx Hy].
    eexists. split; [reflexivity |]. cbn [arcgis_positions]. split.
    + split; [| split].
      * unfold ordered_extent, numeric_value. cbn [ToNumber].
        repeat split; try assumption; apply precedes_irrefl.
      * intros p [<- | []]. unfold covers. cbn [item nth ToNumber].
        repeat split; apply precedes_irrefl.
      * unfold attained.
        repeat split; eexists; (split; [left; reflexivity | reflexivity]).
    + repeat constructor. cbn. rewrite Hx, Hy. reflexivity.
  - apply paths_case.
  - apply paths_case.
  - discriminate.
Qed.

Lemma attained_numbers (e : value * value * value * value)
  (positions : list value) :
  Forall (fun p => numeric_position p = true) positions ->
  attained e positions ->
  let '(minX, minY, maxX, maxY) := e in
  minX = Num (ToNumber minX) /\ minY = Num (ToNumber minY) /\
  maxX = Num (ToNumber maxX) /\ maxY = Num (ToNumber maxY).
Proof.
  destruct e as [[[minX minY] maxX] maxY]. intros H.
  rewrite Forall_forall in H.
  intros ((p1 & I1 & E1) & (p2 & I2 & E2) & (p3 & I3 & E3) & (p4 & I4 & E4)).
  destruct (numeric_position_items p1 (H p1 I1)) as (? & ? & F1 & _).
  destruct (numeric_position_items p2 (H p2 I2)) as (? & ? & _ & F2 & _).
  destruct (numeric_position_items p3 (H p3 I3)) as (? & ? & F3 & _).
  destruct (numeric_position_items p4 (H p4 I4)) as (? & ? & _ & F4 & _).
  subst. rewrite F1, F2, F3, F4. auto.
Qed.

Lemma covers_with_min (a b : value) (x : number) :
  numeric_value a -> numeric_value b ->
  ~ precedes x (ToNumber a) \/ ~ precedes x (ToNumber b) ->
  ~ precedes x (Math_min [a; b]).
Proof.
  intros Ha Hb H.
  assert (P : Forall numeric_value [a; b]) by (repeat constructor; assumption).
  destruct H as [H | H].
  - apply (not_precedes_trans _ (ToNumber a));
      [exact Ha | apply Math_min_numeric, P | exact H |].
    apply (Math_min_lower _ a P). left; reflexivity.
  - apply (not_precedes_trans _ (ToNumber b));
      [exact Hb | apply Math_min_numeric, P | exact H |].
    apply (Math_min_lower _ b P). right; left; reflexivity.
Qed.

Lemma covers_with_max (a b : value) (x : number) :
  numeric x -> numeric_value a -> numeric_value b ->
  ~ precedes (ToNumber a) x \/ ~ precedes (ToNumber b) x ->
  ~ precedes (Math_max [a; b]) x.
Proof.
  intros Hx Ha Hb H.
  assert (P : Forall numeric_value [a; b]) by (repeat constructor; assumption).
  destruct H as [H | H].
  - apply (not_precedes_trans _ (ToNumber a)); [exact Ha | exact Hx | | exact H].
    apply (Math_max_upper _ a P). left; reflexivity.
  - apply (not_precedes_trans _ (ToNumber b)); [exact Hb | exact Hx | | exact H].
    apply (Math_max_upper _ b P). right; left; reflexivity.
Qed.

Lemma mergeBounds_bounding (b : Bounds)
  (e : value * value * value * value) (S S' : list value) :
  Forall (fun p => numeric_position p = true) S ->
  Forall (fun p => numeric_position p = true) S' ->
  bounding (box_extent b) S -> bounding e S' ->
  bounding (box_extent (mergeBounds (Some b) e)) (S ++ S').
Proof.
  intros HS HS' (Ob & Cb & Ab) (Oe & Ce & Ae).
  split; [exact (mergeBounds_ordered (Some b) e Ob Oe) |].
  pose proof (attained_numbers _ _ HS Ab) as Nb.
  pose proof (attained_numbers _ _ HS' Ae) as Ne.
  destruct e as [[[minX minY] maxX] maxY].
  unfold box_extent in *. cbn [mergeBounds xmin ymin xmax ymax].
  destruct Ob as (Bx0 & By0 & Bx1 & By1 & _).
  destruct Oe as (Ex0 & Ey0 & Ex1 & Ey1 & _).
  destruct Nb as (Nbx0 & Nby0 & Nbx1 & Nby1).
  destruct Ne as (Nex0 & Ney0 & Nex1 & Ney1).
  split.
  - intros p Hp.
    assert (Hn : numeric_position p = true).
    { apply in_app_or in Hp. rewrite Forall_forall in HS, HS'.
      destruct Hp; auto. }
    destruct (numeric_position_items p Hn) as (x & y & E0 & E1 & Hx & Hy).
    unfold covers. cbn [ToNumber]. rewrite E0, E1. cbn [ToNumber].
    apply in_app_or in Hp. destruct Hp as [Hp | Hp].
    + pose proof (Cb p Hp) as C. unfold covers in C.
      rewrite E0, E1 in C. cbn [ToNumber] in C.
      destruct C as (C1 & C2 & C3 & C4).
      repeat split;
        [apply covers_with_min | apply covers_with_max
        | apply covers_with_min | apply covers_with_max]; auto.
    + pose proof (Ce p Hp) as C. unfold covers in C.
      rewrite E0, E1 in C. cbn [ToNumber] in C.
      destruct C as (C1 & C2 & C3 & C4).
      repeat split;
        [apply covers_with_min | apply covers_with_max
        | apply covers_with_min | apply covers_with_max]; auto.
  - destruct Ab as ((p1 & I1 & A1) & (p2 & I2 & A2) &
                    (p3 & I3 & A3) & (p4 & I4 & A4)).
    destruct Ae as ((q1 & J1 & B1) & (q2 & J2 & B2) &
                    (q3 & J3 & B3) & (q4 & J4 & B4)).
    assert (pick_min : forall u v p q i,
              numeric_value u -> numeric_value v ->
              u = Num (ToNumber u) -> v = Num (ToNumber v) ->
              In p S -> u = item p i -> In q S' -> v = item q i ->
              exists r, In r (S ++ S') /\ Num (Math_min [u; v]) = item r i).
    { intros u v p q i Hu Hv Nu Nv Ip Ep Iq Eq.
      assert (P : Forall numeric_value [u; v])
        by (repeat constructor; assumption).
      destruct (Math_min_attained _ _ P) as [E | [E | []]]; rewrite <- E.
      - exists p. split; [apply in_or_app; auto | congruence].
      - exists q. split; [apply in_or_app; auto | congruence]. }
    assert (pick_max : forall u v p q i,
              numeric_value u -> numeric_value v ->
              u = Num (ToNumber u) -> v = Num (ToNumber v) ->
              In p S -> u = item p i -> In q S' -> v = item q i ->
              exists r, In r (S ++ S') /\ Num (Math_max [u; v]) = item r i).
    { intros u v p q i Hu Hv Nu Nv Ip Ep Iq Eq.
      assert (P : Forall numeric_value [u; v])
        by (repeat constructor; assumption).
      destruct (Math_max_attained _ _ P) as [E | [E | []]]; rewrite <- E.
      - exists p. split; [apply in_or_app; auto | congruence].
      - exists q. split; [apply in_or_app; auto | congruence]. }
    unfold attained. repeat split.
    + exact (pick_min _ _ p1 q1 0%nat Bx0 Ex0 Nbx0 Nex0 I1 A1 J1 B1).
    + exact (pick_min _ _ p2 q2 1%nat By0 Ey0 Nby0 Ney0 I2 A2 J2 B2).
    + exact (pick_max _ _ p3 q3 0%nat Bx1 Ex1 Nbx1 Nex1 I3 A3 J3 B3).
    + exact (pick_max _ _ p4 q4 1%nat By1 Ey1 Nby1 Ney1 I4 A4 J4 B4).
Qed.

Lemma foldBounds_bounding_from (l : list ArcGISGeometry) :
  forallb numeric_geometry l = true ->
  forall (b : Bounds) (S : list value),
    Forall (fun p => numeric_position p = true) S ->
    bounding (box_extent b) S ->
    exists b',
      foldBounds l (Some b) = Ok (Some b') /\
      bounding (box_extent b') (S ++ all_positions l).
Proof.
  unfold foldBounds, all_positions.
  induction l as [| g l IH]; intros Hl b S HS Hb.
  - exists b. cbn. rewrite app_nil_r. auto.
  - cbn [forallb] in Hl. apply andb_true_iff in Hl. destruct Hl as [Hg Hl].
    destruct (geometry_bounding g Hg) as (e & E & He & Hp).
    cbn [forEach flat_map]. rewrite updateBounds_merge, E. cbn [bind].
    rewrite app_assoc. apply (IH Hl).
    + apply Forall_app. auto.
    + apply mergeBounds_bounding; assumption.
Qed.

Lemma foldBounds_bounding (l : list ArcGISGeometry) :
  l <> [] -> forallb numeric_geometry l = true ->
  exists b,
    foldBounds l None = Ok (Some b) /\
    bounding (box_extent b) (all_positions l) /\
    Forall (fun p => numeric_position p = true) (all_positions l).
Proof.
  intros Hne Hl. destruct l as [| g l]; [congruence |].
  pose proof Hl as Hl'.
  cbn [forallb] in Hl. apply andb_true_iff in Hl. destruct Hl as [Hg Hl].
  destruct (geometry_bounding g Hg) as (e & E & He & Hp).
  assert (Hb : bounding (box_extent (mergeBounds None e))
                        (arcgis_positions g)).
  { destruct e as [[[a b] c] d]. exact He. }
  destruct (foldBounds_bounding_from l Hl _ _ Hp Hb) as (b' & F & B).
  exists b'. split; [| split; [exact B |]].
  - unfold foldBounds in *. cbn [forEach].
    rewrite updateBounds_merge, E. exact F.
  - unfold all_positions. cbn [flat_map]. apply Forall_app. split; [exact Hp |].
    apply Forall_flat_map. rewrite forallb_forall in Hl.
    apply Forall_forall. intros g' Hg'.
    destruct (geometry_bounding g' (Hl g' Hg')) as (_ & _ & _ & H). exact H.
Qed.

(** X6: the box accumulated over numeric points, polylines and polygons
    that each have a position contains every position of every one of
    them. *)
Theorem foldBounds_contains_all (l : list ArcGISGeometry) :
  l <> [] -> forallb numeric_geometry l = true ->
  exists b,
    foldBounds l None = Ok (Some b) /\
    forall p, In p (all_positions l) -> contains b p = true.
Proof.
  intros Hne Hl.
  destruct (foldBounds_bounding l Hne Hl) as (b & F & (Ob & Cb & _) & HS).
  exists b. split; [exact F |]. intros p Hp.
  rewrite Forall_forall in HS.
  destruct (numeric_position_items p (HS p Hp)) as (x & y & E0 & E1 & Hx & Hy).
  destruct Ob as (Bx0 & By0 & Bx1 & By1 & _).
  pose proof (Cb p Hp) as C. unfold covers, box_extent in C.
  rewrite E0, E1 in C. cbn [ToNumber] in C.
  destruct C as (C1 & C2 & C3 & C4).
  unfold contains, le. rewrite E0, E1. cbn [ToNumber].
  rewrite !andb_true_iff.
  repeat split; apply leb_of_not_precedes; assumption.
Qed.

Lemma foldBounds_contains_all_witness :
  exists b,
    foldBounds [sample_polyline; sample_point; sample_polygon] None
      = Ok (Some b) /\
    forall p,
      In p (all_positions [sample_polyline; sample_point; sample_polygon]) ->
      contains b p = true.
Proof.
  apply (foldBounds_contains_all
           [sample_polyline; sample_point; sample_polygon]);
    [discriminate | reflexivity].
Defined.

(** X7: that box is tight: each of its four members is the longitude or
    the latitude of one of the positions. *)
Theorem foldBounds_tight (l : list ArcGISGeometry) :
  l <> [] -> forallb numeric_geometry l = true ->
  exists b,
    foldBounds l None = Ok (Some b) /\
    (exists p, In p (all_positions l) /\ xmin b = item p 0) /\
    (exists p, In p (all_positions l) /\ ymin b = item p 1) /\
    (exists p, In p (all_positions l) /\ xmax b = item p 0) /\
    (exists p, In p (all_positions l) /\ ymax b = item p 1).
Proof.
  intros Hne Hl.
  destruct (foldBounds_bounding l Hne Hl) as (b & F & (_ & _ & Ab) & _).
  exists b. split; [exact F | exact Ab].
Qed.

Lemma foldBounds_tight_witness :
  exists b,
    foldBounds [sample_polyline; sample_point; sample_polygon] None
      = Ok (Some b) /\
    (exists p,
       In p (all_positions [sample_polyline; sample_point; sample_polygon]) /\
       xmin b = item p 0) /\
    (exists p,
       In p (all_positions [sample_polyline; sample_point; sample_polygon]) /\
       ymin b = item p 1) /\
    (exists p,
       In p (all_positions [sample_polyline; sample_point; sample_polygon]) /\
       xmax b = item p 0) /\
    (exists p,
       In p (all_positions [sample_polyline; sample_point; sample_polygon]) /\
       ymax b = item p 1).
Proof.
  apply (foldBounds_tight [sample_polyline; sample_point; sample_polygon]);
    [discriminate | reflexivity].
Defined.

(** ** Multipoints and [NaN] *)

Lemma foldBounds_nan_box (l : list ArcGISGeometry) :
  foldBounds l (Some nan_box) = Throw TypeError \/
  foldBounds l (Some nan_box) = Ok (Some nan_box).
Proof.
  unfold foldBounds. induction l as [| g l IH]; [right; reflexivity |].
  cbn [forEach]. rewrite updateBounds_merge.
  destruct (geometry_extent g) as [[[[a b] c] d] | []]; cbn [bind];
    [| left; reflexivity].
  exact IH.
Qed.

(** X8: a multipoint spoils the box of a whole collection: when a list of
    two or more geometries has a multipoint in it, whatever the other
    geometries and wherever the multipoint stands, folding [updateBounds]
    either throws or ends with [NaN] in all four members. *)
Theorem foldBounds_multipoint_nan (l : list ArcGISGeometry) (points : value) :
  In (multipoint points) l -> (2 <= List.length l)%nat ->
  foldBounds l None = Throw TypeError \/
  foldBounds l None = Ok (Some nan_box).
Proof.
  intros Hin Hlen.
  destruct (in_split _ _ Hin) as (l1 & l2 & ->).
  rewrite (foldBounds_permutation_from _ (multipoint points :: l1 ++ l2)%list
             (Permutation_sym (Permutation_middle l1 l2 (multipoint points)))
             None).
  destruct (l1 ++ l2)%list as [| g rest] eqn:E.
  { rewrite length_app in Hlen. cbn in Hlen.
    apply (f_equal (@List.length _)) in E. rewrite length_app in E.
    cbn in E. lia. }
  unfold foldBounds. cbn [forEach].
  rewrite updateBounds_merge. cbn [geometry_extent bind].
  rewrite updateBounds_merge.
  destruct (geometry_extent g) as [[[[a b] c] d] | []]; cbn [bind];
    [| left; reflexivity].
  exact (foldBounds_nan_box rest).
Qed.

Lemma foldBounds_multipoint_nan_witness :
  foldBounds [sample_polygon; sample_multipoint; sample_point] None
    = Throw TypeError \/
  foldBounds [sample_polygon; sample_multipoint; sample_point] None
    = Ok (Some nan_box).
Proof.
  apply (foldBounds_multipoint_nan
           [sample_polygon; sample_multipoint; sample_point]
           (Arr [pos 1 2; pos 3 4])).
  - right; left; reflexivity.
  - cbn. lia.
Defined.

(** ** The box only grows *)

Lemma leb_trans (x y z : number) :
  leb x y = true -> leb y z = true -> leb x z = true.
Proof.
  number_cases x; number_cases y; number_cases z;
    unfold leb, SFleb, SFcompare; compare_cases; cbn; intros;
    first [reflexivity | discriminate | exfalso; lia].
Qed.

Lemma Math_min_pair_leb (a b : value) :
  numeric_value a -> numeric_value b ->
  leb (Math_min [a; b]) (ToNumber a) = true.
Proof.
  intros Ha Hb.
  assert (P : Forall numeric_value [a; b]) by (repeat constructor; assumption).
  apply leb_of_not_precedes; [apply Math_min_numeric, P | exact Ha |].
  apply (Math_min_lower _ a P). left; reflexivity.
Qed.

Lemma Math_max_pair_leb (a b : value) :
  numeric_value a -> numeric_value b ->
  leb (ToNumber a) (Math_max [a; b]) = true.
Proof.
  intros Ha Hb.
  assert (P : Forall numeric_value [a; b]) by (repeat constructor; assumption).
  apply leb_of_not_precedes; [exact Ha | apply Math_max_numeric, P |].
  apply (Math_max_upper _ a P). left; reflexivity.
Qed.

(** X9: [updateBounds] never shrinks a box: when the members of the box
    are numbers other than [NaN] and the geometry is a numeric point,
    polyline or polygon with a position, whatever the box contained it
    still contains afterwards. *)
Theorem updateBounds_grows (b : Bounds) (g : ArcGISGeometry) :
  numeric_value (xmin b) -> numeric_value (ymin b) ->
  numeric_value (xmax b) -> numeric_value (ymax b) ->
  numeric_geometry g = true ->
  exists b',
    updateBounds (Some b) (Some g) = Ok (Some b') /\
    forall p, contains b p = true -> contains b' p = true.
Proof.
  intros Hx0 Hy0 Hx1 Hy1 Hg.
  destruct (geometry_extent_ordered g Hg)
    as ([[[minX minY] maxX] maxY] & E & (Ex0 & Ey0 & Ex1 & Ey1 & _)).
  rewrite updateBounds_merge, E. cbn [bind mergeBounds].
  eexists. split; [reflexivity |].
  intros p. unfold contains, le. cbn [xmin ymin xmax ymax ToNumber].
  rewrite !andb_true_iff. intros [[[C1 C2] C3] C4].
  repeat split.
  - exact (leb_trans _ _ _ (Math_min_pair_leb _ _ Hx0 Ex0) C1).
  - exact (leb_trans _ _ _ C2 (Math_max_pair_leb _ _ Hx1 Ex1)).
  - exact (leb_trans _ _ _ (Math_min_pair_leb _ _ Hy0 Ey0) C3).
  - exact (leb_trans _ _ _ C4 (Math_max_pair_leb _ _ Hy1 Ey1)).
Qed.

Lemma updateBounds_grows_witness :
  exists b',
    updateBounds (Some sample_point_box) (Some sample_polygon)
      = Ok (Some b') /\
    forall p, contains sample_point_box p = true -> contains b' p = true.
Proof.
  apply (updateBounds_grows sample_point_box sample_polygon);
    reflexivity.
Defined.

(** ** Feeding a geometry twice *)

Lemma Math_min_pair_idem (u v : value) :
  Math_min [Num (Math_min [u; v]); v] = Math_min [u; v].
Proof.
  unfold Math_min. cbn [map ToNumber].
  set (a := ToNumber u). set (b := ToNumber v).
  destruct (is_nan a) eqn:Ha.
  { cbn [min_from]. rewrite Ha. reflexivity. }
  destruct (is_nan b) eqn:Hb.
  { cbn [min_from]. rewrite Ha, Hb.
    destruct (is_nan (min_from (min_step Infinity a) [])); reflexivity. }
  apply (extremum_unique precedes precedes_total [Infinity; a; b]).
  - repeat constructor; assumption.
  - apply (extremum_incl precedes [Infinity; a; b; b]).
    + intros x [<- | [<- | [<- | [<- | []]]]]; cbn; auto.
    + intros x [<- | [<- | [<- | []]]]; cbn; auto.
    + apply (from_pair_extremum3 precedes) with (step := min_step);
        try reflexivity; try assumption.
      * apply precedes_irrefl.
      * apply precedes_trans.
      * apply precedes_total.
      * apply min_step_spec.
  - apply (from_extremum precedes) with (step := min_step);
      try reflexivity.
    + apply precedes_irrefl.
    + apply precedes_trans.
    + apply precedes_total.
    + apply min_step_spec.
    + repeat constructor; assumption.
Qed.

Lemma Math_max_pair_idem (u v : value) :
  Math_max [Num (Math_max [u; v]); v] = Math_max [u; v].
Proof.
  unfold Math_max. cbn [map ToNumber].
  set (a := ToNumber u). set (b := ToNumber v).
  destruct (is_nan a) eqn:Ha.
  { cbn [max_from]. rewrite Ha. reflexivity. }
  destruct (is_nan b) eqn:Hb.
  { cbn [max_from]. rewrite Ha, Hb.
    destruct (is_nan (max_from (max_step NegInfinity a) [])); reflexivity. }
  assert (T : forall x y z, follows x y -> follows y z -> follows x z).
  { intros x y z H H'. exact (precedes_trans z y x H' H). }
  assert (I : forall x, ~ follows x x) by (intros x; apply precedes_irrefl).
  apply (extremum_unique follows follows_total [NegInfinity; a; b]).
  - repeat constructor; assumption.
  - apply (extremum_incl follows [NegInfinity; a; b; b]).
    + intros x [<- | [<- | [<- | [<- | []]]]]; cbn; auto.
    + intros x [<- | [<- | [<- | []]]]; cbn; auto.
    + apply (from_pair_extremum3 follows) with (step := max_step);
        try reflexivity; try assumption.
      * apply follows_total.
      * apply max_step_spec.
  - apply (from_extremum follows) with (step := max_step);
      try reflexivity; try assumption.
    + apply follows_total.
    + apply max_step_spec.
    + repeat constructor; assumption.
Qed.

(** X10: once there is a box, a geometry fed to [updateBounds] a second
    time changes nothing: the result is the one of feeding it once. *)
Theorem updateBounds_twice (b : Bounds) (g : ArcGISGeometry)
  (l : list ArcGISGeometry) :
  foldBounds (g :: g :: l) (Some b) = foldBounds (g :: l) (Some b).
Proof.
  unfold foldBounds. cbn [forEach]. rewrite updateBounds_merge.
  destruct (geometry_extent g) as [[[[minX minY] maxX] maxY] | []] eqn:E;
    cbn [bind]; [| reflexivity].
  rewrite updateBounds_merge, E. cbn [bind mergeBounds].
  cbn [xmin ymin xmax ymax spatialReference].
  rewrite !Math_min_pair_idem, !Math_max_pair_idem. reflexivity.
Qed.

(** ** The graphics of a collection *)

Section Graphics.

Variable NumberToString : number -> string.

Lemma createGraphicFromGeoJSON_cases (f : Feature.t) :
  match createGraphicFromGeoJSON NumberToString f with
  | Ok (Some graphic) =>
      supported_feature f = true /\
      attributes graphic = attributes_of f /\
      popupTemplate graphic =
        createPopupTemplate NumberToString (Feature.properties f)
  | Ok None => supported_feature f = false
  | Throw _ => True
  end.
Proof.
  destruct f as [[g |] p]; unfold createGraphicFromGeoJSON, supported_feature;
    cbn [Feature.geometry Feature.properties]; [| exact I].
  destruct (supported (Geometry.type g)) eqn:Hs.
  - destruct (convertGeoJSONGeometry g) as [[g' |] | e] eqn:E; cbn [bind].
    + cbn [attributes popupTemplate]. auto.
    + exfalso. destruct g as [type c].
      cbn [Geometry.type] in Hs. unfold convertGeoJSONGeometry in E.
      cbn [Geometry.type Geometry.coordinates] in E.
      destruct (supported_cases type Hs)
        as [-> | [-> | [-> | [-> | [-> | ->]]]]];
        cbn in E; try discriminate; destruct c; discriminate.
    + exact I.
  - rewrite (convertGeoJSONGeometry_unsupported g Hs). reflexivity.
Qed.

Lemma mapM_createGraphic (features : list Feature.t) :
  forall gs,
    mapM (createGraphicFromGeoJSON NumberToString) features = Ok gs ->
    map attributes (somes gs) =
      map attributes_of (filter supported_feature features) /\
    map popupTemplate (somes gs) =
      map (fun f => createPopupTemplate NumberToString (Feature.properties f))
          (filter supported_feature features).
Proof.
  induction features as [| f fs IH]; intros gs.
  - intros H. inversion H. split; reflexivity.
  - cbn [mapM filter].
    pose proof (createGraphicFromGeoJSON_cases f) as C.
    destruct (createGraphicFromGeoJSON NumberToString f)
      as [[graphic |] | e]; cbn [bind]; [| | discriminate].
    + destruct (mapM (createGraphicFromGeoJSON NumberToString) fs)
        as [gs' |]; cbn [bind]; [| discriminate].
      intros H. inversion H. subst gs.
      destruct C as (-> & Ea & Ep). destruct (IH gs' eq_refl) as [IHa IHp].
      cbn [somes flat_map app map]. fold (somes gs').
      rewrite Ea, Ep, IHa, IHp. split; reflexivity.
    + destruct (mapM (createGraphicFromGeoJSON NumberToString) fs)
        as [gs' |]; cbn [bind]; [| discriminate].
      intros H. inversion H. subst gs. rewrite C.
      exact (IH gs' eq_refl).
Qed.

Lemma importFeatures_inv (features : list Feature.t) (r : Loaded) :
  importFeatures NumberToString features = Ok r ->
  exists gs,
    mapM (createGraphicFromGeoJSON NumberToString) features = Ok gs /\
    graphics r = somes gs /\
    foldBounds (map geometry (somes gs)) None = Ok (bounds r) /\
    goTo r = option_map (fun b => expand NumberToString b lit_1_2) (bounds r).
Proof.
  unfold importFeatures.
  destruct (mapM (createGraphicFromGeoJSON NumberToString) features)
    as [gs |]; cbn [bind]; [| discriminate].
  destruct (foldBounds (map geometry (somes gs)) None) as [b |] eqn:F;
    cbn [bind]; [| discriminate].
  intros H. injection H as <-. exists gs. cbn [graphics bounds goTo].
  repeat split; try reflexivity. exact F.
Qed.

Lemma loadGeoJSON_Feature (features : option (list Feature.t))
  (g : option Geometry.t) (p : option Properties) :
  loadGeoJSON NumberToString (Document.Build "Feature" features g p) =
  importFeatures NumberToString [Feature.Build g p].
Proof.
  rewrite <- (loadGeoJSON_FeatureCollection NumberToString
                [Feature.Build g p] g p).
  unfold loadGeoJSON.
  cbn [Document.type Document.features Document.as_feature
       Document.geometry Document.properties
       String.eqb Ascii.eqb Bool.eqb forEach].
  rewrite !bind_assoc. apply bind_ext. intros [gs b]. reflexivity.
Qed.

Lemma mapM_throw {A B} (f : A -> result B) (l : list A) (x : A) :
  In x l -> f x = Throw TypeError -> mapM f l = Throw TypeError.
Proof.
  induction l as [| y l IH]; [contradiction |].
  intros [-> | H] E; cbn [mapM].
  - rewrite E. reflexivity.
  - rewrite (IH H E). destruct (f y) as [b | []]; reflexivity.
Qed.

End Graphics.

(** X11: when a FeatureCollection loads, its graphics stand for the
    features of a supported geometry type, one each and in the order of the
    collection; each carries the properties of its feature as attributes
    and the popup made from them. *)
Theorem loadGeoJSON_graphics (NumberToString : number -> string)
  (features : list Feature.t)
  (dg : option Geometry.t) (dp : option Properties) (r : Loaded) :
  loadGeoJSON NumberToString
    (Document.Build "FeatureCollection" (Some features) dg dp) = Ok r ->
  map attributes (graphics r) =
    map attributes_of (filter supported_feature features) /\
  map popupTemplate (graphics r) =
    map (fun f => createPopupTemplate NumberToString (Feature.properties f))
        (filter supported_feature features) /\
  (List.length (graphics r) <= List.length features)%nat.
Proof.
  rewrite loadGeoJSON_FeatureCollection. intros H.
  destruct (importFeatures_inv NumberToString features r H)
    as (gs & M & -> & _).
  destruct (mapM_createGraphic NumberToString features gs M) as [Ea Ep].
  repeat split; [exact Ea | exact Ep |].
  rewrite <- (length_map attributes), Ea, length_map.
  apply filter_length_le.
Qed.

Lemma loadGeoJSON_graphics_witness :
  exists r,
    loadGeoJSON IntegerToString
      (Document.Build "FeatureCollection"
         (Some [sample_point_feature; sample_collection_feature;
                sample_polygon_feature]) None None) = Ok r /\
    map attributes (graphics r) = [[]; sample_properties].
Proof.
  eexists. split; [reflexivity |].
  apply (loadGeoJSON_graphics IntegerToString
           [sample_point_feature; sample_collection_feature;
            sample_polygon_feature] None None).
  reflexivity.
Defined.

(** X12: a feature without a geometry, or with one the conversion throws
    on, aborts the load of the whole collection: nothing is returned for
    the other features either. *)
Theorem loadGeoJSON_aborts (NumberToString : number -> string)
  (features : list Feature.t) (f : Feature.t)
  (dg : option Geometry.t) (dp : option Properties) :
  In f features ->
  (Feature.geometry f = None \/
   exists g, Feature.geometry f = Some g /\
             convertGeoJSONGeometry g = Throw TypeError) ->
  loadGeoJSON NumberToString
    (Document.Build "FeatureCollection" (Some features) dg dp)
  = Throw TypeError.
Proof.
  intros Hin Hf. rewrite loadGeoJSON_FeatureCollection.
  unfold importFeatures.
  rewrite (mapM_throw (createGraphicFromGeoJSON NumberToString)
             features f Hin); [reflexivity |].
  unfold createGraphicFromGeoJSON.
  destruct Hf as [-> | (g & -> & ->)]; reflexivity.
Qed.

Lemma loadGeoJSON_aborts_witness :
  loadGeoJSON IntegerToString
    (Document.Build "FeatureCollection"
       (Some [sample_point_feature; Feature.Build None None;
              sample_polygon_feature]) None None)
  = Throw TypeError.
Proof.
  apply (loadGeoJSON_aborts IntegerToString _ (Feature.Build None None)).
  - right; left; reflexivity.
  - left; reflexivity.
Defined.

(** ** When the view is moved *)

Lemma foldBounds_some (l : list ArcGISGeometry) :
  forall b0 b, foldBounds l (Some b0) = Ok b -> b <> None.
Proof.
  unfold foldBounds. induction l as [| g l IH]; intros b0 b.
  - cbn. intros H. inversion H. discriminate.
  - cbn [forEach]. rewrite updateBounds_merge.
    destruct (geometry_extent g) as [e |]; cbn [bind]; [| discriminate].
    apply IH.
Qed.

Lemma foldBounds_none_iff (l : list ArcGISGeometry) (b : option Bounds) :
  foldBounds l None = Ok b -> (l = [] <-> b = None).
Proof.
  destruct l as [| g l].
  - cbn. intros H. inversion H. tauto.
  - unfold foldBounds. cbn [forEach]. rewrite updateBounds_merge.
    destruct (geometry_extent g) as [e |]; cbn [bind]; [| discriminate].
    intros H. apply foldBounds_some in H.
    split; [discriminate | contradiction].
Qed.

(** X13: when a document loads, the view is sent to an extent exactly when
    at least one graphic was made: no graphic, no box and no move; some
    graphic, a box and a move. *)
Theorem loadGeoJSON_view (NumberToString : number -> string)
  (d : Document.t) (r : Loaded) :
  loadGeoJSON NumberToString d = Ok r ->
  (graphics r = [] <-> bounds r = None) /\
  (bounds r = None <-> goTo r = None).
Proof.
  assert (import :
    forall features,
      importFeatures NumberToString features = Ok r ->
      (graphics r = [] <-> bounds r = None) /\
      (bounds r = None <-> goTo r = None)).
  { intros features H.
    destruct (importFeatures_inv NumberToString features r H)
      as (gs & _ & Eg & F & Et).
    rewrite Eg, Et. split.
    - rewrite <- (foldBounds_none_iff _ _ F).
      destruct (somes gs); cbn; split; intros; congruence.
    - destruct (bounds r); cbn; split; intros; congruence. }
  destruct d as [type fs g p].
  destruct (String.eqb_spec type "FeatureCollection") as [-> | H1].
  { destruct fs as [features |]; [| discriminate].
    rewrite loadGeoJSON_FeatureCollection. apply import. }
  destruct (String.eqb_spec type "Feature") as [-> | H2].
  { rewrite loadGeoJSON_Feature. apply import. }
  unfold loadGeoJSON. cbn [Document.type].
  apply String.eqb_neq in H1, H2. rewrite H1, H2. cbn [bind].
  intros H. inversion H. cbn. tauto.
Qed.

Lemma loadGeoJSON_view_witness :
  exists r,
    loadGeoJSON IntegerToString
      (Document.Build "FeatureCollection"
         (Some [sample_collection_feature]) None None) = Ok r /\
    (graphics r = [] <-> bounds r = None) /\
    (bounds r = None <-> goTo r = None).
Proof.
  eexists. split; [reflexivity |].
  apply (loadGeoJSON_view IntegerToString
           (Document.Build "FeatureCollection"
              (Some [sample_collection_feature]) None None)).
  reflexivity.
Defined.

(** ** From the document to the box *)

Lemma contains_lonlat (b : Bounds) (p q : value) :
  lonlat p = lonlat q -> contains b p = contains b q.
Proof.
  unfold lonlat, contains. intros H. inversion H as [[H0 H1]].
  rewrite H0, H1. reflexivity.
Qed.

Lemma forallb_numeric_polygon (polys : list value) :
  forallb numeric_polygon polys = true ->
  forallb numeric_path (flat_elems polys) = true /\
  flat_elems polys = flat_map elems polys.
Proof.
  unfold flat_elems. induction polys as [| poly polys IH]; [auto |].
  cbn [forallb flat_map]. rewrite andb_true_iff. intros [Hp Hl].
  destruct (IH Hl) as [IH1 IH2]. rewrite forallb_app, IH1, IH2.
  destruct poly as [| n | rings]; try discriminate.
  cbn [numeric_polygon] in Hp. rewrite Hp. auto.
Qed.

Lemma convertGeoJSONGeometry_numeric (g : Geometry.t) :
  numeric_geojson g = true ->
  exists g',
    convertGeoJSONGeometry g = Ok (Some g') /\
    numeric_geometry g' = true /\
    map lonlat (arcgis_positions g') = map lonlat (geojson_positions g).
Proof.
  destruct g as [type c].
  unfold numeric_geojson, convertGeoJSONGeometry, geojson_positions.
  cbn [Geometry.type Geometry.coordinates].
  destruct (String.eqb_spec type "Point") as [-> | H1].
  { intros H. destruct (numeric_position_inv c H)
      as (x & y & rest & -> & Hx & Hy).
    eexists. split; [reflexivity |]. split; [| reflexivity].
    cbn. unfold numeric in Hx, Hy. rewrite Hx, Hy. reflexivity. }
  destruct (String.eqb_spec type "LineString") as [-> | H2].
  { intros H. eexists. split; [reflexivity |]. split; [exact H |].
    cbn. rewrite app_nil_r. reflexivity. }
  destruct (String.eqb_spec type "Polygon") as [-> | H3].
  { intros H. eexists. split; [reflexivity |]. split; [exact H |].
    reflexivity. }
  destruct (String.eqb_spec type "MultiPoint") as [-> | H4];
    [discriminate |].
  destruct (String.eqb_spec type "MultiLineString") as [-> | H5].
  { intros H. eexists. split; [reflexivity |]. split; [exact H |].
    reflexivity. }
  destruct (String.eqb_spec type "MultiPolygon") as [-> | H6];
    [| discriminate].
  cbn [orb]. destruct c as [| n | polys]; try discriminate.
  rewrite andb_true_iff. intros [Hp Hne].
  destruct (forallb_numeric_polygon polys Hp) as [Hr Ef].
  eexists. split; [reflexivity |]. split.
  - cbn [numeric_geometry numeric_paths]. rewrite Hr. cbn [andb].
    rewrite (flat_elems_numeric_paths _ Hr), Ef. exact Hne.
  - cbn [arcgis_positions elems]. rewrite Ef. reflexivity.
Qed.

Section Coverage.

Variable NumberToString : number -> string.

Lemma mapM_numeric_features (features : list Feature.t) :
  forallb numeric_feature features = true ->
  exists gr,
    mapM (createGraphicFromGeoJSON NumberToString) features
      = Ok (map Some gr) /\
    forallb numeric_geometry (map geometry gr) = true /\
    List.length gr = List.length features /\
    forall f g p,
      In f features -> Feature.geometry f = Some g ->
      In p (geojson_positions g) ->
      exists q, In q (all_positions (map geometry gr)) /\
                lonlat q = lonlat p.
Proof.
  induction features as [| f fs IH].
  - intros _. exists []. repeat split. intros f g p [].
  - cbn [forallb]. rewrite andb_true_iff. intros [Hf Hfs].
    destruct (IH Hfs) as (gr & M & N & L & P).
    destruct f as [[g |] props]; [| discriminate].
    cbn [numeric_feature Feature.geometry] in Hf.
    destruct (convertGeoJSONGeometry_numeric g Hf) as (g' & E & Ng & Pg).
    eexists ({| geometry := g' |} :: gr).
    cbn [mapM]. unfold createGraphicFromGeoJSON at 1.
    cbn [Feature.geometry Feature.properties]. rewrite E. cbn [bind].
    rewrite M. cbn [bind map geometry forallb List.length].
    rewrite Ng, N, L. repeat split.
    intros f0 g0 p [<- | Hin] Eg Hp.
    + cbn [Feature.geometry] in Eg. inversion Eg. subst g0.
      apply (in_map lonlat) in Hp. rewrite <- Pg in Hp.
      apply in_map_iff in Hp. destruct Hp as (q & Eq & Hq).
      exists q. split; [| exact Eq].
      unfold all_positions. cbn [flat_map]. apply in_or_app. auto.
    + destruct (P f0 g0 p Hin Eg Hp) as (q & Hq & Eq).
      exists q. split; [| exact Eq].
      unfold all_positions. cbn [flat_map]. apply in_or_app. auto.
Qed.

Lemma somes_map_Some {A} (l : list A) : somes (map Some l) = l.
Proof.
  unfold somes. induction l as [| x l IH]; [reflexivity |].
  cbn. rewrite IH. reflexivity.
Qed.

Lemma bounding_contains (b : Bounds) (positions : list value) (p : value) :
  bounding (box_extent b) positions ->
  Forall (fun p => numeric_position p = true) positions ->
  In p positions -> contains b p = true.
Proof.
  intros (Ob & Cb & _) HS Hp.
  rewrite Forall_forall in HS.
  destruct (numeric_position_items p (HS p Hp)) as (x & y & E0 & E1 & Hx & Hy).
  destruct Ob as (Bx0 & By0 & Bx1 & By1 & _).
  pose proof (Cb p Hp) as C. unfold covers, box_extent in C.
  rewrite E0, E1 in C. cbn [ToNumber] in C.
  destruct C as (C1 & C2 & C3 & C4).
  unfold contains, le. rewrite E0, E1. cbn [ToNumber].
  rewrite !andb_true_iff.
  repeat split; apply leb_of_not_precedes; assumption.
Qed.

End Coverage.

(** X14: a FeatureCollection with at least one feature, all of them
    Points, LineStrings, Polygons, MultiLineStrings or MultiPolygons with
    numeric positions (and a position each), loads: there is one graphic
    for each feature, and the box contains every position of every
    feature of the document. *)
Theorem loadGeoJSON_box_contains_document
  (NumberToString : number -> string) (features : list Feature.t)
  (dg : option Geometry.t) (dp : option Properties) :
  features <> [] ->
  forallb numeric_feature features = true ->
  exists r b,
    loadGeoJSON NumberToString
      (Document.Build "FeatureCollection" (Some features) dg dp) = Ok r /\
    List.length (graphics r) = List.length features /\
    bounds r = Some b /\
    forall f g p,
      In f features -> Feature.geometry f = Some g ->
      In p (geojson_positions g) -> contains b p = true.
Proof.
  intros Hne Hn.
  destruct (mapM_numeric_features NumberToString features Hn)
    as (gr & M & N & L & P).
  assert (Hgr : map geometry gr <> []).
  { destruct gr; [| discriminate]. destruct features; [congruence |].
    discriminate. }
  destruct (foldBounds_bounding (map geometry gr) Hgr N)
    as (b & F & B & HS).
  rewrite loadGeoJSON_FeatureCollection. unfold importFeatures.
  rewrite M. cbn [bind]. rewrite somes_map_Some, F. cbn [bind].
  eexists. exists b. split; [reflexivity |].
  cbn [graphics bounds]. repeat split; [exact L |].
  intros f g p Hf Eg Hp.
  destruct (P f g p Hf Eg Hp) as (q & Hq & Eq).
  rewrite <- (contains_lonlat b q p Eq).
  exact (bounding_contains b _ q B HS Hq).
Qed.

Lemma loadGeoJSON_box_contains_document_witness :
  exists r b,
    loadGeoJSON IntegerToString
      (Document.Build "FeatureCollection"
         (Some [sample_line_feature; sample_multipolygon_feature;
                sample_point_feature]) None None) = Ok r /\
    List.length (graphics r) = 3%nat /\
    bounds r = Some b /\
    forall f g p,
      In f [sample_line_feature; sample_multipolygon_feature;
            sample_point_feature] ->
      Feature.geometry f = Some g ->
      In p (geojson_positions g) -> contains b p = true.
Proof.
  apply (loadGeoJSON_box_contains_document IntegerToString
           [sample_line_feature; sample_multipolygon_feature;
            sample_point_feature] None None);
    [discriminate | reflexivity].
Defined.

(** * Properties of the page *)

(** ** Maps *)

Lemma Map_get_None {V} (key : string) (m : Map V) :
  Map_get key m = None <-> ~ In key (map fst m).
Proof.
  induction m as [| [k v] m IH]; cbn; [tauto |].
  destruct (String.eqb_spec k key) as [-> | H].
  - split; [discriminate | intros H; exfalso; apply H; auto].
  - rewrite IH. split; [intros H' [E | I]; auto | intros H' I; auto].
Qed.

Lemma Map_get_In {V} (key : string) (v : V) (m : Map V) :
  Map_get key m = Some v -> In (key, v) m.
Proof.
  induction m as [| [k x] m IH]; cbn; [discriminate |].
  destruct (String.eqb_spec k key) as [-> | H].
  - intros E. inversion E. auto.
  - auto.
Qed.

Lemma Map_delete_In {V} (key : string) (m : Map V) (entry : string * V) :
  In entry (Map_delete key m) <-> In entry m /\ fst entry <> key.
Proof.
  unfold Map_delete. rewrite filter_In, negb_true_iff, String.eqb_neq.
  tauto.
Qed.

Lemma Map_delete_set {V} (key : string) (v : V) (m : Map V) :
  ~ In key (map fst m) -> Map_delete key (Map_set key v m) = m.
Proof.
  unfold Map_delete. induction m as [| [k x] m IH]; cbn.
  - intros _. rewrite String.eqb_refl. reflexivity.
  - intros H. destruct (String.eqb_spec k key) as [-> | Hk].
    + exfalso. auto.
    + cbn. apply String.eqb_neq in Hk. rewrite Hk. cbn.
      rewrite IH; auto.
Qed.

Lemma Map_get_delete {V} (key : string) (m : Map V) :
  Map_get key (Map_delete key m) = None.
Proof.
  apply Map_get_None. intros H. apply in_map_iff in H.
  destruct H as (entry & <- & H). apply Map_delete_In in H. tauto.
Qed.

(** [set] replaces the entry of a present key where it stands and puts a
    new key last. *)
Lemma Map_set_shape {V} (key : string) (v : V) (m : Map V) :
  (exists m1 x m2,
     m = (m1 ++ (key, x) :: m2)%list /\
     Map_set key v m = (m1 ++ (key, v) :: m2)%list) \/
  (~ In key (map fst m) /\ Map_set key v m = (m ++ [(key, v)])%list).
Proof.
  induction m as [| [k x] m IH]; cbn.
  - right. split; [tauto | reflexivity].
  - destruct (String.eqb_spec k key) as [-> | Hk].
    + left. exists [], x, m. split; reflexivity.
    + destruct IH as [(m1 & y & m2 & -> & ->) | [Hn ->]].
      * left. exists ((k, x) :: m1), y, m2. split; reflexivity.
      * right. split; [intros [E | I]; auto | reflexivity].
Qed.

Lemma NoDup_map_replace {A B} (g : A -> B) (m1 m2 : list A) (e e' : A) :
  NoDup (map g (m1 ++ e :: m2)) ->
  ~ In (g e') (map g m1) -> ~ In (g e') (map g m2) ->
  NoDup (map g (m1 ++ e' :: m2)).
Proof.
  rewrite !map_app. cbn [map]. intros H H1 H2.
  apply NoDup_remove_1 in H.
  apply (Permutation_NoDup (Permutation_middle _ _ _)).
  constructor; [| exact H].
  intros I. apply in_app_or in I. tauto.
Qed.

Lemma NoDup_map_snoc {A B} (g : A -> B) (m : list A) (e : A) :
  NoDup (map g m) -> ~ In (g e) (map g m) -> NoDup (map g (m ++ [e])).
Proof.
  intros H Hn. rewrite map_app. cbn [map].
  apply (Permutation_NoDup (Permutation_cons_append _ _)).
  constructor; assumption.
Qed.

Lemma NoDup_map_filter {A B} (g : A -> B) (p : A -> bool) (m : list A) :
  NoDup (map g m) -> NoDup (map g (filter p m)).
Proof.
  induction m as [| x m IH]; cbn; [auto |].
  intros H. inversion H as [| ? ? Hn Hm]; subst.
  destruct (p x); cbn; [| auto].
  constructor; [| auto].
  intros I. apply Hn. apply in_map_iff in I.
  destruct I as (y & E & I). apply filter_In in I.
  apply in_map_iff. exists y. tauto.
Qed.

(** ** Layers of the map *)

Lemma map_remove_In (l x : GraphicsLayer) (layers : list GraphicsLayer) :
  In x (map_remove l layers) -> In x layers.
Proof.
  induction layers as [| y layers IH]; cbn; [auto |].
  destruct (Nat.eqb (object y) (object l)); cbn; [auto |].
  intros [E | I]; auto.
Qed.

Lemma map_remove_other (l x : GraphicsLayer) (layers : list GraphicsLayer) :
  In x layers -> object x <> object l -> In x (map_remove l layers).
Proof.
  induction layers as [| y layers IH]; cbn; [auto |].
  intros [-> | I] Hne.
  - apply Nat.eqb_neq in Hne. rewrite Hne. left; reflexivity.
  - destruct (Nat.eqb (object y) (object l)); [exact I |].
    right. exact (IH I Hne).
Qed.

Lemma map_remove_NoDup (l : GraphicsLayer) (layers : list GraphicsLayer) :
  NoDup (map object layers) -> NoDup (map object (map_remove l layers)).
Proof.
  induction layers as [| y layers IH]; cbn; [auto |].
  intros H. inversion H as [| ? ? Hn Hm]; subst.
  destruct (Nat.eqb (object y) (object l)); [exact Hm |].
  cbn. constructor; [| auto].
  intros I. apply Hn. apply in_map_iff in I.
  destruct I as (z & E & I). apply map_remove_In in I.
  apply in_map_iff. eauto.
Qed.

Lemma map_remove_last (l : GraphicsLayer) (layers : list GraphicsLayer) :
  Forall (fun x => (object x < object l)%nat) layers ->
  map_remove l (layers ++ [l]) = layers.
Proof.
  induction 1 as [| y layers Hy _ IH]; cbn.
  - rewrite Nat.eqb_refl. reflexivity.
  - assert (E : Nat.eqb (object y) (object l) = false)
      by (apply Nat.eqb_neq; lia).
    rewrite E, IH. reflexivity.
Qed.

Lemma Map_get_set_same {V} (key : string) (v : V) (m : Map V) :
  Map_get key (Map_set key v m) = Some v.
Proof.
  induction m as [| [k x] m IH]; cbn.
  - rewrite String.eqb_refl. reflexivity.
  - destruct (String.eqb_spec k key) as [-> | Hk]; cbn.
    + rewrite String.eqb_refl. reflexivity.
    + apply String.eqb_neq in Hk. rewrite Hk. exact IH.
Qed.

Lemma Map_set_In {V} (key : string) (v : V) (m : Map V)
  (entry : string * V) :
  NoDup (map fst m) ->
  In entry (Map_set key v m) ->
  entry = (key, v) \/ (In entry m /\ fst entry <> key).
Proof.
  intros Hnd.
  destruct (Map_set_shape key v m) as [(m1 & x & m2 & -> & ->) | [Hn ->]].
  - rewrite map_app in Hnd. cbn [map fst] in Hnd.
    pose proof (NoDup_remove_2 _ _ _ Hnd) as Hk.
    intros I. apply in_app_or in I. destruct I as [I | [<- | I]]; auto.
    + right. split; [apply in_or_app; auto |].
      intros E. apply Hk. apply in_or_app. left.
      rewrite <- E. apply in_map, I.
    + right. split; [apply in_or_app; right; right; exact I |].
      intros E. apply Hk. apply in_or_app. right.
      rewrite <- E. apply in_map, I.
  - intros I. apply in_app_or in I. destruct I as [I | [<- | []]]; auto.
    right. split; [exact I |]. intros E. apply Hn. rewrite <- E.
    apply in_map, I.
Qed.

Lemma NoDup_map_inj {A B} (g : A -> B) (m : list A) (x y : A) :
  NoDup (map g m) -> In x m -> In y m -> g x = g y -> x = y.
Proof.
  induction m as [| z m IH]; [contradiction |].
  cbn [map]. intros H. inversion H as [| ? ? Hn Hm]; subst.
  intros [-> | Ix] [-> | Iy] E; auto.
  - exfalso. apply Hn. rewrite E. apply in_map, Iy.
  - exfalso. apply Hn. rewrite <- E. apply in_map, Ix.
Qed.

(** ** Invariants of the page *)

Section PageProperties.

Variable NumberToString : number -> string.
Variable TypeErrorMessage : string.

Local Notation "'loadOnPage'" := (loadGeoJSONOnPage NumberToString).
Local Notation "'step''" := (step NumberToString TypeErrorMessage).
Local Notation "'run''" := (run NumberToString TypeErrorMessage).

Lemma well_formed_same (st st' : Page) :
  mapLayers st' = mapLayers st -> loadedLayers st' = loadedLayers st ->
  nextObject st' = nextObject st ->
  well_formed st -> well_formed st'.
Proof.
  unfold well_formed. intros -> -> ->. auto.
Qed.

Lemma loadOnPage_inv (geojsonData : Document.t) (name : string)
  (now : number) (st st1 : Page) :
  loadOnPage geojsonData name now st = Ok st1 ->
  exists r,
    loadGeoJSON NumberToString geojsonData = Ok r /\
    let newLayer := {| object := nextObject st; layer_title := name;
                       layer_graphics := graphics r |} in
    let entries :=
      Map_set ("layer-" ++ NumberToString now)
        {| layer := newLayer; fileName := name |} (loadedLayers st) in
    mapLayers st1 = (mapLayers st ++ [newLayer])%list /\
    loadedLayers st1 = entries /\
    layerListEl st1 = renderLayerList entries /\
    notification st1 = notification st /\
    timeouts st1 = timeouts st /\
    fileNameDisplay st1 = fileNameDisplay st /\
    nextObject st1 = S (nextObject st).
Proof.
  unfold loadGeoJSONOnPage.
  destruct (loadGeoJSON NumberToString geojsonData) as [r |];
    cbn [bind]; [| discriminate].
  intros H. injection H as <-. exists r. split; [reflexivity |].
  cbn. repeat split.
Qed.

Lemma loadOnPage_well_formed (geojsonData : Document.t) (name : string)
  (now : number) (st st1 : Page) :
  well_formed st ->
  loadOnPage geojsonData name now st = Ok st1 ->
  well_formed st1.
Proof.
  intros (Hobj & Hlt & Hkeys & Hreg & Hon) H.
  destruct (loadOnPage_inv _ _ _ _ _ H)
    as (r & _ & Em & Er & _ & _ & _ & _ & En).
  cbv zeta in Em, Er.
  set (newLayer := {| object := nextObject st; layer_title := name;
                      layer_graphics := graphics r |}) in *.
  set (entry := {| layer := newLayer; fileName := name |}) in *.
  set (key := "layer-" ++ NumberToString now) in *.
  assert (Hfresh : ~ In (nextObject st) (map object (mapLayers st))).
  { intros I. apply in_map_iff in I. destruct I as (l & E & I).
    rewrite Forall_forall in Hlt. specialize (Hlt l I). lia. }
  assert (Hregfresh :
    forall m, incl m (loadedLayers st) ->
      ~ In (nextObject st)
           (map (fun e => object (layer (snd e))) m)).
  { intros m Hm I. apply in_map_iff in I. destruct I as (e & E & I).
    rewrite Forall_forall in Hon, Hlt.
    specialize (Hlt _ (Hon e (Hm e I))). lia. }
  unfold well_formed. rewrite Em, Er, En. repeat split.
  - apply NoDup_map_snoc; assumption.
  - apply Forall_app. split.
    + apply Forall_impl with (2 := Hlt). intros l Hl. lia.
    + constructor; [cbn; lia | constructor].
  - destruct (Map_set_shape key entry (loadedLayers st))
      as [(m1 & x & m2 & E & ->) | [Hn ->]].
    + rewrite E in Hkeys. rewrite map_app in *. exact Hkeys.
    + apply NoDup_map_snoc; assumption.
  - destruct (Map_set_shape key entry (loadedLayers st))
      as [(m1 & x & m2 & E & ->) | [Hn ->]].
    + rewrite E in Hreg.
      apply (NoDup_map_replace _ m1 m2 (key, x)); [exact Hreg | |].
      * apply Hregfresh. rewrite E. apply incl_appl, incl_refl.
      * apply Hregfresh. rewrite E. apply incl_appr, incl_tl, incl_refl.
    + apply NoDup_map_snoc; [exact Hreg |].
      apply Hregfresh, incl_refl.
  - apply Forall_forall. intros e I.
    destruct (Map_set_In _ _ _ _ Hkeys I) as [-> | [I' _]].
    + apply in_or_app. right. left. reflexivity.
    + apply in_or_app. left. rewrite Forall_forall in Hon. exact (Hon e I').
Qed.

Lemma removeLayer_inv (layerId : string) (st : Page) (data : LoadedLayer) :
  Map_get layerId (loadedLayers st) = Some data ->
  let st' := removeLayer layerId st in
  mapLayers st' = map_remove (layer data) (mapLayers st) /\
  loadedLayers st' = Map_delete layerId (loadedLayers st) /\
  layerListEl st' = renderLayerList (Map_delete layerId (loadedLayers st)) /\
  textContent (notification st') = "Removed " ++ fileName data /\
  className (notification st') = "notification success show" /\
  nextObject st' = nextObject st.
Proof.
  intros E. unfold removeLayer. rewrite E. cbn. repeat split.
Qed.

Lemma removeLayer_well_formed (layerId : string) (st : Page) :
  well_formed st -> well_formed (removeLayer layerId st).
Proof.
  intros W.
  destruct (Map_get layerId (loadedLayers st)) as [data |] eqn:E;
    [| unfold removeLayer; rewrite E; exact W].
  destruct (removeLayer_inv layerId st data E)
    as (Em & Er & _ & _ & _ & En).
  destruct W as (Hobj & Hlt & Hkeys & Hreg & Hon).
  unfold well_formed. rewrite Em, Er, En. repeat split.
  - apply map_remove_NoDup, Hobj.
  - apply Forall_forall. intros l I. apply map_remove_In in I.
    rewrite Forall_forall in Hlt. auto.
  - apply NoDup_map_filter, Hkeys.
  - apply NoDup_map_filter, Hreg.
  - apply Forall_forall. intros e I. apply Map_delete_In in I.
    destruct I as [I Hk]. rewrite Forall_forall in Hon.
    apply map_remove_other; [exact (Hon e I) |].
    intros Eo. apply Hk.
    assert (Ee : e = (layerId, data)).
    { apply (NoDup_map_inj _ _ _ _ Hreg I (Map_get_In _ _ _ E)).
      exact Eo. }
    rewrite Ee. reflexivity.
Qed.

Lemma step_well_formed (st : Page) (e : event) :
  well_formed st -> well_formed (step' st e).
Proof.
  intros W. destruct e as [[name |] | name [msg | doc] now | name | id |];
    cbn [step]; try exact W;
    try (revert W; apply well_formed_same; reflexivity).
  - unfold handleGeoJSONUpload_read.
    destruct (loadOnPage doc name now st) as [st1 | []] eqn:E.
    + exact (loadOnPage_well_formed _ _ _ _ _ W E).
    + revert W. apply well_formed_same; reflexivity.
  - apply removeLayer_well_formed, W.
  - unfold timeoutFires. destruct (timeouts st); [exact W |].
    revert W. apply well_formed_same; reflexivity.
Qed.

Lemma step_list_in_sync (st : Page) (e : event) :
  list_in_sync st -> list_in_sync (step' st e).
Proof.
  unfold list_in_sync. intros S.
  destruct e as [[name |] | name [msg | doc] now | name | id |];
    cbn [step]; try exact S.
  - unfold handleGeoJSONUpload_read.
    destruct (loadOnPage doc name now st) as [st1 | []] eqn:E;
      [| exact S].
    destruct (loadOnPage_inv _ _ _ _ _ E) as (r & _ & _ & Er & El & _).
    cbv zeta in Er, El. rewrite El, Er. reflexivity.
  - destruct (Map_get id (loadedLayers st)) as [data |] eqn:E;
      [| unfold removeLayer; rewrite E; exact S].
    destruct (removeLayer_inv id st data E) as (_ & Er & El & _).
    rewrite El, Er. reflexivity.
  - unfold timeoutFires. destruct (timeouts st); exact S.
Qed.

Lemma step_orphan (l : GraphicsLayer) (st : Page) (e : event) :
  orphan l st -> orphan l (step' st e).
Proof.
  intros O.
  assert (same : forall st',
            mapLayers st' = mapLayers st ->
            loadedLayers st' = loadedLayers st ->
            nextObject st' = nextObject st -> orphan l st').
  { unfold orphan. intros st' -> -> ->. exact O. }
  destruct O as (Hin & Hlt & Hreg).
  destruct e as [[name |] | name [msg | doc] now | name | id |];
    cbn [step]; try (apply same; reflexivity).
  - unfold handleGeoJSONUpload_read.
    destruct (loadOnPage doc name now st) as [st1 | []] eqn:E;
      [| apply same; reflexivity].
    destruct (loadOnPage_inv _ _ _ _ _ E)
      as (r & _ & Em & Er & _ & _ & _ & _ & En).
    cbv zeta in Em, Er. unfold orphan. rewrite Em, Er, En.
    repeat split; [apply in_or_app; auto | lia |].
    apply Forall_forall. intros e I.
    destruct (Map_set_shape ("layer-" ++ NumberToString now)
                {| layer := {| object := nextObject st; layer_title := name;
                               layer_graphics := graphics r |};
                   fileName := name |} (loadedLayers st))
      as [(m1 & x & m2 & Es & Eset) | [_ Eset]];
      rewrite Eset in I; rewrite Forall_forall in Hreg.
    + apply in_app_or in I. destruct I as [I | [<- | I]].
      * apply Hreg. rewrite Es. apply in_or_app. auto.
      * cbn. lia.
      * apply Hreg. rewrite Es. apply in_or_app. right. right. exact I.
    + apply in_app_or in I. destruct I as [I | [<- | []]].
      * apply Hreg, I.
      * cbn. lia.
  - destruct (Map_get id (loadedLayers st)) as [data |] eqn:E;
      [| unfold removeLayer; rewrite E; apply same; reflexivity].
    destruct (removeLayer_inv id st data E) as (Em & Er & _ & _ & _ & En).
    unfold orphan. rewrite Em, Er, En. rewrite Forall_forall in Hreg.
    repeat split.
    + apply map_remove_other; [exact Hin |].
      intros Eo. apply (Hreg _ (Map_get_In _ _ _ E)). cbn. auto.
    + exact Hlt.
    + apply Forall_forall. intros e I. apply Map_delete_In in I.
      apply Hreg. tauto.
  - unfold timeoutFires. destruct (timeouts st); apply same; reflexivity.
Qed.

Lemma run_invariant (P : Page -> Prop) (events : list event) :
  (forall st e, P st -> P (step' st e)) ->
  forall st, P st -> P (run' events st).
Proof.
  intros Hstep. unfold run.
  induction events as [| e events IH]; intros st H; [exact H |].
  cbn [fold_left]. apply IH, Hstep, H.
Qed.

End PageProperties.

(** X15: whatever files are selected, read and loaded, whatever Remove
    buttons are clicked and whenever timeouts run, a well-formed page stays
    well formed (the registered layers are distinct layers of the map,
    under distinct identifiers) and the layer list keeps showing the
    registry. *)
Theorem page_invariants (NumberToString : number -> string)
  (TypeErrorMessage : string) (events : list event) (st : Page) :
  well_formed st -> list_in_sync st ->
  well_formed (run NumberToString TypeErrorMessage events st) /\
  list_in_sync (run NumberToString TypeErrorMessage events st).
Proof.
  intros W S. split.
  - apply (run_invariant NumberToString TypeErrorMessage well_formed);
      [apply step_well_formed | exact W].
  - apply (run_invariant NumberToString TypeErrorMessage list_in_sync);
      [apply step_list_in_sync | exact S].
Qed.

Lemma sample_page_well_formed : well_formed sample_page.
Proof. unfold well_formed. cbn. repeat split; constructor. Qed.

Lemma page_invariants_witness :
  well_formed
    (run IntegerToString "TypeError"
       [FileSelected (Some "a.geojson");
        FileRead "a.geojson" (Parsed sample_document) (of_Z 1700000000000);
        FileLoaded "a.geojson"; TimeoutFired;
        RemoveClicked "layer-1700000000000"] sample_page) /\
  list_in_sync
    (run IntegerToString "TypeError"
       [FileSelected (Some "a.geojson");
        FileRead "a.geojson" (Parsed sample_document) (of_Z 1700000000000);
        FileLoaded "a.geojson"; TimeoutFired;
        RemoveClicked "layer-1700000000000"] sample_page).
Proof.
  apply (page_invariants IntegerToString "TypeError").
  - exact sample_page_well_formed.
  - reflexivity.
Defined.

(** ** Loading and removing *)

(** X16: on a well-formed page, loading a document under an identifier
    that is not in use and then removing that identifier gives back the
    layers of the map and the registry as they were; the list shows the
    old registry and the notification names the file. *)
Theorem load_then_remove (NumberToString : number -> string)
  (geojsonData : Document.t) (name : string) (now : number)
  (st st1 : Page) :
  well_formed st ->
  Map_get ("layer-" ++ NumberToString now) (loadedLayers st) = None ->
  loadGeoJSONOnPage NumberToString geojsonData name now st = Ok st1 ->
  mapLayers (removeLayer ("layer-" ++ NumberToString now) st1)
    = mapLayers st /\
  loadedLayers (removeLayer ("layer-" ++ NumberToString now) st1)
    = loadedLayers st /\
  layerListEl (removeLayer ("layer-" ++ NumberToString now) st1)
    = renderLayerList (loadedLayers st) /\
  textContent (notification
                 (removeLayer ("layer-" ++ NumberToString now) st1))
    = "Removed " ++ name.
Proof.
  intros (_ & Hlt & _) Hfresh H.
  destruct (loadOnPage_inv NumberToString _ _ _ _ _ H)
    as (r & _ & Em & Er & _).
  cbv zeta in Em, Er.
  set (key := "layer-" ++ NumberToString now) in *.
  set (newLayer := {| object := nextObject st; layer_title := name;
                      layer_graphics := graphics r |}) in *.
  apply Map_get_None in Hfresh.
  assert (G : Map_get key (loadedLayers st1)
              = Some {| layer := newLayer; fileName := name |}).
  { rewrite Er. apply Map_get_set_same. }
  destruct (removeLayer_inv key st1 _ G) as (Em' & Er' & El' & Et' & _).
  rewrite Em', Er', El', Et', Em, Er.
  rewrite (Map_delete_set _ _ _ Hfresh).
  cbn [layer fileName]. repeat split.
  apply map_remove_last. exact Hlt.
Qed.

Lemma load_then_remove_witness :
  exists st1,
    loadGeoJSONOnPage IntegerToString sample_document "a.geojson"
      (of_Z 1700000000000) sample_page = Ok st1 /\
    mapLayers (removeLayer "layer-1700000000000" st1) = [] /\
    loadedLayers (removeLayer "layer-1700000000000" st1) = [].
Proof.
  eexists. split; [reflexivity |].
  destruct (load_then_remove IntegerToString sample_document "a.geojson"
              (of_Z 1700000000000) sample_page _
              sample_page_well_formed eq_refl eq_refl) as (E1 & E2 & _).
  split; [exact E1 | exact E2].
Defined.

(** X17: two loads made at the same reading of the clock get the same
    identifier: the second takes the place of the first in the registry,
    and the layer of the first stays on the map for good, whatever is
    clicked, loaded or removed afterwards. *)
Theorem same_clock_orphan (NumberToString : number -> string)
  (TypeErrorMessage : string)
  (docA docB : Document.t) (nameA nameB : string) (now : number)
  (st st1 st2 : Page) :
  well_formed st ->
  loadGeoJSONOnPage NumberToString docA nameA now st = Ok st1 ->
  loadGeoJSONOnPage NumberToString docB nameB now st1 = Ok st2 ->
  exists layerA,
    In layerA (mapLayers st1) /\
    layer_title layerA = nameA /\
    (forall layerId data,
       Map_get layerId (loadedLayers st2) = Some data ->
       object (layer data) <> object layerA) /\
    forall events,
      In layerA (mapLayers (run NumberToString TypeErrorMessage events st2)).
Proof.
  intros W HA HB.
  pose proof (loadOnPage_well_formed NumberToString _ _ _ _ _ W HA) as W1.
  destruct (loadOnPage_inv NumberToString _ _ _ _ _ HA)
    as (rA & _ & EmA & ErA & _ & _ & _ & _ & EnA).
  destruct (loadOnPage_inv NumberToString _ _ _ _ _ HB)
    as (rB & _ & EmB & ErB & _ & _ & _ & _ & EnB).
  cbv zeta in EmA, ErA, EmB, ErB.
  set (key := "layer-" ++ NumberToString now) in *.
  set (layerA := {| object := nextObject st; layer_title := nameA;
                    layer_graphics := graphics rA |}) in *.
  set (entryA := {| layer := layerA; fileName := nameA |}) in *.
  assert (GA : Map_get key (loadedLayers st1) = Some entryA).
  { rewrite ErA. apply Map_get_set_same. }
  assert (O : orphan layerA st2).
  { destruct W1 as (_ & _ & Hkeys1 & Hreg1 & _).
    unfold orphan. rewrite EmB, ErB, EnB, EmA, EnA. repeat split.
    - apply in_or_app. left. apply in_or_app. right. left. reflexivity.
    - cbn. lia.
    - apply Forall_forall. intros e I.
      destruct (Map_set_In _ _ _ _ Hkeys1 I) as [-> | [I' Hk]].
      + cbn. lia.
      + intros Eo. apply Hk.
        assert (Ee : e = (key, entryA)).
        { apply (NoDup_map_inj _ _ _ _ Hreg1 I' (Map_get_In _ _ _ GA)).
          exact Eo. }
        rewrite Ee. reflexivity. }
  exists layerA. repeat split.
  - rewrite EmA. apply in_or_app. right. left. reflexivity.
  - intros layerId data G. destruct O as (_ & _ & Hreg).
    rewrite Forall_forall in Hreg.
    exact (Hreg _ (Map_get_In _ _ _ G)).
  - intros events.
    apply (run_invariant NumberToString TypeErrorMessage (orphan layerA));
      [apply step_orphan | exact O].
Qed.

Lemma same_clock_orphan_witness :
  exists st1 st2 layerA,
    loadGeoJSONOnPage IntegerToString sample_document "a.geojson"
      (of_Z 1700000000000) sample_page = Ok st1 /\
    loadGeoJSONOnPage IntegerToString sample_document "b.geojson"
      (of_Z 1700000000000) st1 = Ok st2 /\
    layer_title layerA = "a.geojson" /\
    forall events,
      In layerA (mapLayers (run IntegerToString "TypeError" events st2)).
Proof.
  eexists. eexists.
  destruct (same_clock_orphan IntegerToString "TypeError"
              sample_document sample_document "a.geojson" "b.geojson"
              (of_Z 1700000000000) sample_page _ _
              sample_page_well_formed eq_refl eq_refl)
    as (layerA & _ & Et & _ & Hr).
  exists layerA. repeat split; [exact Et | exact Hr].
Defined.

(** ** Uploads that fail *)

(** X18: when the file cannot be read or parsed, or [loadGeoJSON] throws,
    the page keeps its layers, its registry, its layer list and its view:
    nothing of the file is put on the map.  The error is notified and the
    file name display is emptied. *)
Theorem upload_failure_leaves_layers (NumberToString : number -> string)
  (TypeErrorMessage : string) (name : string) (content : FileContent)
  (now : number) (st : Page) :
  match content with
  | Unreadable _ => True
  | Parsed geojsonData =>
      loadGeoJSON NumberToString geojsonData = Throw TypeError
  end ->
  let st' :=
    handleGeoJSONUpload_read NumberToString TypeErrorMessage
      name content now st in
  mapLayers st' = mapLayers st /\
  loadedLayers st' = loadedLayers st /\
  layerListEl st' = layerListEl st /\
  goToCalls st' = goToCalls st /\
  fileNameDisplay st' = "" /\
  className (notification st') = "notification error show" /\
  textContent (notification st') =
    "Error loading file: " ++
    match content with
    | Unreadable message => message
    | Parsed _ => TypeErrorMessage
    end.
Proof.
  destruct content as [message | geojsonData]; cbn zeta.
  - intros _. cbn. repeat split.
  - intros E. unfold handleGeoJSONUpload_read, loadGeoJSONOnPage.
    rewrite E. cbn. repeat split.
Qed.

Lemma upload_failure_leaves_layers_witness :
  mapLayers
    (handleGeoJSONUpload_read IntegerToString "TypeError" "bad.geojson"
       (Parsed (Document.Build "FeatureCollection"
                  (Some [sample_point_feature; Feature.Build None None])
                  None None))
       (of_Z 1700000000000) sample_page) = [] /\
  fileNameDisplay
    (handleGeoJSONUpload_read IntegerToString "TypeError" "bad.geojson"
       (Parsed (Document.Build "FeatureCollection"
                  (Some [sample_point_feature; Feature.Build None None])
                  None None))
       (of_Z 1700000000000) sample_page) = "".
Proof.
  destruct (upload_failure_leaves_layers IntegerToString "TypeError"
              "bad.geojson"
              (Parsed (Document.Build "FeatureCollection"
                         (Some [sample_point_feature;
                                Feature.Build None None])
                         None None))
              (of_Z 1700000000000) sample_page eq_refl)
    as (E1 & _ & _ & _ & E2 & _).
  split; [exact E1 | exact E2].
Defined.

(** ** Removing twice *)

(** X19: removing an identifier a second time does nothing at all: the
    page, its notification and its timeouts included, is the one the first
    removal left. *)
Theorem removeLayer_twice (layerId : string) (st : Page) :
  removeLayer layerId (removeLayer layerId st) = removeLayer layerId st.
Proof.
  destruct (Map_get layerId (loadedLayers st)) as [data |] eqn:E.
  - destruct (removeLayer_inv layerId st data E) as (_ & Er & _).
    unfold removeLayer at 1. rewrite Er, Map_get_delete. reflexivity.
  - unfold removeLayer. rewrite E, E. reflexivity.
Qed.

(** ** Notifications and their timeouts *)

(** X20: the timeout of a notification hides whatever notification is
    shown when it runs: after two notifications in a row, when the first
    timeout runs the text is the one of the second notification and the
    class list has lost [show], while the timeout of the second is still
    to come. *)
Theorem timeout_hides_later_notification
  (message1 type1 message2 type2 : string) (st : Page) :
  type2 = "success" \/ type2 = "error" ->
  let st' :=
    timeoutFires
      (showNotification message2 type2
         (showNotification message1 type1 st)) in
  textContent (notification st') = message2 /\
  className (notification st') = "notification " ++ type2 /\
  existsb (String.eqb "show") (classList (className (notification st')))
    = false /\
  timeouts st' = S (timeouts st).
Proof.
  intros [-> | ->]; cbv zeta; repeat split; vm_compute; reflexivity.
Qed.

Lemma timeout_hides_later_notification_witness :
  className
    (notification
       (timeoutFires
          (showNotification "Successfully loaded b.geojson" "success"
             (showNotification "Removed a.geojson" "success" sample_page))))
  = "notification success".
Proof.
  destruct (timeout_hides_later_notification
              "Removed a.geojson" "success"
              "Successfully loaded b.geojson" "success" sample_page
              (or_introl eq_refl)) as (_ & E & _).
  exact E.
Defined.

(** ** The box depends on the positions only *)

Lemma bounding_unique (e e' : value * value * value * value)
  (S : list value) :
  Forall (fun p => numeric_position p = true) S ->
  bounding e S -> bounding e' S -> e = e'.
Proof.
  intros HS (_ & C & A) (_ & C' & A').
  destruct e as [[[a b] c] d], e' as [[[a' b'] c'] d'].
  destruct A as ((p1 & I1 & E1) & (p2 & I2 & E2) &
                 (p3 & I3 & E3) & (p4 & I4 & E4)).
  destruct A' as ((q1 & J1 & F1) & (q2 & J2 & F2) &
                  (q3 & J3 & F3) & (q4 & J4 & F4)).
  rewrite Forall_forall in HS.
  assert (same : forall (i : nat) (p q : value),
            (i < 2)%nat -> In p S -> In q S ->
            ~ precedes (ToNumber (item p i)) (ToNumber (item q i)) ->
            ~ precedes (ToNumber (item q i)) (ToNumber (item p i)) ->
            item p i = item q i).
  { intros i p q Hi Ip Iq H1 H2.
    destruct (numeric_position_items p (HS p Ip))
      as (x & y & P0 & P1 & Hx & Hy).
    destruct (numeric_position_items q (HS q Iq))
      as (x' & y' & Q0 & Q1 & Hx' & Hy').
    destruct i as [| [| i]]; [| | lia].
    - rewrite P0, Q0 in *. cbn [ToNumber] in H1, H2.
      destruct (precedes_total x x' Hx Hx') as [H | [H | H]];
        [contradiction | congruence | contradiction].
    - rewrite P1, Q1 in *. cbn [ToNumber] in H1, H2.
      destruct (precedes_total y y' Hy Hy') as [H | [H | H]];
        [contradiction | congruence | contradiction]. }
  pose proof (C q1 J1) as (K1 & _). pose proof (C' p1 I1) as (L1 & _).
  pose proof (C q2 J2) as (_ & _ & K2 & _).
  pose proof (C' p2 I2) as (_ & _ & L2 & _).
  pose proof (C q3 J3) as (_ & K3 & _).
  pose proof (C' p3 I3) as (_ & L3 & _).
  pose proof (C q4 J4) as (_ & _ & _ & K4).
  pose proof (C' p4 I4) as (_ & _ & _ & L4).
  subst a b c d a' b' c' d'.
  rewrite (same 0%nat p1 q1), (same 1%nat p2 q2),
          (same 0%nat p3 q3), (same 1%nat p4 q4);
    try assumption; try lia; reflexivity.
Qed.

Lemma bounding_same_positions (e : value * value * value * value)
  (S S' : list value) :
  incl S S' -> incl S' S -> bounding e S -> bounding e S'.
Proof.
  intros H H' (O & C & A). split; [exact O |]. split.
  - intros p Hp. apply C, H', Hp.
  - destruct e as [[[a b] c] d].
    destruct A as ((p1 & I1 & E1) & (p2 & I2 & E2) &
                   (p3 & I3 & E3) & (p4 & I4 & E4)).
    unfold attained. repeat split.
    + exists p1. split; [apply H, I1 | exact E1].
    + exists p2. split; [apply H, I2 | exact E2].
    + exists p3. split; [apply H, I3 | exact E3].
    + exists p4. split; [apply H, I4 | exact E4].
Qed.

Lemma foldBounds_spatialReference (l : list ArcGISGeometry) :
  forall start b,
    match start with
    | Some b0 => spatialReference b0 = wgs84
    | None => True
    end ->
    foldBounds l start = Ok (Some b) -> spatialReference b = wgs84.
Proof.
  unfold foldBounds. induction l as [| g l IH]; intros start b Hs.
  - cbn. intros H. inversion H. subst start. exact Hs.
  - cbn [forEach]. rewrite updateBounds_merge.
    destruct (geometry_extent g) as [[[[minX minY] maxX] maxY] |];
      cbn [bind]; [| discriminate].
    apply IH. destruct start; cbn; [exact Hs | reflexivity].
Qed.

(** X21: the box depends on the positions only: two non-empty lists of
    numeric points, polylines and polygons that hold the same positions,
    however these are grouped, ordered or repeated, give the same box. *)
Theorem foldBounds_same_positions (l l' : list ArcGISGeometry) :
  l <> [] -> l' <> [] ->
  forallb numeric_geometry l = true ->
  forallb numeric_geometry l' = true ->
  incl (all_positions l) (all_positions l') ->
  incl (all_positions l') (all_positions l) ->
  foldBounds l None = foldBounds l' None.
Proof.
  intros Hne Hne' Hl Hl' Hi Hi'.
  destruct (foldBounds_bounding l Hne Hl) as (b & F & B & HS).
  destruct (foldBounds_bounding l' Hne' Hl') as (b' & F' & B' & HS').
  rewrite F, F'. f_equal. f_equal.
  pose proof (foldBounds_spatialReference l None b I F) as R.
  pose proof (foldBounds_spatialReference l' None b' I F') as R'.
  pose proof (bounding_unique _ _ _ HS'
                (bounding_same_positions _ _ _ Hi Hi' B) B') as E.
  destruct b, b'. unfold box_extent in E. cbn in *.
  inversion E. congruence.
Qed.

Lemma foldBounds_same_positions_witness :
  foldBounds
    [polyline (Arr [Arr [pos 0 0; pos 4 0]; Arr [pos 4 5; pos 0 0]])] None =
  foldBounds
    [polyline (Arr [Arr [pos 4 5; pos 0 0]]); point (Num (of_Z 0)) (Num (of_Z 0));
     polyline (Arr [Arr [pos 0 0; pos 4 0]])] None.
Proof.
  apply foldBounds_same_positions;
    try discriminate; try reflexivity.
  - intros p [<- | [<- | [<- | [<- | []]]]]; cbn; auto 8.
  - intros p [<- | [<- | [<- | [<- | [<- | []]]]]]; cbn; auto 8.
Defined.

(** * Properties of the location handler *)

Lemma split_from_piece (a : string) :
  forall current, no_comma a = true -> split_from current a = [current ++ a].
Proof.
  induction a as [| c a IH]; intros current; cbn.
  - intros _. rewrite append_empty_r. reflexivity.
  - rewrite andb_true_iff, negb_true_iff. intros [Hc Ha].
    rewrite Hc, (IH _ Ha), append_assoc. reflexivity.
Qed.

Lemma split_from_comma (a rest : string) :
  forall current,
    no_comma a = true ->
    split_from current (a ++ "," ++ rest) =
    (current ++ a) :: split_from "" rest.
Proof.
  induction a as [| c a IH]; intros current; cbn.
  - intros _. rewrite append_empty_r. reflexivity.
  - rewrite andb_true_iff, negb_true_iff. intros [Hc Ha].
    rewrite Hc. cbn in IH. rewrite (IH _ Ha), append_assoc. reflexivity.
Qed.

Lemma split_comma_concat (parts : list string) :
  parts <> [] -> Forall (fun s => no_comma s = true) parts ->
  split_comma (String.concat "," parts) = parts.
Proof.
  unfold split_comma. induction parts as [| a parts IH]; [congruence |].
  intros _ H. inversion H as [| ? ? Ha Hparts]; subst.
  destruct parts as [| b parts].
  - cbn. apply (split_from_piece a "" Ha).
  - change (String.concat "," (a :: b :: parts))
      with (a ++ "," ++ String.concat "," (b :: parts)).
    rewrite (split_from_comma a _ "" Ha), IH; [reflexivity | | exact Hparts].
    discriminate.
Qed.

Lemma append_comma_not_empty (a rest : string) :
  (a ++ "," ++ rest =? "") = false.
Proof. destruct a; reflexivity. Qed.

(** X22: a location value made of a longitude, a latitude, a zoom and
    possibly more pieces, joined with commas, sets the center to the
    longitude and the latitude joined with a comma and a space and the zoom
    to [parseInt] of the third piece; the basemap is kept and the further
    pieces are ignored. *)
Theorem handleLocationChange_pieces (parseInt : string -> number)
  (lon lat zoom_text : string) (more : list string) (mapEl : MapElement) :
  no_comma lon = true -> no_comma lat = true -> no_comma zoom_text = true ->
  Forall (fun s => no_comma s = true) more ->
  handleLocationChange parseInt
    (String.concat "," (lon :: lat :: zoom_text :: more)) mapEl =
  {| basemap := basemap mapEl;
     center := lon ++ ", " ++ lat;
     zoom := parseInt zoom_text |}.
Proof.
  intros H1 H2 H3 Hm. unfold handleLocationChange.
  change (String.concat "," (lon :: lat :: zoom_text :: more))
    with (lon ++ "," ++ String.concat "," (lat :: zoom_text :: more)) at 1.
  rewrite append_comma_not_empty.
  rewrite split_comma_concat; [reflexivity | discriminate |].
  repeat constructor; assumption.
Qed.

Lemma handleLocationChange_pieces_witness :
  handleLocationChange (fun _ => of_Z 12) "-122.4194,37.7749,12"
    {| basemap := "topo"; center := ""; zoom := of_Z 3 |} =
  {| basemap := "topo"; center := "-122.4194, 37.7749"; zoom := of_Z 12 |}.
Proof.
  apply (handleLocationChange_pieces (fun _ => of_Z 12)
           "-122.4194" "37.7749" "12" []
           {| basemap := "topo"; center := ""; zoom := of_Z 3 |});
    try reflexivity.
  constructor.
Defined.

(** X23: a location value without any comma, if it is not empty, still
    moves the map: the center becomes the value followed by
    [", undefined"] and the zoom [parseInt] of ["undefined"]; only the
    empty value leaves the map as it is. *)
Theorem handleLocationChange_no_comma (parseInt : string -> number)
  (value : string) (mapEl : MapElement) :
  no_comma value = true ->
  handleLocationChange parseInt value mapEl =
  if value =? "" then mapEl
  else {| basemap := basemap mapEl;
          center := value ++ ", undefined";
          zoom := parseInt "undefined" |}.
Proof.
  intros H. unfold handleLocationChange.
  destruct (value =? ""); [reflexivity |].
  unfold split_comma. rewrite (split_from_piece value "" H). reflexivity.
Qed.

Lemma handleLocationChange_no_comma_witness :
  handleLocationChange (fun _ => NaN) "Paris"
    {| basemap := "topo"; center := "0, 0"; zoom := of_Z 3 |} =
  {| basemap := "topo"; center := "Paris, undefined"; zoom := NaN |}.
Proof.
  apply (handleLocationChange_no_comma (fun _ => NaN) "Paris"
           {| basemap := "topo"; center := "0, 0"; zoom := of_Z 3 |}).
  reflexivity.
Defined.
